(** * FOXML managed-to-inline conversion: a model of [foxml_scripts/multithreaded.py]

    The development follows the script function by function:
    [format_drush_command_from_atomzip], [get_bag_name_from_atomzip],
    [extract_bag_path_from_drush_command_stdout], [get_XML_tree_zip_file],
    [is_foxml_managed], [managed_to_inline] and [process_container_zip].
    [parse_arguments] is modelled too.  The thread pool of [run] starts one
    [process_container_zip] per input archive; the tasks share the list
    [bag_name_and_new_foxml] only, and the model is about one task.  The
    temporary directory and the writing of [map.csv] are left out, and so
    is the reporting module [report/general_helpers.py].

    Python values are modelled as follows.

    - [bytes] are Rocq strings, one [ascii] per byte, and a [str] is kept
      as its UTF-8 text: a character is a byte that is no continuation
      byte, followed by its continuation bytes.  All delimiters the script
      looks for are ASCII, so searching and cutting at a delimiter give the
      same result on both representations.  Where Python counts
      characters (a negative slice bound, the white space that [strip]
      removes) the model works on whole characters.
    - Python integers are [Z].  The position that [rfind] returns, the only
      slice bound of the script, is the offset of the delimiter in the
      UTF-8 text, or -1.
    - [None] is the [None] of [option].
    - An exception is a value of type [exn]; a computation that can raise
      returns a [result].
    - An [Element] is a tree; a reference to an element inside a tree is
      the path to it, and a mutation through a reference replaces the
      subtree at that path.
    - The world outside the script (the XML parser and serializer of the
      standard library, the two external tools, the archives on disk, and
      whether the operating system makes a directory) is a parameter of
      the model; the concrete runs use a model of the parser on a fragment
      of XML.
*)

From Stdlib Require Import String Ascii List ZArith Lia Bool.
Import ListNotations.

Set Warnings "-register-all".

Local Open Scope string_scope.
Local Open Scope Z_scope.

(* ====================================================================== *)
(** * Python string operations used by the script *)
(* ====================================================================== *)

Module PyStr.

(** [len(s)], in the unit of the positions: the length of the UTF-8
    text. *)
Definition len (s : string) : Z := Z.of_nat (String.length s).

(** Whether a byte of UTF-8 text continues a character (10xxxxxx). *)
Definition is_continuation (c : ascii) : bool :=
  let n := Ascii.nat_of_ascii c in
  ((128 <=? n) && (n <=? 191))%nat.

Fixpoint all_continuation (s : string) : bool :=
  match s with
  | EmptyString => true
  | String c s' => is_continuation c && all_continuation s'
  end.

(** The string without its last character, which is the last byte that
    is no continuation byte and the continuation bytes after it (the empty
    string stays empty). *)
Fixpoint drop_last (s : string) : string :=
  match s with
  | EmptyString => EmptyString
  | String a s' => if all_continuation s' then EmptyString else String a (drop_last s')
  end.

(** The string without its last [n] characters. *)
Fixpoint drop_last_n (n : nat) (s : string) : string :=
  match n with
  | O => s
  | S n' => drop_last_n n' (drop_last s)
  end.

(** [s.startswith(p)] *)
Definition startswith (p s : string) : bool := String.prefix p s.

(** [s.endswith(suf)] *)
Definition endswith (suf s : string) : bool :=
  let n := String.length s in
  let m := String.length suf in
  (m <=? n)%nat && String.eqb (String.substring (n - m) m s) suf.

(** [sub in s] *)
Fixpoint contains (sub s : string) : bool :=
  String.prefix sub s ||
  match s with
  | EmptyString => false
  | String _ s' => contains sub s'
  end.

(** Membership of one character, [c in s] for a one-character [c]. *)
Fixpoint has_char (c : ascii) (s : string) : bool :=
  match s with
  | EmptyString => false
  | String a s' => Ascii.eqb a c || has_char c s'
  end.

(** [os.path.basename(p)] on a POSIX system: what follows the last
    slash.  [acc] is the text after the last slash seen so far. *)
Fixpoint basename_go (acc p : string) : string :=
  match p with
  | EmptyString => acc
  | String c r => if Ascii.eqb c "/" then basename_go r r else basename_go acc r
  end.

Definition basename (p : string) : string := basename_go p p.

(** [s.replace(old, new)] for a non-empty [old]: the occurrences of [old]
    are found from left to right and do not overlap.  [skip] counts the
    characters of the current occurrence that are still to be dropped. *)
Fixpoint replace_go (old new : string) (skip : nat) (s : string) : string :=
  match s with
  | EmptyString => EmptyString
  | String c s' =>
      match skip with
      | S k => replace_go old new k s'
      | O =>
          if String.prefix old s
          then new ++ replace_go old new (String.length old - 1) s'
          else String c (replace_go old new 0 s')
      end
  end.

Definition replace (old new s : string) : string := replace_go old new 0 s.

(** [s.rfind(c)] for an ASCII character [c]: the position of the last
    [c] in [s], or [-1]. *)
Fixpoint rfind (c : ascii) (s : string) : Z :=
  match s with
  | EmptyString => -1
  | String a s' =>
      let r := rfind c s' in
      if 0 <=? r then r + 1 else if Ascii.eqb a c then 0 else -1
  end.

(** The place in [s] of a slice bound [i], brought into [0 .. len(s)] the
    way Python does: a bound that is not negative is a position as [rfind]
    returns it, a negative bound counts characters from the end, and
    bounds are clamped. *)
Definition clamp (s : string) (i : Z) : nat :=
  if i <? 0 then String.length (drop_last_n (Z.to_nat (- i)) s)
  else Z.to_nat (Z.min i (len s)).

(** [s[:i]] *)
Definition slice_to (s : string) (i : Z) : string :=
  String.substring 0 (clamp s i) s.

(** [s[i:]] *)
Definition slice_from (s : string) (i : Z) : string :=
  String.substring (clamp s i) (String.length s - clamp s i) s.

(** [s.split(sep, 1)[1]] for a one-character [sep] that occurs in [s]:
    what follows the first [sep]. *)
Fixpoint after_first (sep : ascii) (s : string) : string :=
  match s with
  | EmptyString => EmptyString
  | String a s' => if Ascii.eqb a sep then s' else after_first sep s'
  end.

End PyStr.

(* ====================================================================== *)
(** * Logical names of companion archives *)
(* ====================================================================== *)

Definition atomzip_suffix : string := "_foxml_atomzip.zip".

(** [get_bag_name_from_atomzip] *)
Definition get_bag_name_from_atomzip (atomzip_path : string) : string :=
  PyStr.replace atomzip_suffix "" (PyStr.basename atomzip_path).

(** The two locals [collection_name] and [pid] of
    [format_drush_command_from_atomzip]. *)
Definition collection_and_pid (zip_path : string) : string * string :=
  let zip_filename := PyStr.replace atomzip_suffix "" (PyStr.basename zip_path) in
  let last_underscore_index := PyStr.rfind "_" zip_filename in
  let collection_name := PyStr.slice_to zip_filename last_underscore_index in
  let pid := PyStr.slice_from zip_filename (last_underscore_index + 1) in
  (collection_name, pid).

Definition drush_prefix : string :=
  "drush @dsu --user=1 create-islandora-bag object ".

(** [format_drush_command_from_atomzip] *)
Definition format_drush_command_from_atomzip (zip_path : string) : string :=
  let '(collection_name, pid) := collection_and_pid zip_path in
  drush_prefix ++ collection_name ++ ":" ++ pid.


(** Whether [atomzip_suffix] begins nowhere inside [stem] when
    [atomzip_suffix] follows it: in [stem ++ atomzip_suffix] the marker is
    then found at the end only. *)
Fixpoint suffix_only (stem : string) : bool :=
  match stem with
  | EmptyString => true
  | String _ t =>
      negb (String.prefix atomzip_suffix (stem ++ atomzip_suffix)) && suffix_only t
  end.

(** The derivation in the words of the specification: strip the fixed
    suffix from the file name, then split on the last separator. *)
Definition strip_suffix (suffix s : string) : string :=
  if PyStr.endswith suffix s
  then String.substring 0 (String.length s - String.length suffix) s
  else s.

Definition split_on_last (sep : ascii) (s : string) : option (string * string) :=
  let i := PyStr.rfind sep s in
  if i <? 0 then None
  else Some (PyStr.slice_to s i, PyStr.slice_from s (i + 1)).

Definition spec_logical_name (filename : string) : option (string * string) :=
  split_on_last "_" (strip_suffix atomzip_suffix filename).

(* ====================================================================== *)
(** * Exceptions and results *)
(* ====================================================================== *)

(** The exception classes that the modelled code can raise.  [ParseError]
    carries expat's error string (the position that follows it in
    [str(e)] is left out). *)
Inductive exn : Type :=
| ParseError (msg : string)     (* xml.etree.ElementTree.ParseError *)
| UnicodeDecodeError            (* bytes.decode('utf-8') on invalid input *)
| BadZipFile                    (* zipfile.ZipFile on bytes that are no archive *)
| TypeError                     (* [None in filename] *)
| AttributeError                (* a method called on None *)
| ValueError                    (* Element.remove(x) when x is no child *)
| KeyError                      (* ZipFile.read of an unknown name *)
| FileNotFoundError
| FileExistsError               (* os.makedirs of a path that is there *)
| UnboundLocalError (var : string).

Inductive result (A : Type) : Type :=
| Ok (a : A)
| Raise (e : exn).

Arguments Ok {A} a.
Arguments Raise {A} e.

(** [str(e)], up to the position suffix of a ParseError. *)
Definition exn_str (e : exn) : string :=
  match e with
  | ParseError msg => msg
  | UnicodeDecodeError => "'utf-8' codec can't decode byte"
  | BadZipFile => "File is not a zip file"
  | TypeError => "'in <string>' requires string as left operand, not NoneType"
  | AttributeError => "'NoneType' object has no attribute"
  | ValueError => "list.remove(x): x not in list"
  | KeyError => "There is no item named in the archive"
  | FileNotFoundError => "No such file or directory"
  | FileExistsError => "File exists"
  | UnboundLocalError var =>
      "local variable '" ++ var ++ "' referenced before assignment"
  end.

(* ====================================================================== *)
(** * Element trees (xml.etree.ElementTree) *)
(* ====================================================================== *)

Module ET.

(** An [Element]: its tag (qualified names in Clark notation,
    [{uri}local]), its attribute dictionary in insertion order, its text
    and tail, and its children. *)
Inductive Element : Type :=
| Elem (tag : string) (attrib : list (string * string))
       (text tail : option string) (children : list Element).

Definition tag (e : Element) : string :=
  match e with Elem t _ _ _ _ => t end.

Definition attrib (e : Element) : list (string * string) :=
  match e with Elem _ a _ _ _ => a end.

Definition children (e : Element) : list Element :=
  match e with Elem _ _ _ _ cs => cs end.

(** [dict.get(key)] *)
Fixpoint dict_get (d : list (string * string)) (key : string) : option string :=
  match d with
  | [] => None
  | (k, v) :: d' => if String.eqb k key then Some v else dict_get d' key
  end.

(** [d[key] = value]: an existing key keeps its place, a new key goes
    last. *)
Fixpoint dict_set (d : list (string * string)) (key value : string)
  : list (string * string) :=
  match d with
  | [] => [(key, value)]
  | (k, v) :: d' =>
      if String.eqb k key then (k, value) :: d' else (k, v) :: dict_set d' key value
  end.

(** [e.get(key)] *)
Definition get (e : Element) (key : string) : option string :=
  dict_get (attrib e) key.

(** [e.set(key, value)] *)
Definition set (e : Element) (key value : string) : Element :=
  match e with
  | Elem t a x y cs => Elem t (dict_set a key value) x y cs
  end.

(** [bool(e)], as in [if e:]: an element is true when it has children
    (the library documents this and deprecates the test). *)
Definition truthy (e : Element) : bool :=
  match children e with
  | [] => false
  | _ :: _ => true
  end.

(** [bool(x)] for [x] that is an element or None. *)
Definition truthy_opt (x : option Element) : bool :=
  match x with
  | None => false
  | Some e => truthy e
  end.

(** [e.append(c)] *)
Definition append (e c : Element) : Element :=
  match e with
  | Elem t a x y cs => Elem t a x y (cs ++ [c])%list
  end.

(** [e.extend(cs')] *)
Definition extend (e : Element) (cs' : list Element) : Element :=
  match e with
  | Elem t a x y cs => Elem t a x y (cs ++ cs')%list
  end.

(** The list without its element of index [k]. *)
Fixpoint drop_nth {A : Type} (k : nat) (l : list A) : list A :=
  match l, k with
  | [], _ => []
  | _ :: l', O => l'
  | a :: l', S k' => a :: drop_nth k' l'
  end.

(** The list with [f] applied to its element of index [k]. *)
Fixpoint update_nth {A : Type} (k : nat) (f : A -> A) (l : list A) : list A :=
  match l, k with
  | [], _ => []
  | a :: l', O => f a :: l'
  | a :: l', S k' => a :: update_nth k' f l'
  end.

(** [e.remove(c)] for the child [c] of index [k]. *)
Definition remove_child (k : nat) (e : Element) : Element :=
  match e with
  | Elem t a x y cs => Elem t a x y (drop_nth k cs)
  end.

(** A reference to an element object inside a tree is modelled by its
    path from the root: the child indices to follow. *)
Definition path : Type := list nat.

Fixpoint get_at (q : path) (e : Element) : option Element :=
  match q with
  | [] => Some e
  | i :: q' =>
      match nth_error (children e) i with
      | Some c => get_at q' c
      | None => None
      end
  end.

(** The tree in which the element at [q] has been replaced by [new];
    this is how a mutation made through a reference shows in the tree. *)
Fixpoint set_at (q : path) (new : Element) (e : Element) : Element :=
  match q with
  | [] => new
  | i :: q' =>
      match e with
      | Elem t a x y cs => Elem t a x y (update_nth i (set_at q' new) cs)
      end
  end.

(** The first element satisfying [p] among [cs] and their descendants,
    in document order; [i] is the index of the head of [cs], [rec] looks
    below a child. *)
Fixpoint first_in (rec : Element -> option path) (p : Element -> bool)
  (i : nat) (cs : list Element) : option path :=
  match cs with
  | [] => None
  | c :: cs' =>
      if p c then Some [i]
      else match rec c with
           | Some q => Some (i :: q)
           | None => first_in rec p (S i) cs'
           end
  end.

(** [e.find('.//...')]: the first proper descendant of [e] that satisfies
    [p], in document order. *)
Fixpoint find_path (p : Element -> bool) (e : Element) : option path :=
  match e with
  | Elem _ _ _ _ cs => first_in (find_path p) p 0%nat cs
  end.

Definition find (p : Element -> bool) (e : Element) : option Element :=
  match find_path p e with
  | Some q => get_at q e
  | None => None
  end.

Fixpoint all_in (rec : Element -> list path) (p : Element -> bool)
  (i : nat) (cs : list Element) : list path :=
  match cs with
  | [] => []
  | c :: cs' =>
      ((if p c then [[i]] else []) ++ map (cons i) (rec c)
         ++ all_in rec p (S i) cs')%list
  end.

(** [e.findall('.//...')]: all proper descendants of [e] that satisfy
    [p], in document order. *)
Fixpoint findall_paths (p : Element -> bool) (e : Element) : list path :=
  match e with
  | Elem _ _ _ _ cs => all_in (findall_paths p) p 0%nat cs
  end.

(** The proper descendants of [e] in document order. *)
Fixpoint descendants (e : Element) : list Element :=
  match e with
  | Elem _ _ _ _ cs => flat_map (fun c => c :: descendants c) cs
  end.

(** [e.iter()]: [e] and its descendants in document order. *)
Definition iter (e : Element) : list Element := e :: descendants e.

(** The same function applied to every element of the tree. *)
Fixpoint map_tree (f : string -> list (string * string) -> string * list (string * string))
  (e : Element) : Element :=
  match e with
  | Elem t a x y cs =>
      let '(t', a') := f t a in Elem t' a' x y (map (map_tree f) cs)
  end.

(** [d] is the first element, in document order, among the proper
    descendants of [root] that satisfies [p]. *)
Definition first_match (p : Element -> bool) (root d : Element) : Prop :=
  exists before after,
    descendants root = (before ++ d :: after)%list
    /\ Forall (fun x => p x = false) before
    /\ p d = true.

(** Two elements with the same tag and the same attributes. *)
Definition same_label (x y : Element) : Prop :=
  tag x = tag y /\ attrib x = attrib y.

End ET.

Import ET.

(* ====================================================================== *)
(** * The namespaces and the two lookups of the script *)
(* ====================================================================== *)

Definition FOXML_NAMESPACES : list (string * string) :=
  [ ("dc", "http://purl.org/dc/elements/1.1/");
    ("foxml", "info:fedora/fedora-system:def/foxml#");
    ("ns2", "info:fedora/fedora-system:def/audit#");
    ("ns4", "info:fedora/fedora-system:def/relations-external#");
    ("ns5", "info:fedora/fedora-system:def/model#");
    ("ns6", "http://islandora.ca/ontology/relsext#");
    ("ns7", "http://www.openarchives.org/OAI/2.0/oai_dc/");
    ("ns9", "urn:oasis:names:tc:xacml:1.0:policy");
    ("rdf", "http://www.w3.org/1999/02/22-rdf-syntax-ns#");
    ("xsi", "http://www.w3.org/2001/XMLSchema-instance") ].

(** The tag that the path step [prefix:local] selects under
    [FOXML_NAMESPACES]. *)
Definition qname (prefix local : string) : string :=
  match dict_get FOXML_NAMESPACES prefix with
  | Some uri => "{" ++ uri ++ "}" ++ local
  | None => prefix ++ ":" ++ local
  end.

Definition opt_eqb (a b : option string) : bool :=
  match a, b with
  | Some x, Some y => String.eqb x y
  | None, None => true
  | _, _ => false
  end.

(** The step [foxml:datastream[@ID='MODS']]. *)
Definition is_mods_datastream (e : Element) : bool :=
  String.eqb (tag e) (qname "foxml" "datastream")
  && opt_eqb (get e "ID") (Some "MODS").

(** The step [foxml:datastreamVersion]. *)
Definition is_datastream_version (e : Element) : bool :=
  String.eqb (tag e) (qname "foxml" "datastreamVersion").

(** The step [foxml:contentLocation]. *)
Definition is_content_location (e : Element) : bool :=
  String.eqb (tag e) (qname "foxml" "contentLocation").

(* ====================================================================== *)
(** * The Classifier *)
(* ====================================================================== *)

(** [is_foxml_managed] *)
Definition is_foxml_managed (foxml_root : Element) : bool :=
  let datastream_element := find is_mods_datastream foxml_root in
  match datastream_element with
  | Some ds =>
      let control_group := get ds "CONTROL_GROUP" in
      opt_eqb control_group (Some "M")
  | None => false
  end.

(* ====================================================================== *)
(** * Archives (zipfile) *)
(* ====================================================================== *)

(** What the bytes of an archive member are: the entries of a zip
    archive, or any other data. *)
Inductive payload : Type :=
| Data (bytes : string)
| Zip (entries : list (string * payload)).

(** An open [zipfile.ZipFile]: its entries in the order of the central
    directory. *)
Definition archive : Type := list (string * payload).

(** [zip_ref.namelist()] *)
Definition namelist {A : Type} (zip_ref : list (string * A)) : list string :=
  map fst zip_ref.

(** [zip_ref.read(name)] and [zip_ref.open(name)]: when a name occurs more
    than once, the last entry of that name is the one [zipfile] opens. *)
Fixpoint read {A : Type} (zip_ref : list (string * A)) (name : string) : option A :=
  match zip_ref with
  | [] => None
  | (n, x) :: zip_ref' =>
      match read zip_ref' name with
      | Some y => Some y
      | None => if String.eqb n name then Some x else None
      end
  end.

Definition newline : string := String (Ascii.ascii_of_nat 10) EmptyString.

(** [re.search(r'\.zip$', name) is not None]: [$] matches at the end of
    the string and before a newline that ends it. *)
Definition is_zip_name (name : string) : bool :=
  PyStr.endswith ".zip" name || PyStr.endswith (".zip" ++ newline) name.

(** Whether [bytes.decode('utf-8')] succeeds.  [need] lists the ranges
    in which the next bytes of the current character must lie. *)
Fixpoint utf8_go (need : list (nat * nat)) (s : string) : bool :=
  match s with
  | EmptyString => match need with [] => true | _ :: _ => false end
  | String c s' =>
      let n := Ascii.nat_of_ascii c in
      match need with
      | (lo, hi) :: need' =>
          ((lo <=? n) && (n <=? hi))%nat && utf8_go need' s'
      | [] =>
          let cont := (128, 191)%nat in
          if (n <=? 127)%nat then utf8_go [] s'
          else if (n <? 194)%nat then false
          else if (n <=? 223)%nat then utf8_go [cont] s'
          else if (n =? 224)%nat then utf8_go [(160, 191)%nat; cont] s'
          else if (n =? 237)%nat then utf8_go [(128, 159)%nat; cont] s'
          else if (n <=? 239)%nat then utf8_go [cont; cont] s'
          else if (n =? 240)%nat then utf8_go [(144, 191)%nat; cont; cont] s'
          else if (n <=? 243)%nat then utf8_go [cont; cont; cont] s'
          else if (n =? 244)%nat then utf8_go [(128, 143)%nat; cont; cont] s'
          else false
      end
  end.

Definition utf8_valid (s : string) : bool := utf8_go [] s.

(* ====================================================================== *)
(** * The repair of concatenated documents *)
(* ====================================================================== *)

Fixpoint index_of (c : ascii) (s : string) : option nat :=
  match s with
  | EmptyString => None
  | String a s' =>
      if Ascii.eqb a c then Some O
      else match index_of c s' with
           | Some n => Some (S n)
           | None => None
           end
  end.

(** The length of the match of [<\?xml[^>]+\?>] that starts at the head
    of [s], if there is one.  After [<?xml] the class [[^>]+] runs up to
    the first [>]; the match exists when what stands before that [>] is
    at least one character followed by [?]. *)
Definition decl_match (s : string) : option nat :=
  if String.prefix "<?xml" s then
    let rest := String.substring 5 (String.length s - 5) s in
    match index_of ">" rest with
    | Some n =>
        if (2 <=? n)%nat && String.eqb (String.substring (n - 1) 1 rest) "?"
        then Some (5 + n + 1)%nat
        else None
    | None => None
    end
  else None.

(** [re.sub(r"(<\?xml[^>]+\?>)", r"\1<root>", s)]: every match, from left
    to right, is followed by [<root>].  [skip] counts the characters of the
    current match that are still to be copied. *)
Fixpoint sub_go (skip : nat) (s : string) : string :=
  match s with
  | EmptyString => EmptyString
  | String c s' =>
      match skip with
      | S O => String c ("<root>" ++ sub_go 0 s')
      | S k => String c (sub_go k s')
      | O =>
          match decl_match s with
          | Some n => String c (sub_go (n - 1) s')
          | None => String c (sub_go 0 s')
          end
      end
  end.

Definition sub_xml_decl (s : string) : string := sub_go 0 s.

(* ====================================================================== *)
(** * The Locator *)
(* ====================================================================== *)

Section Locator.

(** [ET.fromstring]: the parser of the standard library. *)
Variable fromstring : string -> result Element.

(** Lines 126-135: the member's bytes are decoded and parsed; after a
    "junk after document element" error the repaired text is parsed.  The
    bytes of an archive are no XML text: decoding them raises
    UnicodeDecodeError, or, when they happen to be valid UTF-8, parsing
    them raises ParseError.  A [Zip] payload does not hold its bytes, and
    the model has UnicodeDecodeError for both; what is proved about a
    parsed member is about [Data]. *)
Definition parse_member (content : payload) : result Element :=
  match content with
  | Zip _ => Raise UnicodeDecodeError
  | Data xml_content =>
      if utf8_valid xml_content then
        match fromstring xml_content with
        | Raise (ParseError error_message) =>
            if PyStr.contains "junk after document element" error_message
            then fromstring (sub_xml_decl xml_content ++ "</root>")
            else Raise (ParseError error_message)
        | r => r
        end
      else Raise UnicodeDecodeError
  end.

(** The loop of lines 109-136 over the names of an archive.  Each entry
    of [zip_ref] comes with the outcome of opening it as a nested archive
    and searching it.  The names are those of [zip_ref], so [read] finds
    every one of them. *)
Fixpoint scan (target_filename : option string)
  (zip_ref : list (string * (payload * result (option Element))))
  (names : list string) : result (option Element) :=
  match names with
  | [] => Ok None
  | name :: rest =>
      if is_zip_name name then
        match read zip_ref name with
        | None => Raise KeyError
        | Some (_, Raise e) => Raise e
        | Some (_, Ok nested_result) =>
            if truthy_opt nested_result then Ok nested_result
            else scan target_filename zip_ref rest
        end
      else
        let filename := PyStr.basename name in
        match target_filename with
        | None => Raise TypeError
        | Some target =>
            if PyStr.contains target filename then
              match read zip_ref name with
              | None => Raise KeyError
              | Some (xml_content, _) =>
                  match parse_member xml_content with
                  | Ok tree => Ok (Some tree)
                  | Raise e => Raise e
                  end
              end
            else scan target_filename zip_ref rest
        end
  end.

(** Lines 112-119: the bytes of a member are opened as an archive, which
    is searched. *)
Fixpoint open_and_search (target_filename : option string) (content : payload)
  : result (option Element) :=
  match content with
  | Data _ => Raise BadZipFile
  | Zip entries =>
      scan target_filename
        (map (fun entry =>
                (fst entry, (snd entry, open_and_search target_filename (snd entry))))
             entries)
        (namelist entries)
  end.

(** [get_XML_tree_zip_file] *)
Definition get_XML_tree_zip_file (target_filename : option string)
  (zip_ref : archive) : result (option Element) :=
  open_and_search target_filename (Zip zip_ref).

(* ====================================================================== *)
(** * The Transformer *)
(* ====================================================================== *)

(** [x.split('}', 1)[1]] when ['}' in x], else [x]. *)
Definition strip_prefix (x : string) : string :=
  if PyStr.has_char "}" x then PyStr.after_first "}" x else x.

(** Lines 168-176: the loop over [mods_root.iter()]. *)
Definition strip_prefixes (mods_root : Element) : Element :=
  map_tree
    (fun t a => (strip_prefix t, map (fun kv => (fst kv, strip_prefix (snd kv))) a))
    mods_root.

Definition xmlContent_tag : string :=
  "{info:fedora/fedora-system:def/foxml#}xmlContent".

Definition mods_attrib : list (string * string) :=
  [ ("xmlns", "http://www.loc.gov/mods/v3");
    ("xmlns:mods", "http://www.loc.gov/mods/v3");
    ("xmlns:xsi", "http://www.w3.org/2001/XMLSchema-instance");
    ("xmlns:xlink", "http://www.w3.org/1999/xlink") ].

(** Lines 177-191: the new [foxml:xmlContent] element. *)
Definition xml_content_element (mods_root : Element) : Element :=
  let mods_element := Elem "mods" mods_attrib None None [] in
  let mods_element := extend mods_element (children (strip_prefixes mods_root)) in
  append (Elem xmlContent_tag [] None None []) mods_element.

(** What one turn of the loop of line 161 does to a version element:
    the element afterwards, the child that was removed from it (its index
    and the child), and whether the turn raised. *)
Record turn : Type := Turn {
  after : Element;
  removed : option (nat * Element);
  outcome : result unit
}.

(** Lines 162-194 for one [datastream_version_element]. *)
Definition inline_version (bag_archive : archive)
  (datastream_version_element : Element) : turn :=
  let dv := datastream_version_element in
  if truthy dv then
    let removal : result (Element * option (nat * Element)) :=
      match find_path is_content_location dv with
      | None => Ok (dv, None)
      | Some q =>
          match get_at q dv with
          | None => Ok (dv, None)
          | Some content_location_element =>
              if truthy content_location_element then
                match q with
                | [k] => Ok (remove_child k dv, Some (k, content_location_element))
                | _ => Raise ValueError
                end
              else Ok (dv, None)
          end
      end in
    match removal with
    | Raise e => Turn dv None (Raise e)
    | Ok (dv, gone) =>
        match get_XML_tree_zip_file (get dv "ID") bag_archive with
        | Raise e => Turn dv gone (Raise e)
        | Ok None => Turn dv gone (Raise AttributeError)
        | Ok (Some mods_root) =>
            Turn (append dv (xml_content_element mods_root)) gone (Ok tt)
        end
    end
  else Turn dv None (Ok tt).

(** An entry of [datastream_version_elements]: a reference to an element
    that is still in the tree, or an element that was removed from it
    together with the child it was under. *)
Inductive ref : Type :=
| Attached (q : path)
| Detached (e : Element).

Fixpoint path_below (q p : path) : option path :=
  match q, p with
  | [], _ => Some p
  | i :: q', j :: p' => if Nat.eqb i j then path_below q' p' else None
  | _ :: _, [] => None
  end.

(** Where a reference points after the child of index [k] of the
    element at [q] has been removed: later children move down by one, and
    what was inside the removed child [gone] has left the tree. *)
Definition relocate (q : path) (k : nat) (gone : Element) (r : ref) : ref :=
  match r with
  | Detached _ => r
  | Attached p =>
      match path_below q p with
      | Some (j :: p') =>
          if Nat.ltb j k then r
          else if Nat.eqb j k then
            match get_at p' gone with
            | Some e => Detached e
            | None => r
            end
          else Attached (q ++ (j - 1)%nat :: p')%list
      | _ => r
      end
  end.

(** The loop of line 161 over [datastream_version_elements], on the
    datastream element.  The list holds the references as [findall]
    returned them; [now_at] tells where each referenced element is now. *)
Fixpoint inline_versions (bag_archive : archive) (datastream : Element)
  (now_at : path -> ref) (datastream_version_elements : list path)
  : Element * result unit :=
  match datastream_version_elements with
  | [] => (datastream, Ok tt)
  | p :: rest =>
      match now_at p with
      | Attached q =>
          match get_at q datastream with
          | None =>
              (* a reference always resolves; this case is there for totality *)
              inline_versions bag_archive datastream now_at rest
          | Some dv =>
              let t := inline_version bag_archive dv in
              let datastream := set_at q (after t) datastream in
              match outcome t with
              | Raise e => (datastream, Raise e)
              | Ok _ =>
                  inline_versions bag_archive datastream
                    match removed t with
                    | Some (k, gone) => fun p' => relocate q k gone (now_at p')
                    | None => now_at
                    end
                    rest
              end
          end
      | Detached dv =>
          match outcome (inline_version bag_archive dv) with
          | Raise e => (datastream, Raise e)
          | Ok _ => inline_versions bag_archive datastream now_at rest
          end
      end
  end.

(** [managed_to_inline]: the tree after the call, and whether the call
    raised. *)
Definition managed_to_inline (foxml_root : Element) (bag_archive : archive)
  : Element * result unit :=
  match find_path is_mods_datastream foxml_root with
  | None => (foxml_root, Raise AttributeError)
  | Some d =>
      match get_at d foxml_root with
      | None => (foxml_root, Raise AttributeError)
      | Some datastream =>
          let datastream := set datastream "CONTROL_GROUP" "X" in
          let datastream_version_elements :=
            findall_paths is_datastream_version datastream in
          let '(datastream, raised) :=
            inline_versions bag_archive datastream Attached
              datastream_version_elements in
          (set_at d datastream foxml_root, raised)
      end
  end.

End Locator.

(** The loop of line 161 never meets a reference that points nowhere:
    [inline_versions] with the case of an unresolved reference read as
    a failure. *)
Fixpoint refs_resolve (fromstring : string -> result Element)
  (bag_archive : archive) (datastream : Element)
  (now_at : path -> ref) (datastream_version_elements : list path) : Prop :=
  match datastream_version_elements with
  | [] => True
  | p :: rest =>
      match now_at p with
      | Attached q =>
          match get_at q datastream with
          | None => False
          | Some dv =>
              let t := inline_version fromstring bag_archive dv in
              match outcome t with
              | Raise _ => True
              | Ok _ =>
                  refs_resolve fromstring bag_archive
                    (set_at q (after t) datastream)
                    match removed t with
                    | Some (k, gone) => fun p' => relocate q k gone (now_at p')
                    | None => now_at
                    end
                    rest
              end
          end
      | Detached dv =>
          match outcome (inline_version fromstring bag_archive dv) with
          | Raise _ => True
          | Ok _ => refs_resolve fromstring bag_archive datastream now_at rest
          end
      end
  end.

(** No member matches [target] at any depth of the archive that
    [content] is: every member named as a container is an archive in which
    nothing matches, and the base name of no other member contains
    [target]. *)
Fixpoint no_match (target : string) (content : payload) : bool :=
  match content with
  | Data _ => false
  | Zip entries =>
      forallb
        (fun entry =>
           if is_zip_name (fst entry) then no_match target (snd entry)
           else negb (PyStr.contains target (PyStr.basename (fst entry))))
        entries
  end.

(** The archive [inner] inside [n] archives, each the only member of the
    next. *)
Fixpoint nested (n : nat) (inner : archive) : archive :=
  match n with
  | O => inner
  | S k => [("level.zip", Zip (nested k inner))]
  end.

(* ====================================================================== *)
(** * A model of [ET.fromstring] on a fragment of XML *)
(* ====================================================================== *)

(** The theorems about the script hold for every parser; the concrete
    runs below use this one.  It reads documents made of an optional XML
    declaration, elements, attributes, namespace declarations, character
    data with the five predefined entities, comments and processing
    instructions, and it reports expat's error string for the errors that
    matter to the script.  Document type declarations, CDATA sections and
    character references are outside the fragment. *)

Module Expat.

Local Open Scope nat_scope.

Definition drop (n : nat) (s : string) : string :=
  String.substring n (String.length s - n) s.

Definition take (n : nat) (s : string) : string := String.substring 0 n s.

Fixpoint find_sub (sub s : string) : option nat :=
  if String.prefix sub s then Some 0
  else match s with
       | EmptyString => None
       | String _ s' =>
           match find_sub sub s' with
           | Some n => Some (S n)
           | None => None
           end
       end.

Definition is_space (c : ascii) : bool :=
  let n := Ascii.nat_of_ascii c in
  (n =? 32) || (n =? 9) || (n =? 10) || (n =? 13).

Definition is_name_start (c : ascii) : bool :=
  let n := Ascii.nat_of_ascii c in
  ((65 <=? n) && (n <=? 90)) || ((97 <=? n) && (n <=? 122))
  || (n =? 95) || (n =? 58) || (128 <=? n).

Definition is_name_char (c : ascii) : bool :=
  let n := Ascii.nat_of_ascii c in
  is_name_start c || ((48 <=? n) && (n <=? 57)) || (n =? 45) || (n =? 46).

(** The longest prefix of [s] whose characters satisfy [p], and the rest. *)
Fixpoint span (p : ascii -> bool) (s : string) : string * string :=
  match s with
  | EmptyString => (EmptyString, EmptyString)
  | String c s' =>
      if p c then let '(a, b) := span p s' in (String c a, b)
      else (EmptyString, s)
  end.

Definition skip_ws (s : string) : string := snd (span is_space s).

Definition all_space (s : string) : bool := String.eqb (skip_ws s) "".

Definition head_ok (p : ascii -> bool) (s : string) : bool :=
  match s with
  | EmptyString => false
  | String c _ => p c
  end.

(** The predefined entities replaced by their characters; [None] for any
    other reference. *)
Fixpoint unescape_go (skip : nat) (s : string) : option string :=
  match s with
  | EmptyString => Some EmptyString
  | String c s' =>
      match skip with
      | S k => unescape_go k s'
      | O =>
          let put (ch : string) (k : nat) :=
            match unescape_go k s' with
            | Some r => Some (ch ++ r)%string
            | None => None
            end in
          if Ascii.eqb c "&" then
            if String.prefix "&lt;" s then put "<"%string 3
            else if String.prefix "&gt;" s then put ">"%string 3
            else if String.prefix "&amp;" s then put "&"%string 4
            else if String.prefix "&apos;" s then put "'"%string 5
            else if String.prefix "&quot;" s
                 then put (String (Ascii.ascii_of_nat 34) EmptyString) 5
            else None
          else put (String c EmptyString) 0
      end
  end.

Definition unescape (s : string) : option string := unescape_go 0 s.

Inductive token : Type :=
| TDecl                                   (* <?xml ...?> *)
| TPI                                     (* another processing instruction *)
| TComment
| TStart (name : string) (atts : list (string * string)) (empty : bool)
| TEnd (name : string)
| TText (data : string)
| TBad (msg : string).

Definition invalid_token : string := "not well-formed (invalid token)".

Definition is_quote (c : ascii) : bool :=
  (Ascii.nat_of_ascii c =? 34) || (Ascii.nat_of_ascii c =? 39).

(** The attributes of a start tag, up to and including its [>] or [/>]:
    the attributes, whether the tag is an empty-element tag, and what
    follows the tag. *)
Fixpoint attributes (fuel : nat) (s : string) (acc : list (string * string))
  : option (list (string * string) * bool * string) :=
  match fuel with
  | O => None
  | S fuel' =>
      let s := skip_ws s in
      if String.prefix "/>" s then Some (rev acc, true, drop 2 s)
      else if String.prefix ">" s then Some (rev acc, false, drop 1 s)
      else
        let '(name, r) := span is_name_char s in
        if negb (head_ok is_name_start name) then None
        else
          match skip_ws r with
          | String eq r1 =>
              if negb (Ascii.eqb eq "=") then None
              else
                match skip_ws r1 with
                | String q r2 =>
                    if negb (is_quote q) then None
                    else
                      match index_of q r2 with
                      | None => None
                      | Some n =>
                          let v := take n r2 in
                          if PyStr.has_char "<" v then None
                          else
                            match unescape v, dict_get acc name with
                            | Some v', None =>
                                attributes fuel' (drop (S n) r2) ((name, v') :: acc)
                            | _, _ => None
                            end
                      end
                | EmptyString => None
                end
          | EmptyString => None
          end
  end.

(** The tokens of a document; a [TBad] token ends the list. *)
Fixpoint tokenize (fuel : nat) (s : string) : list token :=
  match fuel with
  | O => []
  | S fuel' =>
      match s with
      | EmptyString => []
      | String _ _ =>
          if String.prefix "<?" s then
            match find_sub "?>" (drop 2 s) with
            | None => [TBad "unclosed token"]
            | Some n =>
                let target := fst (span is_name_char (take n (drop 2 s))) in
                (if String.eqb target "xml" then TDecl else TPI)
                  :: tokenize fuel' (drop (2 + n + 2) s)
            end
          else if String.prefix "<!--" s then
            match find_sub "-->" (drop 4 s) with
            | None => [TBad "unclosed token"]
            | Some n => TComment :: tokenize fuel' (drop (4 + n + 3) s)
            end
          else if String.prefix "<!" s then [TBad "syntax error"]
          else if String.prefix "</" s then
            let '(name, r) := span is_name_char (drop 2 s) in
            match skip_ws r with
            | String c r' =>
                if Ascii.eqb c ">" && head_ok is_name_start name
                then TEnd name :: tokenize fuel' r'
                else [TBad invalid_token]
            | EmptyString => [TBad "unclosed token"]
            end
          else if String.prefix "<" s then
            let '(name, r) := span is_name_char (drop 1 s) in
            if negb (head_ok is_name_start name) then [TBad invalid_token]
            else
              match attributes (S (String.length r)) r [] with
              | Some (atts, empty, rest) =>
                  TStart name atts empty :: tokenize fuel' rest
              | None => [TBad invalid_token]
              end
          else
            let '(data, r) := span (fun c => negb (Ascii.eqb c "<")) s in
            match unescape data with
            | Some d => TText d :: tokenize fuel' r
            | None => [TBad "undefined entity"]
            end
      end
  end.

(** An element whose end tag has not been read yet. *)
Record frame : Type := Frame {
  f_name : string;                        (* the name as written *)
  f_tag : string;                         (* the name in Clark notation *)
  f_attrib : list (string * string);
  f_text : option string;
  f_kids : list Element;                  (* last child first *)
  f_ns : list (string * string)           (* prefixes in scope *)
}.

Definition more (old : option string) (d : string) : option string :=
  match old with
  | Some x => Some (x ++ d)%string
  | None => Some d
  end.

(** Character data goes to the text of the open element, or to the tail
    of its last child. *)
Definition add_data (d : string) (f : frame) : frame :=
  match f_kids f with
  | [] => Frame (f_name f) (f_tag f) (f_attrib f) (more (f_text f) d) [] (f_ns f)
  | Elem t a x y cs :: ks =>
      Frame (f_name f) (f_tag f) (f_attrib f) (f_text f)
            (Elem t a x (more y d) cs :: ks) (f_ns f)
  end.

Definition add_child (c : Element) (f : frame) : frame :=
  Frame (f_name f) (f_tag f) (f_attrib f) (f_text f) (c :: f_kids f) (f_ns f).

Definition close (f : frame) : Element :=
  Elem (f_tag f) (f_attrib f) (f_text f) None (rev (f_kids f)).

(** The namespace declarations among the attributes of a start tag. *)
Fixpoint declare (ns : list (string * string)) (atts : list (string * string))
  : list (string * string) :=
  match atts with
  | [] => ns
  | (k, v) :: atts' =>
      if String.eqb k "xmlns" then declare ((EmptyString, v) :: ns) atts'
      else if String.prefix "xmlns:" k then declare ((drop 6 k, v) :: ns) atts'
      else declare ns atts'
  end.

(** A name as written, in Clark notation; the default namespace applies
    to element names only. *)
Definition resolve (ns : list (string * string)) (element : bool) (qn : string)
  : option string :=
  match index_of ":" qn with
  | Some n =>
      let p := take n qn in
      let l := drop (S n) qn in
      if String.eqb p "xml"
      then Some ("{http://www.w3.org/XML/1998/namespace}" ++ l)%string
      else match dict_get ns p with
           | Some uri => Some ("{" ++ uri ++ "}" ++ l)%string
           | None => None
           end
  | None =>
      match dict_get ns EmptyString with
      | Some uri =>
          if element && negb (String.eqb uri "")
          then Some ("{" ++ uri ++ "}" ++ qn)%string
          else Some qn
      | None => Some qn
      end
  end.

Fixpoint resolve_atts (ns : list (string * string)) (atts : list (string * string))
  : option (list (string * string)) :=
  match atts with
  | [] => Some []
  | (k, v) :: atts' =>
      if String.eqb k "xmlns" || String.prefix "xmlns:" k
      then resolve_atts ns atts'
      else match resolve ns false k, resolve_atts ns atts' with
           | Some k', Some r => Some ((k', v) :: r)
           | _, _ => None
           end
  end.

Definition open_element (ns : list (string * string)) (name : string)
  (atts : list (string * string)) : option frame :=
  let ns := declare ns atts in
  match resolve ns true name, resolve_atts ns atts with
  | Some t, Some a => Some (Frame name t a None [] ns)
  | _, _ => None
  end.

Inductive phase : Type :=
| Prolog (at_start : bool)
| Content (inner : frame) (outer : list frame)
| Epilog (root : Element).

Definition misplaced_declaration : string :=
  "XML or text declaration not at start of entity".

Definition junk : string := "junk after document element".

(** The tree builder run over the tokens. *)
Fixpoint build (ph : phase) (ts : list token) : result Element :=
  match ts with
  | [] =>
      match ph with
      | Epilog root => Ok root
      | _ => Raise (ParseError "no element found")
      end
  | TBad msg :: _ => Raise (ParseError msg)
  | t :: ts' =>
      match ph with
      | Prolog at_start =>
          match t with
          | TDecl =>
              if at_start then build (Prolog false) ts'
              else Raise (ParseError misplaced_declaration)
          | TPI | TComment => build (Prolog false) ts'
          | TText d =>
              if all_space d then build (Prolog false) ts'
              else Raise (ParseError "syntax error")
          | TStart name atts empty =>
              match open_element [] name atts with
              | None => Raise (ParseError "unbound prefix")
              | Some f =>
                  if empty then build (Epilog (close f)) ts'
                  else build (Content f []) ts'
              end
          | _ => Raise (ParseError "syntax error")
          end
      | Content f outer =>
          match t with
          | TDecl => Raise (ParseError misplaced_declaration)
          | TPI | TComment => build ph ts'
          | TText d => build (Content (add_data d f) outer) ts'
          | TStart name atts empty =>
              match open_element (f_ns f) name atts with
              | None => Raise (ParseError "unbound prefix")
              | Some g =>
                  if empty then build (Content (add_child (close g) f) outer) ts'
                  else build (Content g (f :: outer)) ts'
              end
          | TEnd name =>
              if String.eqb name (f_name f) then
                match outer with
                | [] => build (Epilog (close f)) ts'
                | parent :: outer' =>
                    build (Content (add_child (close f) parent) outer') ts'
                end
              else Raise (ParseError "mismatched tag")
          | TBad msg => Raise (ParseError msg)
          end
      | Epilog root =>
          match t with
          | TPI | TComment => build ph ts'
          | TText d =>
              if all_space d then build ph ts' else Raise (ParseError junk)
          | _ => Raise (ParseError junk)
          end
      end
  end.

(** [ET.fromstring(text)] *)
Definition fromstring (text : string) : result Element :=
  build (Prolog true) (tokenize (S (String.length text)) text).

End Expat.

(* ====================================================================== *)
(** * The External Tool Bridge *)
(* ====================================================================== *)

(** The white space that [str.strip] removes is the characters for which
    [str.isspace] holds.  In UTF-8 they take one, two or three bytes:
    the ASCII characters 9 to 13, 28 to 31 and 32; U+0085 and U+00A0;
    U+1680, U+2000 to U+200A, U+2028, U+2029, U+202F, U+205F and U+3000. *)
Definition is_py_space (c : ascii) : bool :=
  let n := Ascii.nat_of_ascii c in
  (n =? 32)%nat || ((9 <=? n) && (n <=? 13))%nat || ((28 <=? n) && (n <=? 31))%nat.

Definition is_py_space2 (a b : ascii) : bool :=
  let x := Ascii.nat_of_ascii a in
  let y := Ascii.nat_of_ascii b in
  ((x =? 194) && ((y =? 133) || (y =? 160)))%nat.

Definition is_py_space3 (a b c : ascii) : bool :=
  let x := Ascii.nat_of_ascii a in
  let y := Ascii.nat_of_ascii b in
  let z := Ascii.nat_of_ascii c in
  (((x =? 225) && (y =? 154) && (z =? 128))
   || ((x =? 226) && (y =? 128)
       && (((128 <=? z) && (z <=? 138)) || (z =? 168) || (z =? 169) || (z =? 175)))
   || ((x =? 226) && (y =? 129) && (z =? 159))
   || ((x =? 227) && (y =? 128) && (z =? 128)))%nat.

(** The number of bytes of the white space character at the head of
    [s]; 0 when there is none. *)
Definition space_width (s : string) : nat :=
  match s with
  | EmptyString => 0
  | String a s1 =>
      if is_py_space a then 1
      else match s1 with
           | EmptyString => 0
           | String b s2 =>
               if is_py_space2 a b then 2
               else match s2 with
                    | EmptyString => 0
                    | String c _ => if is_py_space3 a b c then 3 else 0
                    end
           end
  end.

(** [s.lstrip()] *)
Fixpoint lstrip (s : string) : string :=
  match s with
  | EmptyString => EmptyString
  | String a s1 =>
      if is_py_space a then lstrip s1
      else match s1 with
           | EmptyString => s
           | String b s2 =>
               if is_py_space2 a b then lstrip s2
               else match s2 with
                    | EmptyString => s
                    | String c s3 => if is_py_space3 a b c then lstrip s3 else s
                    end
           end
  end.

(** Whether [s] is white space from its head to its end. *)
Fixpoint all_space (s : string) : bool :=
  match s with
  | EmptyString => true
  | String a s1 =>
      if is_py_space a then all_space s1
      else match s1 with
           | EmptyString => false
           | String b s2 =>
               if is_py_space2 a b then all_space s2
               else match s2 with
                    | EmptyString => false
                    | String c s3 => if is_py_space3 a b c then all_space s3 else false
                    end
           end
  end.

(** [s.rstrip()] *)
Fixpoint rstrip (s : string) : string :=
  match s with
  | EmptyString => EmptyString
  | String c s' => if all_space s then EmptyString else String c (rstrip s')
  end.

(** [s.strip()] *)
Definition strip (s : string) : string := rstrip (lstrip s).

(** The number of bytes that the lazy class [[^\n]+?] takes at the head
    of [s] before [\.zip] matches.  No byte of a character of several
    bytes is a newline or a byte of [.zip], so the match is the same on
    the UTF-8 text as on the characters. *)
Fixpoint lazy_to_zip (s : string) : option nat :=
  match s with
  | EmptyString => None
  | String c s' =>
      if Ascii.eqb c (Ascii.ascii_of_nat 10) then None
      else if String.prefix ".zip" s' then Some 1%nat
      else match lazy_to_zip s' with
           | Some n => Some (S n)
           | None => None
           end
  end.

Definition bag_created : string := "Bag created and saved at ".

(** The group of the first match of
    [Bag created and saved at ([^\n]+?\.zip)] in [s]. *)
Fixpoint first_bag_path (s : string) : option string :=
  let here :=
    if String.prefix bag_created s then
      let rest := Expat.drop (String.length bag_created) s in
      match lazy_to_zip rest with
      | Some n => Some (Expat.take (n + 4) rest)
      | None => None
      end
    else None in
  match here with
  | Some p => Some p
  | None =>
      match s with
      | EmptyString => None
      | String _ s' => first_bag_path s'
      end
  end.

(** [extract_bag_path_from_drush_command_stdout] *)
Definition extract_bag_path_from_drush_command_stdout (stdout_bytes : string)
  : result (option string) :=
  if utf8_valid stdout_bytes then
    match first_bag_path stdout_bytes with
    | Some bag_path => Ok (Some (strip bag_path))
    | None => Ok None
    end
  else Raise UnicodeDecodeError.

(** How a run of [xmllint --format -] with a 10 second limit ends. *)
Inductive xmllint_run : Type :=
| Exited (returncode : Z) (stdout stderr : string)
| TimeoutExpired
| NotStarted (e : exn).

(** What the script reaches outside itself. *)
Record World : Type := {
  fromstring : string -> result Element;   (* ET.fromstring *)
  tostring : Element -> string;            (* ET.tostring(root).decode() *)
  drush : string -> string;                (* stdout of the shell command *)
  xmllint : string -> xmllint_run;         (* the formatter on this input *)
  zip_on_disk : string -> option archive;  (* zipfile.ZipFile(path, 'r') *)
  mkdir_error : string -> list string -> list (string * string) -> option exn
                                           (* what os.makedirs(path) raises *)
}.

(* ====================================================================== *)
(** * The Batch Orchestrator *)
(* ====================================================================== *)

(** The lines the script prints about an item. *)
Inductive event : Type :=
| DrushFailed (name : string)                      (* line 233 *)
| ManagedNotice (bag_name : string)                (* line 239 *)
| ConversionError (bag_name : string) (e : exn)    (* line 243 *)
| InlineNotice (bag_name : string)                 (* line 245 *)
| FormatError (stderr : string)                    (* lines 263-264 *)
| FormatTimeout                                    (* line 277 *)
| OtherError (e : exn).                            (* line 279 *)

(** The printed text, without the colour codes. *)
Definition render (ev : event) : string :=
  match ev with
  | DrushFailed name =>
      "Drush command failed for " ++ name ++ ". Skipping this bag."
  | ManagedNotice bag_name =>
      bag_name ++ " contains a managed FOXML file. Making it inline."
  | ConversionError bag_name e =>
      "There was an error with converting " ++ bag_name
        ++ "'s FOXML to inline; conversion will be skipped: " ++ exn_str e
  | InlineNotice bag_name =>
      bag_name ++ " contains an inline FOXML file. This will simply beautify it."
  | FormatError stderr =>
      "Error occurred while formatting XML:" ++ newline ++ stderr
  | FormatTimeout => "Process took too long to execute."
  | OtherError e => "An error occurred: " ++ exn_str e
  end.

(** The state shared by all tasks: the global list
    [bag_name_and_new_foxml], the console, and the output tree. *)
Record Machine : Type := {
  bag_name_and_new_foxml : list (string * string);
  console : list event;
  dirs : list string;
  files : list (string * string)
}.

(** The locals of [process_container_zip] that live across the turns of
    its loop; [None] is a local that has not been assigned yet. *)
Record Locals : Type := {
  found_first_atomzip : bool;
  formatted_xml_string : option string;
  converted_foxml_path : option string
}.

Definition print (ev : event) (m : Machine) : Machine :=
  {| bag_name_and_new_foxml := bag_name_and_new_foxml m;
     console := (console m ++ [ev])%list;
     dirs := dirs m;
     files := files m |}.

(** [os.makedirs(d)].  Whether the call raises is the answer of the
    operating system: FileExistsError when the path names something that
    is there, under whatever spelling, and other errors for other reasons.
    [mkdir_error] gives that answer from the path and from the directories
    and files that the script has made; when there is no error the
    directory is there afterwards. *)
Definition makedirs (w : World) (d : string) (m : Machine) : result Machine :=
  match mkdir_error w d (dirs m) (files m) with
  | Some e => Raise e
  | None =>
      Ok {| bag_name_and_new_foxml := bag_name_and_new_foxml m;
            console := console m;
            dirs := (dirs m ++ [d])%list;
            files := files m |}
  end.

(** The file [p] holds [content] (after [open(p, 'w')] and a write). *)
Definition write_file (p content : string) (m : Machine) : Machine :=
  {| bag_name_and_new_foxml := bag_name_and_new_foxml m;
     console := console m;
     dirs := dirs m;
     files :=
       (filter (fun f => negb (String.eqb (fst f) p)) (files m) ++ [(p, content)])%list |}.

(** [bag_name_and_new_foxml.append([bag_name, path])] *)
Definition record_item (bag_name p : string) (m : Machine) : Machine :=
  {| bag_name_and_new_foxml := (bag_name_and_new_foxml m ++ [(bag_name, p)])%list;
     console := console m;
     dirs := dirs m;
     files := files m |}.

(** [os.path.join(a, b)] on a POSIX system. *)
Definition path_join (a b : string) : string :=
  if PyStr.startswith "/" b then b
  else if String.eqb a "" || PyStr.endswith "/" a then a ++ b
  else a ++ "/" ++ b.

Section Orchestrator.

Variable w : World.

(** How a turn of the loop of line 218 ends: the loop goes on with the
    next name, or an exception leaves [process_container_zip]. *)
Inductive turn_end : Type :=
| Next
| Uncaught (e : exn).

(** Lines 224-236: the record tree of the item.  [Ok None] is the
    [continue] of line 234. *)
Definition locate_record (input_zip : string) (zip_archive : archive)
  (name : string) (l : Locals) (m : Machine)
  : result (option (option Element)) * Locals * Machine :=
  if negb (found_first_atomzip l) && negb (PyStr.contains name input_zip) then
    let l := {| found_first_atomzip := true;
                formatted_xml_string := formatted_xml_string l;
                converted_foxml_path := converted_foxml_path l |} in
    match get_XML_tree_zip_file (fromstring w) (Some "foxml.xml") zip_archive with
    | Ok foxml_root => (Ok (Some foxml_root), l, m)
    | Raise e => (Raise e, l, m)
    end
  else
    let result_stdout := drush w (format_drush_command_from_atomzip name) in
    match extract_bag_path_from_drush_command_stdout result_stdout with
    | Raise e => (Raise e, l, m)
    | Ok None => (Ok None, l, print (DrushFailed name) m)
    | Ok (Some bag_path) =>
        if String.eqb bag_path "" then (Ok None, l, print (DrushFailed name) m)
        else
          match zip_on_disk w bag_path with
          | None => (Raise FileNotFoundError, l, m)
          | Some bag_archive =>
              match get_XML_tree_zip_file (fromstring w) (Some "foxml.xml") bag_archive with
              | Ok foxml_root => (Ok (Some foxml_root), l, m)
              | Raise e => (Raise e, l, m)
              end
          end
    end.

(** Lines 238-245: the tree that goes on to the formatter. *)
Definition classify_and_transform (zip_archive : archive) (bag_name : string)
  (foxml_root : Element) (m : Machine) : Element * Machine :=
  if is_foxml_managed foxml_root then
    let m := print (ManagedNotice bag_name) m in
    match managed_to_inline (fromstring w) foxml_root zip_archive with
    | (foxml_root, Raise e) => (foxml_root, print (ConversionError bag_name e) m)
    | (foxml_root, Ok _) => (foxml_root, m)
    end
  else (foxml_root, print (InlineNotice bag_name) m).

(** Lines 257-279: the [try] statement around the formatter and the
    write. *)
Definition format_and_write (output_directory bag_name xml_string : string)
  (l : Locals) (m : Machine) : Locals * Machine :=
  match xmllint w xml_string with
  | TimeoutExpired => (l, print FormatTimeout m)
  | NotStarted e => (l, print (OtherError e) m)
  | Exited returncode stdout stderr =>
      let '(formatted, m) :=
        if negb (returncode =? 0)
        then (formatted_xml_string l, print (FormatError stderr) m)
        else (Some stdout, m) in
      let l := {| found_first_atomzip := found_first_atomzip l;
                  formatted_xml_string := formatted;
                  converted_foxml_path := converted_foxml_path l |} in
      let foxml_save_directory := path_join output_directory bag_name in
      match makedirs w foxml_save_directory m with
      | Raise e => (l, print (OtherError e) m)
      | Ok m =>
          let p := foxml_save_directory ++ "/foxml.xml" in
          let l := {| found_first_atomzip := found_first_atomzip l;
                      formatted_xml_string := formatted;
                      converted_foxml_path := Some p |} in
          match formatted with
          | Some text => (l, write_file p text m)
          | None =>
              (l, print (OtherError (UnboundLocalError "formatted_xml_string"))
                        (write_file p "" m))
          end
      end
  end.

(** Line 280. *)
Definition record (bag_name : string) (l : Locals) (m : Machine)
  : Machine * turn_end :=
  match converted_foxml_path l with
  | Some p => (record_item bag_name p m, Next)
  | None => (m, Uncaught (UnboundLocalError "converted_foxml_path"))
  end.

(** One turn of the loop of line 218. *)
Definition process_member (input_zip : string) (zip_archive : archive)
  (output_directory name : string) (l : Locals) (m : Machine)
  : Locals * Machine * turn_end :=
  if PyStr.contains "data/" name && PyStr.endswith "_foxml_atomzip.zip" name then
    let bag_name := get_bag_name_from_atomzip name in
    match locate_record input_zip zip_archive name l m with
    | (Raise e, l, m) => (l, m, Uncaught e)
    | (Ok None, l, m) => (l, m, Next)
    | (Ok (Some None), l, m) => (l, m, Uncaught AttributeError)
    | (Ok (Some (Some foxml_root)), l, m) =>
        let '(foxml_root, m) :=
          classify_and_transform zip_archive bag_name foxml_root m in
        let xml_string := tostring w foxml_root in
        let '(l, m) := format_and_write output_directory bag_name xml_string l m in
        let '(m, e) := record bag_name l m in
        (l, m, e)
    end
  else (l, m, Next).

(** The loop of line 218. *)
Fixpoint process_members (input_zip : string) (zip_archive : archive)
  (output_directory : string) (names : list string) (l : Locals) (m : Machine)
  : Machine * turn_end :=
  match names with
  | [] => (m, Next)
  | name :: rest =>
      match process_member input_zip zip_archive output_directory name l m with
      | (l, m, Next) =>
          process_members input_zip zip_archive output_directory rest l m
      | (_, m, Uncaught e) => (m, Uncaught e)
      end
  end.

(** [process_container_zip], with the globals [input_dir] and
    [return_directory] as arguments. *)
Definition process_container_zip (input_dir return_directory input_zip : string)
  (m : Machine) : Machine * turn_end :=
  if negb (PyStr.endswith ".zip" (PyStr.basename input_zip)) then (m, Next)
  else
    let output_directory :=
      return_directory ++ "/" ++ PyStr.replace ".zip" "" (PyStr.basename input_zip) in
    match makedirs w output_directory m with
    | Raise e => (m, Uncaught e)
    | Ok m =>
        match zip_on_disk w (input_dir ++ "/" ++ input_zip) with
        | None => (m, Uncaught FileNotFoundError)
        | Some zip_archive =>
            process_members input_zip zip_archive output_directory
              (namelist zip_archive)
              {| found_first_atomzip := false;
                 formatted_xml_string := None;
                 converted_foxml_path := None |}
              m
        end
    end.

End Orchestrator.

(* ====================================================================== *)
(** * A model of [ET.tostring] *)
(* ====================================================================== *)

(** Used by the concrete runs only.  Characters outside ASCII are written
    as they are (the library writes character references for them). *)

Module Serialize.

Local Open Scope nat_scope.

Definition dq : string := String (Ascii.ascii_of_nat 34) EmptyString.

(** [ET._namespace_map] after the two [register_namespace] calls of the
    script: uri to prefix. *)
Definition namespace_map : list (string * string) :=
  [ ("http://www.w3.org/XML/1998/namespace", "xml");
    ("http://www.w3.org/1999/xhtml", "html");
    ("http://www.w3.org/1999/02/22-rdf-syntax-ns#", "rdf");
    ("http://schemas.xmlsoap.org/wsdl/", "wsdl");
    ("http://www.w3.org/2001/XMLSchema", "xs");
    ("http://www.w3.org/2001/XMLSchema-instance", "xsi");
    ("http://purl.org/dc/elements/1.1/", "dc");
    ("info:fedora/fedora-system:def/foxml#", "foxml") ]%string.

Fixpoint decimal_go (fuel n : nat) (acc : string) : string :=
  match fuel with
  | O => acc
  | S fuel' =>
      let acc := String (Ascii.ascii_of_nat (48 + n mod 10)) acc in
      if n <? 10 then acc else decimal_go fuel' (n / 10) acc
  end.

Definition decimal (n : nat) : string := decimal_go (S n) n EmptyString.

(** The uri and the local part of a name in Clark notation. *)
Definition split_clark (n : string) : option (string * string) :=
  if String.prefix "{" n then
    match index_of "}" n with
    | Some k => Some (String.substring 1 (k - 1) n, Expat.drop (S k) n)
    | None => None
    end
  else None.

Definition add_uri (nss : list (string * string)) (n : string)
  : list (string * string) :=
  match split_clark n with
  | None => nss
  | Some (uri, _) =>
      match dict_get nss uri with
      | Some _ => nss
      | None =>
          let prefix :=
            match dict_get namespace_map uri with
            | Some p => p
            | None => ("ns" ++ decimal (List.length nss))%string
            end in
          (nss ++ [(uri, prefix)])%list
      end
  end.

(** The namespaces of a tree: uri to prefix. *)
Definition namespaces (e : Element) : list (string * string) :=
  fold_left add_uri
    (flat_map (fun x => tag x :: map fst (attrib x)) (iter e)) [].

Definition qname (nss : list (string * string)) (n : string) : string :=
  match split_clark n with
  | None => n
  | Some (uri, l) =>
      match dict_get nss uri with
      | Some p => (p ++ ":" ++ l)%string
      | None => l
      end
  end.

Fixpoint escape (attr : bool) (s : string) : string :=
  match s with
  | EmptyString => EmptyString
  | String c s' =>
      let n := Ascii.nat_of_ascii c in
      let piece : string :=
        if n =? 38 then "&amp;"%string
        else if n =? 60 then "&lt;"%string
        else if n =? 62 then "&gt;"%string
        else if attr && (n =? 34) then "&quot;"%string
        else if attr && (n =? 13) then "&#13;"%string
        else if attr && (n =? 10) then "&#10;"%string
        else if attr && (n =? 9) then "&#09;"%string
        else String c EmptyString in
      (piece ++ escape attr s')%string
  end.

Fixpoint insert_sorted (d : string * string) (l : list (string * string))
  : list (string * string) :=
  match l with
  | [] => [d]
  | x :: l' =>
      if String.leb (snd d) (snd x) then d :: l else x :: insert_sorted d l'
  end.

(** The [xmlns] attributes of the root, sorted by prefix. *)
Definition declarations (nss : list (string * string)) : string :=
  String.concat ""
    (map (fun d =>
            if String.eqb (snd d) "xml" then EmptyString
            else (" xmlns:" ++ snd d ++ "=" ++ dq ++ escape true (fst d) ++ dq)%string)
         (fold_right insert_sorted [] nss)).

Definition some_text (x : option string) : string :=
  match x with
  | Some s => escape false s
  | None => EmptyString
  end.

Fixpoint write (nss : list (string * string)) (decls : string) (e : Element)
  : string :=
  match e with
  | Elem t a x y cs =>
      let name := qname nss t in
      let atts :=
        String.concat ""
          (map (fun kv =>
                  (" " ++ qname nss (fst kv) ++ "=" ++ dq
                       ++ escape true (snd kv) ++ dq)%string) a) in
      let inner := (some_text x ++ String.concat "" (map (write nss "") cs))%string in
      (("<" ++ name ++ decls ++ atts)
         ++ (if String.eqb inner "" then " />"
             else ">" ++ inner ++ "</" ++ name ++ ">")
         ++ some_text y)%string
  end.

(** [ET.tostring(root).decode()] *)
Definition tostring (root : Element) : string :=
  let nss := namespaces root in
  write nss (declarations nss) root.

End Serialize.

(* ====================================================================== *)
(** * Sample records and archives *)
(* ====================================================================== *)

Definition xml_declaration : string :=
  "<?xml version=" ++ Serialize.dq ++ "1.0" ++ Serialize.dq ++ "?>".

(** The bytes of the specification's example of concatenated
    documents. *)
Definition two_declarations : string :=
  xml_declaration ++ "<a/>" ++ xml_declaration ++ "<b/>".

(** One declaration followed by two top-level elements. *)
Definition one_declaration : string := xml_declaration ++ "<a/><b/>".

(** A record with managed MODS, as text and as a tree. *)
Definition managed_foxml : string :=
  "<foxml:digitalObject xmlns:foxml='info:fedora/fedora-system:def/foxml#' PID='coll:obj1'>"
  ++ "<foxml:datastream ID='MODS' CONTROL_GROUP='M' STATE='A'>"
  ++ "<foxml:datastreamVersion ID='MODS.0' MIMETYPE='text/xml'>"
  ++ "<foxml:contentLocation TYPE='INTERNAL_ID' REF='coll:obj1+MODS+MODS.0'/>"
  ++ "</foxml:datastreamVersion></foxml:datastream></foxml:digitalObject>".

Definition content_location : Element :=
  Elem (qname "foxml" "contentLocation")
       [("TYPE", "INTERNAL_ID"); ("REF", "coll:obj1+MODS+MODS.0")] None None [].

Definition managed_version : Element :=
  Elem (qname "foxml" "datastreamVersion")
       [("ID", "MODS.0"); ("MIMETYPE", "text/xml")] None None [content_location].

Definition managed_datastream : Element :=
  Elem (qname "foxml" "datastream")
       [("ID", "MODS"); ("CONTROL_GROUP", "M"); ("STATE", "A")] None None
       [managed_version].

Definition managed_root : Element :=
  Elem (qname "foxml" "digitalObject") [("PID", "coll:obj1")] None None
       [managed_datastream].

(** The same record after [datastream.set("CONTROL_GROUP", "X")] alone. *)
Definition marked_datastream : Element :=
  Elem (qname "foxml" "datastream")
       [("ID", "MODS"); ("CONTROL_GROUP", "X"); ("STATE", "A")] None None
       [managed_version].

Definition marked_root : Element :=
  Elem (qname "foxml" "digitalObject") [("PID", "coll:obj1")] None None
       [marked_datastream].

(** A record whose MODS datastream has no CONTROL_GROUP attribute, and a
    record without a MODS datastream. *)
Definition bare_datastream : Element :=
  Elem (qname "foxml" "datastream") [("ID", "MODS")] None None [].

Definition bare_root : Element :=
  Elem (qname "foxml" "digitalObject") [] None None [bare_datastream].

Definition dc_root : Element :=
  Elem (qname "foxml" "digitalObject") [] None None
       [Elem (qname "foxml" "datastream") [("ID", "DC"); ("CONTROL_GROUP", "M")]
             None None []].

(** The MODS document of the record. *)
Definition mods_document : string :=
  "<mods:mods xmlns:mods='http://www.loc.gov/mods/v3'>"
  ++ "<mods:titleInfo><mods:title>A title</mods:title></mods:titleInfo>"
  ++ "</mods:mods>".

(** The record after a successful [managed_to_inline]. *)
Definition inlined_version : Element :=
  Elem (qname "foxml" "datastreamVersion")
       [("ID", "MODS.0"); ("MIMETYPE", "text/xml")] None None
       [ content_location;
         Elem xmlContent_tag [] None None
           [ Elem "mods" mods_attrib None None
               [ Elem "titleInfo" [] None None
                   [ Elem "title" [] (Some "A title") None [] ] ] ] ].

Definition inlined_root : Element :=
  Elem (qname "foxml" "digitalObject") [("PID", "coll:obj1")] None None
       [ Elem (qname "foxml" "datastream")
              [("ID", "MODS"); ("CONTROL_GROUP", "X"); ("STATE", "A")] None None
              [inlined_version] ].

Definition atomzip_name : string := "Bag-obj1/data/COLL_obj1_foxml_atomzip.zip".

(** A container with the record in its companion archive and the MODS
    file beside it, and the same container without the MODS file. *)
Definition bag_with_mods : archive :=
  [ (atomzip_name, Zip [("foxml.xml", Data managed_foxml)]);
    ("Bag-obj1/data/MODS.0.xml", Data mods_document) ].

Definition bag_without_mods : archive :=
  [ (atomzip_name, Zip [("foxml.xml", Data managed_foxml)]) ].

(** Archives whose only match lies in a nested archive and parses to an
    element without children. *)
Definition nested_childless : archive :=
  [ ("inner.zip", Zip [("foxml.xml", Data "<a/>")]) ].

Definition nested_childless_then_other : archive :=
  [ ("inner.zip", Zip [("foxml.xml", Data "<a/>")]);
    ("data/foxml.xml", Data "<b><c/></b>") ].

(** The components of a path, cut at the slashes. *)
Fixpoint components (current p : string) : list string :=
  match p with
  | EmptyString => [current]
  | String c p' =>
      if Ascii.eqb c "/" then current :: components "" p'
      else components (current ++ String c "") p'
  end.

(** The components that are left when empty components and [.] are
    dropped and [..] goes back by one, staying at the root of an absolute
    path ([rooted]); [above] holds what was kept so far, the last one
    first. *)
Fixpoint resolve (rooted : bool) (above names : list string) : list string :=
  match names with
  | [] => rev above
  | n :: names' =>
      if String.eqb n "" || String.eqb n "." then resolve rooted above names'
      else if String.eqb n ".." then
        match above with
        | [] => resolve rooted (if rooted then [] else [n]) names'
        | a :: above' =>
            if String.eqb a ".." then resolve rooted (n :: above) names'
            else resolve rooted above' names'
        end
      else resolve rooted (n :: above) names'
  end.

Fixpoint same_names (a b : list string) : bool :=
  match a, b with
  | [], [] => true
  | x :: a', y :: b' => String.eqb x y && same_names a' b'
  | _, _ => false
  end.

(** Whether two paths lead to the same place, in a file system without
    symbolic links. *)
Definition same_place (p q : string) : bool :=
  Bool.eqb (PyStr.startswith "/" p) (PyStr.startswith "/" q)
  && same_names (resolve (PyStr.startswith "/" p) [] (components "" p))
                (resolve (PyStr.startswith "/" q) [] (components "" q)).

(** The file system of the concrete runs: [os.makedirs] raises
    FileExistsError when the path is that of a directory or of a file that
    is there, and nothing otherwise. *)
Definition sample_mkdir_error (d : string) (made : list string)
  (written : list (string * string)) : option exn :=
  if existsb (same_place d) made || existsb (same_place d) (map fst written)
  then Some FileExistsError
  else None.

(** A world with the model parser and serializer, a formatter that
    behaves as [formatter] says, no bag-creation tool, and one container
    on disk. *)
Definition sample_world (formatter : string -> xmllint_run) (container : archive)
  : World :=
  {| fromstring := Expat.fromstring;
     tostring := Serialize.tostring;
     drush := fun _ => EmptyString;
     xmllint := formatter;
     zip_on_disk := fun p => if String.eqb p "in/c.zip" then Some container else None;
     mkdir_error := sample_mkdir_error |}.

Definition formatter_ok (xml_string : string) : xmllint_run :=
  Exited 0 xml_string "".

Definition formatter_failing (xml_string : string) : xmllint_run :=
  Exited 1 "" "-:1: parser error".

Definition empty_machine : Machine :=
  {| bag_name_and_new_foxml := []; console := []; dirs := ["out"]; files := [] |}.

(** The state in which [process_container_zip] enters its loop for the
    container [c.zip], and the state after the turn of the sample item
    when both the transform and the formatter fail. *)
Definition sample_locals : Locals :=
  {| found_first_atomzip := false;
     formatted_xml_string := None;
     converted_foxml_path := None |}.

Definition sample_machine : Machine :=
  {| bag_name_and_new_foxml := []; console := []; dirs := ["out"; "out/c"];
     files := [] |}.



(** The attribute of the sample XML declaration. *)
Definition version_attribute : string :=
  " version=" ++ Serialize.dq ++ "1.0" ++ Serialize.dq.

(** The elements that [managed_to_inline] adds. *)
Definition is_xml_content (e : Element) : bool :=
  String.eqb (tag e) xmlContent_tag.

(** [m'] has everything that [m] printed, and the same Result Index. *)
Definition grows (m m' : Machine) : Prop :=
  (exists evs, console m' = (console m ++ evs)%list)
  /\ bag_name_and_new_foxml m' = bag_name_and_new_foxml m.

(* ====================================================================== *)
(** * The command line *)
(* ====================================================================== *)

(** How a call that may end the process returns: with a value, or with
    [sys.exit(code)]. *)
Inductive exit_or (A : Type) : Type :=
| Returned (a : A)
| SystemExit (code : Z).

Arguments Returned {A} a.
Arguments SystemExit {A} code.

(** [x in arguments] for a list of strings. *)
Definition list_has (x : string) (l : list string) : bool :=
  existsb (String.eqb x) l.

(** [parse_arguments] (the printed lines are left out). *)
Definition parse_arguments (arguments : list string) : exit_or string :=
  if list_has "--help" arguments || list_has "-h" arguments then SystemExit 0
  else if negb (Nat.eqb (List.length arguments) 2) then SystemExit 127
  else match nth_error arguments 1 with
       | Some input_dir => Returned input_dir
       | None => SystemExit 127
       end.

(* ====================================================================== *)
(** * Auxiliary notions for the statements *)
(* ====================================================================== *)

(** The test of line 220 on a member name. *)
Definition is_companion_member (name : string) : bool :=
  PyStr.contains "data/" name && PyStr.endswith "_foxml_atomzip.zip" name.

(** The content of the file [p], if it was written. *)
Fixpoint read_file (p : string) (fs : list (string * string)) : option string :=
  match fs with
  | [] => None
  | (q, content) :: fs' =>
      match read_file p fs' with
      | Some later => Some later
      | None => if String.eqb q p then Some content else None
      end
  end.

(** [y] is what the loop of lines 168-176 makes of the element [x], as
    far as the element itself goes: the tag and the attribute values
    without what stands up to their first closing brace, the same
    attribute keys in the same order, the same text and tail, and as many
    children. *)
Definition stripped (x y : Element) : Prop :=
  match x, y with
  | Elem t a text tail cs, Elem t' a' text' tail' cs' =>
      t' = strip_prefix t
      /\ map fst a' = map fst a
      /\ map snd a' = map strip_prefix (map snd a)
      /\ text' = text
      /\ tail' = tail
      /\ List.length cs' = List.length cs
  end.

(** The search for [target] passes over the member [name] of
    [zip_ref]: it is a nested archive in which nothing matches, or another
    member whose base name does not contain [target]. *)
Definition passed_over (target : string) (zip_ref : archive) (name : string)
  : bool :=
  if is_zip_name name then
    match read zip_ref name with
    | Some content => no_match target content
    | None => false
    end
  else negb (PyStr.contains target (PyStr.basename name)).

(** Neither path leads into the subtree at the other. *)
Definition apart (d p : path) : Prop :=
  path_below d p = None /\ path_below p d = None.

(** More samples: an archive with a member that is named as a container
    and is none, an archive whose matching member is followed by such a
    member, and a record with a second datastream. *)
Definition archive_with_broken_container : archive :=
  [ ("notes.txt", Data "to do");
    ("broken.zip", Data "no archive") ].

Definition archive_with_early_match : archive :=
  [ ("notes.txt", Data "to do");
    ("data/foxml.xml", Data "<a/>");
    ("broken.zip", Data "no archive") ].

Definition dc_datastream : Element :=
  Elem (qname "foxml" "datastream") [("ID", "DC"); ("CONTROL_GROUP", "X")]
       None None [Elem (qname "foxml" "datastreamVersion") [("ID", "DC.0")] None None []].

Definition two_stream_root : Element :=
  Elem (qname "foxml" "digitalObject") [("PID", "coll:obj1")] None None
       [dc_datastream; managed_datastream].

(** A record whose only version element is empty. *)
Definition empty_version_datastream : Element :=
  Elem (qname "foxml" "datastream") [("ID", "MODS"); ("CONTROL_GROUP", "M")]
       None None
       [Elem (qname "foxml" "datastreamVersion") [("ID", "MODS.0")] None None []].

Definition empty_version_root : Element :=
  Elem (qname "foxml" "digitalObject") [] None None [empty_version_datastream].

(** [m'] has what [m] printed, the directories of [m] and the Result
    Index of [m], each followed by what came after; [added] is what came
    after in the Result Index. *)
Definition extends (m m' : Machine) (added : list (string * string)) : Prop :=
  (exists evs, console m' = (console m ++ evs)%list)
  /\ (exists ds, dirs m' = (dirs m ++ ds)%list)
  /\ bag_name_and_new_foxml m' = (bag_name_and_new_foxml m ++ added)%list.

(** A formatter that does not finish in time, the locals after an
    earlier item of the container, and a container whose companion
    archive holds no record. *)
Definition formatter_timeout (xml_string : string) : xmllint_run :=
  TimeoutExpired.

Definition later_locals : Locals :=
  {| found_first_atomzip := true;
     formatted_xml_string := Some "<old/>";
     converted_foxml_path := Some "out/c/COLL_obj0/foxml.xml" |}.

Definition bag_without_record : archive :=
  [ (atomzip_name, Zip [("other.xml", Data "<a/>")]) ].


(** A character of two bytes, U+00E9. *)
Definition e_acute : string :=
  String (Ascii.ascii_of_nat 195) (String (Ascii.ascii_of_nat 169) EmptyString).

(** The no-break space U+00A0, in UTF-8. *)
Definition no_break_space : string :=
  String (Ascii.ascii_of_nat 194) (String (Ascii.ascii_of_nat 160) EmptyString).

(* ====================================================================== *)
(** * Facts about the string operations *)
(* ====================================================================== *)

Module PyStrFacts.

Import PyStr.

Lemma length_app (a b : string) :
  String.length (a ++ b) = (String.length a + String.length b)%nat.
Proof. induction a as [|c a IH]; simpl; [reflexivity | now rewrite IH]. Qed.

Lemma app_assoc (a b c : string) : (a ++ b) ++ c = a ++ (b ++ c).
Proof. induction a as [|x a IH]; simpl; [reflexivity | now rewrite IH]. Qed.

Lemma app_empty_r (a : string) : a ++ "" = a.
Proof. induction a as [|x a IH]; simpl; [reflexivity | now rewrite IH]. Qed.

Lemma substring_all (s : string) : String.substring 0 (String.length s) s = s.
Proof. induction s as [|c s IH]; simpl; [reflexivity | now rewrite IH]. Qed.

Lemma substring_head (a b : string) :
  String.substring 0 (String.length a) (a ++ b) = a.
Proof.
  induction a as [|c a IH]; simpl.
  - destruct b; reflexivity.
  - now rewrite IH.
Qed.

Lemma substring_tail (a b : string) :
  String.substring (String.length a) (String.length b) (a ++ b) = b.
Proof. induction a as [|c a IH]; simpl; [apply substring_all | exact IH]. Qed.

Lemma prefix_refl_app (a b : string) : String.prefix a (a ++ b) = true.
Proof.
  induction a as [|c a IH]; simpl; [destruct b; reflexivity|].
  destruct (Ascii.ascii_dec c c) as [_|ne]; [exact IH | now elim ne].
Qed.

(** A string that begins with another character than [old] does not begin
    with [old]. *)
Lemma prefix_other_head (c d : ascii) (old s : string) :
  Ascii.eqb d c = false -> String.prefix (String c old) (String d s) = false.
Proof.
  intros ne. simpl. destruct (Ascii.ascii_dec c d) as [e|_]; [|reflexivity].
  subst. now rewrite Ascii.eqb_refl in ne.
Qed.

(** Once [skip] covers the rest of the string, nothing more is copied. *)
Lemma replace_go_skip_all (old new s : string) (k : nat) :
  (String.length s <= k)%nat -> replace_go old new k s = "".
Proof.
  revert k. induction s as [|c s IH]; intros k le; simpl; [reflexivity|].
  destruct k as [|k]; simpl in le; [lia|]. apply IH. lia.
Qed.

(** [rfind] when the character occurs nowhere. *)
Lemma rfind_absent (c : ascii) (s : string) :
  has_char c s = false -> rfind c s = -1.
Proof.
  induction s as [|a s IH]; simpl; [reflexivity|].
  intros h. apply orb_false_elim in h as [ha hs].
  rewrite (IH hs). simpl. now rewrite ha.
Qed.

Lemma rfind_bounds (c : ascii) (s : string) : -1 <= rfind c s < len s.
Proof.
  unfold len. induction s as [|a s IH]; simpl String.length; simpl rfind; [lia|].
  destruct (0 <=? rfind c s) eqn:E.
  - apply Z.leb_le in E. lia.
  - destruct (Ascii.eqb a c); lia.
Qed.

(** [rfind] finds the separator that is followed by no other one. *)
Lemma rfind_last (c : ascii) (a b : string) :
  has_char c b = false -> rfind c (a ++ String c b) = len a.
Proof.
  intros hb. unfold len. induction a as [|x a IH].
  - simpl. rewrite (rfind_absent _ _ hb). simpl. now rewrite Ascii.eqb_refl.
  - simpl String.length. cbn [String.append rfind]. rewrite IH.
    replace (0 <=? Z.of_nat (String.length a)) with true
      by (symmetry; apply Z.leb_le; lia).
    lia.
Qed.

Lemma clamp_nonneg (s : string) (n : nat) :
  (n <= String.length s)%nat -> clamp s (Z.of_nat n) = n.
Proof.
  intros le. unfold clamp, len.
  replace (Z.of_nat n <? 0) with false by (symmetry; apply Z.ltb_ge; lia).
  lia.
Qed.

Lemma slice_to_app (a b : string) : slice_to (a ++ b) (len a) = a.
Proof.
  unfold slice_to, len. rewrite clamp_nonneg by (rewrite length_app; lia).
  apply substring_head.
Qed.

Lemma slice_from_app (a b : string) : slice_from (a ++ b) (len a) = b.
Proof.
  unfold slice_from, len. rewrite clamp_nonneg by (rewrite length_app; lia).
  rewrite length_app.
  replace (String.length a + String.length b - String.length a)%nat
    with (String.length b) by lia.
  apply substring_tail.
Qed.

(** What is left without the last character is the head of the string. *)
Lemma drop_last_head (s : string) : exists t, s = drop_last s ++ t.
Proof.
  induction s as [|c s [t IH]]; [now exists ""|].
  cbn [drop_last]. destruct (all_continuation s).
  - now exists (String c s).
  - exists t. cbn [String.append]. now rewrite <- IH.
Qed.

Lemma substring_drop_last (s : string) :
  String.substring 0 (String.length (drop_last s)) s = drop_last s.
Proof.
  destruct (drop_last_head s) as [t h]. rewrite h at 2. apply substring_head.
Qed.

(** [s[:-1]] *)
Lemma slice_to_minus_one (s : string) : slice_to s (-1) = drop_last s.
Proof.
  unfold slice_to, clamp. cbn [Z.ltb Z.compare Z.opp Z.to_nat Pos.to_nat
                              Pos.iter_op Nat.add drop_last_n].
  apply substring_drop_last.
Qed.

(** On ASCII text the last character is the last byte. *)
Lemma drop_last_ascii (s : string) (c : ascii) :
  is_continuation c = false -> drop_last (s ++ String c "") = s.
Proof.
  intros hc. induction s as [|x s IH]; cbn [String.append drop_last].
  - reflexivity.
  - rewrite IH.
    replace (all_continuation (s ++ String c "")) with false; [reflexivity|].
    clear IH. induction s as [|y s IH]; cbn [String.append all_continuation].
    + now rewrite hc.
    + rewrite <- IH. now rewrite andb_false_r.
Qed.

(** [s[0:]] *)
Lemma slice_from_zero (s : string) : slice_from s 0 = s.
Proof.
  unfold slice_from, clamp, len. cbn [Z.ltb Z.compare].
  replace (Z.to_nat (Z.min 0 (Z.of_nat (String.length s)))) with 0%nat by lia.
  rewrite Nat.sub_0_r. apply substring_all.
Qed.

End PyStrFacts.
(* ====================================================================== *)
(** * Logical names *)
(* ====================================================================== *)

Section LogicalNames.

Import PyStr PyStrFacts.

Lemma replace_go_no_match (old new : string) (c : ascii) (s : string) :
  String.prefix old (String c s) = false ->
  replace_go old new 0 (String c s) = String c (replace_go old new 0 s).
Proof. intros h. cbn [replace_go]. now rewrite h. Qed.

(** When the marker is found at the end only, deleting every occurrence
    of it strips the suffix. *)
Lemma replace_suffix_only (stem : string) :
  suffix_only stem = true ->
  replace atomzip_suffix "" (stem ++ atomzip_suffix) = stem.
Proof.
  unfold replace. induction stem as [|c t IH]; intros h.
  - reflexivity.
  - cbn [suffix_only] in h. apply andb_prop in h as [h1 h2].
    apply negb_true_iff in h1.
    change (String c t ++ atomzip_suffix) with (String c (t ++ atomzip_suffix)) in *.
    rewrite (replace_go_no_match _ _ _ _ h1). now rewrite (IH h2).
Qed.

Lemma no_underscore_suffix_only (stem : string) :
  has_char "_" stem = false -> suffix_only stem = true.
Proof.
  induction stem as [|c t IH]; intros h; [reflexivity|].
  cbn [has_char] in h. apply orb_false_elim in h as [hc ht].
  cbn [suffix_only]. rewrite (IH ht), andb_true_r.
  apply negb_true_iff.
  change (String c t ++ atomzip_suffix) with (String c (t ++ atomzip_suffix)).
  unfold atomzip_suffix at 1. now apply prefix_other_head.
Qed.

Lemma endswith_app (a suffix : string) : endswith suffix (a ++ suffix) = true.
Proof.
  unfold endswith. rewrite length_app.
  replace (String.length a + String.length suffix - String.length suffix)%nat
    with (String.length a) by lia.
  rewrite substring_tail, String.eqb_refl.
  replace (String.length suffix <=? String.length a + String.length suffix)%nat
    with true by (symmetry; apply Nat.leb_le; lia).
  reflexivity.
Qed.

Lemma strip_suffix_app (a suffix : string) : strip_suffix suffix (a ++ suffix) = a.
Proof.
  unfold strip_suffix. rewrite endswith_app, length_app.
  replace (String.length a + String.length suffix - String.length suffix)%nat
    with (String.length a) by lia.
  apply substring_head.
Qed.

Lemma split_at_last_separator (c p : string) :
  has_char "_" p = false ->
  rfind "_" (c ++ "_" ++ p) = len c /\
  slice_to (c ++ "_" ++ p) (len c) = c /\
  slice_from (c ++ "_" ++ p) (len c + 1) = p.
Proof.
  intros hp. change (c ++ "_" ++ p) with (c ++ String "_" p).
  split; [now apply rfind_last|]. split; [apply slice_to_app|].
  replace (c ++ String "_" p) with ((c ++ "_") ++ p)
    by (rewrite app_assoc; reflexivity).
  replace (len c + 1) with (len (c ++ "_")).
  - apply slice_from_app.
  - unfold len. rewrite length_app. simpl. lia.
Qed.

End LogicalNames.

(** C7, as amended.  For a companion archive whose base name is
    [stem ++ "_foxml_atomzip.zip"], where the marker occurs at the end
    only and [stem] is [c ++ "_" ++ p] with no underscore in [p], the
    collection is [c] and the PID is [p]: the code agrees with stripping
    the suffix and splitting on the last underscore. *)
Theorem logical_name_of_companion_archive (zip_path stem c p : string) :
  PyStr.basename zip_path = stem ++ atomzip_suffix ->
  suffix_only stem = true ->
  stem = c ++ "_" ++ p ->
  PyStr.has_char "_" p = false ->
  collection_and_pid zip_path = (c, p)
  /\ format_drush_command_from_atomzip zip_path = drush_prefix ++ c ++ ":" ++ p
  /\ spec_logical_name (PyStr.basename zip_path) = Some (c, p).
Proof.
  intros hbase honly hstem hp.
  destruct (split_at_last_separator c p hp) as (hr & hto & hfrom).
  assert (hcode : collection_and_pid zip_path = (c, p)).
  { unfold collection_and_pid. rewrite hbase, (replace_suffix_only _ honly), hstem.
    cbv zeta. now rewrite hr, hto, hfrom. }
  split; [exact hcode|]. split.
  - unfold format_drush_command_from_atomzip. now rewrite hcode.
  - unfold spec_logical_name, split_on_last.
    rewrite hbase, strip_suffix_app, hstem. cbv zeta. rewrite hr, hto, hfrom.
    replace (PyStr.len c <? 0) with false; [reflexivity|].
    symmetry. apply Z.ltb_ge. unfold PyStr.len. lia.
Qed.

Lemma logical_name_of_companion_archive_witness :
  collection_and_pid "bag/data/ACME_COLL_obj123_foxml_atomzip.zip"
    = ("ACME_COLL", "obj123")
  /\ format_drush_command_from_atomzip "bag/data/ACME_COLL_obj123_foxml_atomzip.zip"
     = drush_prefix ++ "ACME_COLL" ++ ":" ++ "obj123"
  /\ spec_logical_name (PyStr.basename "bag/data/ACME_COLL_obj123_foxml_atomzip.zip")
     = Some ("ACME_COLL", "obj123").
Proof.
  exact (logical_name_of_companion_archive
           "bag/data/ACME_COLL_obj123_foxml_atomzip.zip" "ACME_COLL_obj123"
           "ACME_COLL" "obj123" eq_refl eq_refl eq_refl eq_refl).
Defined.

(** C7 as stated fails when the marker also occurs inside the name: the
    code deletes every occurrence, not the suffix alone. *)
Lemma logical_name_counterexample :
  spec_logical_name "x_foxml_atomzip.zip_y_foxml_atomzip.zip"
    = Some ("x_foxml_atomzip.zip", "y")
  /\ collection_and_pid "x_foxml_atomzip.zip_y_foxml_atomzip.zip" = ("x", "y")
  /\ spec_logical_name "x_foxml_atomzip.zip_y_foxml_atomzip.zip"
     <> Some (collection_and_pid "x_foxml_atomzip.zip_y_foxml_atomzip.zip").
Proof. repeat split; try reflexivity. vm_compute. discriminate. Qed.

(** C10.  When the name that is left after the suffix has no underscore,
    [rfind] gives -1: the collection is the name without its last
    character, of however many bytes, and the PID is the whole name. *)
Theorem logical_name_without_underscore (zip_path stem : string) :
  PyStr.basename zip_path = stem ++ atomzip_suffix ->
  PyStr.has_char "_" stem = false ->
  get_bag_name_from_atomzip zip_path = stem
  /\ PyStr.rfind "_" stem = -1
  /\ collection_and_pid zip_path = (PyStr.drop_last stem, stem)
  /\ format_drush_command_from_atomzip zip_path
     = drush_prefix ++ PyStr.drop_last stem ++ ":" ++ stem.
Proof.
  intros hbase hstem.
  pose proof (replace_suffix_only _ (no_underscore_suffix_only _ hstem)) as hrep.
  pose proof (PyStrFacts.rfind_absent _ _ hstem) as hr.
  assert (hcode : collection_and_pid zip_path = (PyStr.drop_last stem, stem)).
  { unfold collection_and_pid. rewrite hbase, hrep. cbv zeta. rewrite hr.
    change (-1 + 1) with 0.
    now rewrite PyStrFacts.slice_to_minus_one, PyStrFacts.slice_from_zero. }
  split; [unfold get_bag_name_from_atomzip; now rewrite hbase|].
  split; [exact hr|]. split; [exact hcode|].
  unfold format_drush_command_from_atomzip. now rewrite hcode.
Qed.

Lemma logical_name_without_underscore_witness :
  get_bag_name_from_atomzip ("data/ab" ++ e_acute ++ "_foxml_atomzip.zip")
  = "ab" ++ e_acute
  /\ PyStr.rfind "_" ("ab" ++ e_acute) = -1
  /\ collection_and_pid ("data/ab" ++ e_acute ++ "_foxml_atomzip.zip")
     = ("ab", "ab" ++ e_acute)
  /\ format_drush_command_from_atomzip
       ("data/ab" ++ e_acute ++ "_foxml_atomzip.zip")
     = drush_prefix ++ "ab" ++ ":" ++ "ab" ++ e_acute.
Proof.
  exact (logical_name_without_underscore
           ("data/ab" ++ e_acute ++ "_foxml_atomzip.zip") ("ab" ++ e_acute)
           eq_refl eq_refl).
Defined.
(* ====================================================================== *)
(** * Facts about element trees *)
(* ====================================================================== *)

Module ETFacts.

Local Open Scope nat_scope.
Local Open Scope list_scope.

(** Induction over element trees. *)
Lemma Element_induction (P : Element -> Prop) :
  (forall t a x y cs, Forall P cs -> P (Elem t a x y cs)) ->
  forall e, P e.
Proof.
  intros step. fix IH 1. intros [t a x y cs]. apply step.
  induction cs as [|c cs IHcs]; constructor; [apply IH | exact IHcs].
Qed.

Lemma dict_get_set_same (d : list (string * string)) (k v : string) :
  dict_get (dict_set d k v) k = Some v.
Proof.
  induction d as [|[k' v'] d IH]; simpl.
  - now rewrite String.eqb_refl.
  - destruct (String.eqb k' k) eqn:E; simpl; rewrite E; [reflexivity | exact IH].
Qed.

Lemma dict_get_set_other (d : list (string * string)) (k k' v : string) :
  String.eqb k k' = false ->
  dict_get (dict_set d k v) k' = dict_get d k'.
Proof.
  intros ne. induction d as [|[k0 v0] d IH]; simpl.
  - now rewrite ne.
  - destruct (String.eqb k0 k) eqn:E; simpl.
    + apply String.eqb_eq in E. subst k0. now rewrite ne.
    + now rewrite IH.
Qed.

Lemma find_app {A : Type} (p : A -> bool) (l1 l2 : list A) :
  List.find p (l1 ++ l2)
  = match List.find p l1 with
    | Some x => Some x
    | None => List.find p l2
    end.
Proof.
  induction l1 as [|a l1 IH]; simpl; [reflexivity|].
  destruct (p a); [reflexivity | exact IH].
Qed.

(** [List.find] returns the first element that satisfies [p]. *)
Lemma list_find_first {A : Type} (p : A -> bool) (l : list A) (d : A) :
  List.find p l = Some d <->
  exists before after,
    l = before ++ d :: after /\ Forall (fun x => p x = false) before /\ p d = true.
Proof.
  split.
  - induction l as [|a l IH]; simpl; [discriminate|].
    destruct (p a) eqn:E.
    + intros [= ->]. exists [], l. repeat split; [constructor | exact E].
    + intros h. destruct (IH h) as (b & c & -> & hb & hd).
      exists (a :: b), c. repeat split; [constructor; assumption | exact hd].
  - intros (b & c & -> & hb & hd). induction hb as [|a b ha hb IH]; simpl.
    + now rewrite hd.
    + now rewrite ha.
Qed.

Lemma list_find_none {A : Type} (p : A -> bool) (l : list A) :
  List.find p l = None <-> Forall (fun x => p x = false) l.
Proof.
  induction l as [|a l IH]; simpl.
  - split; [constructor | reflexivity].
  - destruct (p a) eqn:E.
    + split; [discriminate|]. intros h. inversion h; congruence.
    + rewrite IH. split; [now constructor | intros h; now inversion h].
Qed.

Lemma nth_error_update_nth {A : Type} (f : A -> A) (l : list A) (i : nat) :
  nth_error (update_nth i f l) i = option_map f (nth_error l i).
Proof.
  revert i. induction l as [|a l IH]; intros [|i]; simpl; auto.
Qed.

Lemma nth_error_middle {A : Type} (pre : list A) (c : A) (post : list A) :
  nth_error (pre ++ c :: post) (length pre) = Some c.
Proof. induction pre; simpl; auto. Qed.

(** A path found by [first_in] begins at an index from [k] on, and so is
    never the empty path. *)
Lemma first_in_head (rec : Element -> option path) (p : Element -> bool)
  (cs : list Element) (k : nat) (q : path) :
  first_in rec p k cs = Some q -> exists i q', q = i :: q' /\ (k <= i)%nat.
Proof.
  revert k. induction cs as [|c cs IH]; intros k; simpl; [discriminate|].
  destruct (p c).
  - intros [= <-]. exists k, []. split; [reflexivity | lia].
  - destruct (rec c) as [q0|].
    + intros [= <-]. exists k, q0. split; [reflexivity | lia].
    + intros h. destruct (IH _ h) as (i & q' & -> & le).
      exists i, q'. split; [reflexivity | lia].
Qed.

Lemma find_path_not_root (p : Element -> bool) (e : Element) :
  find_path p e <> Some [].
Proof.
  destruct e as [t a x y cs]. simpl. intros h.
  destruct (first_in_head _ _ _ _ _ h) as (i & q' & [=] & _).
Qed.

(** What [find_path] returns is the path of an element that satisfies
    [p]. *)
Lemma find_path_valid (p : Element -> bool) (e : Element) (q : path) :
  find_path p e = Some q -> exists d, get_at q e = Some d /\ p d = true.
Proof.
  revert q. induction e as [t a x y cs IH] using Element_induction. intros q.
  cbn [find_path].
  assert (gen : forall pre k, k = length pre ->
            first_in (find_path p) p k cs = Some q ->
            exists d, get_at q (Elem t a x y (pre ++ cs)) = Some d /\ p d = true).
  { clear - IH. induction cs as [|c cs IHcs]; intros pre k hk; simpl; [discriminate|].
    inversion IH as [|? ? hc hcs]; subst.
    destruct (p c) eqn:E.
    - intros [= <-]. exists c. cbn [get_at children]. now rewrite nth_error_middle.
    - destruct (find_path p c) as [q0|] eqn:F.
      + intros [= <-]. destruct (hc _ eq_refl) as (d & hd & pd).
        exists d. cbn [get_at children]. now rewrite nth_error_middle.
      + intros h.
        replace (pre ++ c :: cs) with ((pre ++ [c]) ++ cs)
          by (rewrite <- app_assoc; reflexivity).
        apply (IHcs hcs _ (S (length pre))); [|exact h].
        rewrite length_app. simpl. lia. }
  apply (gen [] 0%nat eq_refl).
Qed.

(** [find] looks through the proper descendants in document order. *)
Lemma find_is_list_find (p : Element -> bool) (e : Element) :
  find p e = List.find p (descendants e).
Proof.
  induction e as [t a x y cs IH] using Element_induction.
  unfold find. cbn [find_path descendants].
  assert (gen : forall pre k, k = length pre ->
            match first_in (find_path p) p k cs with
            | Some q => get_at q (Elem t a x y (pre ++ cs))
            | None => None
            end = List.find p (flat_map (fun c => c :: descendants c) cs)).
  { clear - IH. induction cs as [|c cs IHcs]; intros pre k hk; simpl; [reflexivity|].
    inversion IH as [|? ? hc hcs]; subst.
    rewrite find_app. unfold find in hc. rewrite <- hc.
    destruct (p c) eqn:E.
    - cbn [get_at children]. now rewrite nth_error_middle.
    - destruct (find_path p c) as [q0|] eqn:F.
      + cbn [get_at children]. rewrite nth_error_middle.
        destruct (find_path_valid _ _ _ F) as (d & hd & _). now rewrite hd.
      + replace (pre ++ c :: cs) with ((pre ++ [c]) ++ cs)
          by (rewrite <- app_assoc; reflexivity).
        apply (IHcs hcs). rewrite length_app. simpl. lia. }
  apply (gen [] 0%nat eq_refl).
Qed.

Lemma find_first_match (p : Element -> bool) (root d : Element) :
  find p root = Some d <-> first_match p root d.
Proof. rewrite find_is_list_find. apply list_find_first. Qed.

Lemma find_absent (p : Element -> bool) (root : Element) :
  find p root = None <-> Forall (fun x => p x = false) (descendants root).
Proof. rewrite find_is_list_find. apply list_find_none. Qed.

Lemma get_at_set_at (q : path) (e x new : Element) :
  get_at q e = Some x -> get_at q (set_at q new e) = Some new.
Proof.
  revert e. induction q as [|i q IH]; intros e; [reflexivity|].
  destruct e as [t a y z cs]. cbn [get_at set_at children].
  rewrite nth_error_update_nth.
  destruct (nth_error cs i) as [c|]; [|discriminate].
  cbn [option_map]. apply IH.
Qed.

Lemma same_label_refl (x : Element) : same_label x x.
Proof. split; reflexivity. Qed.

Lemma same_label_trans (x y z : Element) :
  same_label x y -> same_label y z -> same_label x z.
Proof. intros [h1 h2] [h3 h4]. split; congruence. Qed.

(** Replacing an element by one of the same label leaves the label of
    the root as it was. *)
Lemma set_at_same_label (q : path) (e x new : Element) :
  get_at q e = Some x -> same_label new x -> same_label (set_at q new e) e.
Proof.
  destruct q as [|i q]; destruct e as [t a y z cs]; cbn [get_at set_at].
  - now intros [= <-].
  - intros _ _. split; reflexivity.
Qed.

Lemma set_at_below_label (i : nat) (q : path) (e new : Element) :
  same_label (set_at (i :: q) new e) e.
Proof. destruct e. split; reflexivity. Qed.

Section FindAfterUpdate.

Variable p : Element -> bool.
Hypothesis p_label : forall x y, same_label x y -> p x = p y.

Lemma first_in_set_at (cs : list Element) :
  Forall (fun c => forall d new, find_path p c = Some d -> p new = true ->
                     find_path p (set_at d new c) = Some d) cs ->
  forall k i d' new,
    first_in (find_path p) p k cs = Some (i :: d') ->
    p new = true ->
    first_in (find_path p) p k (update_nth (i - k) (set_at d' new) cs)
    = Some (i :: d').
Proof.
  induction 1 as [|c cs hc hcs IH]; intros k i d' new; simpl; [discriminate|].
  destruct (p c) eqn:E.
  - intros [= <- <-]. rewrite Nat.sub_diag. cbn [update_nth set_at first_in].
    intros pn. now rewrite pn.
  - destruct (find_path p c) as [q0|] eqn:F.
    + intros [= <- <-]. rewrite Nat.sub_diag. cbn [update_nth first_in].
      intros pn. destruct q0 as [|j q0]; [now apply find_path_not_root in F|].
      rewrite (p_label _ _ (set_at_below_label j q0 c new)), E.
      now rewrite (hc _ _ eq_refl pn).
    + intros h. destruct (first_in_head _ _ _ _ _ h) as (i' & q' & [= <- <-] & le).
      replace (i - k) with (S (i - S k)) by lia.
      cbn [update_nth first_in]. rewrite E, F. intros pn.
      now apply IH.
Qed.

(** The first match stays where it is when another element that
    satisfies [p] takes its place. *)
Lemma find_path_set_at (e : Element) :
  forall d new, find_path p e = Some d -> p new = true ->
    find_path p (set_at d new e) = Some d.
Proof.
  induction e as [t a y z cs IH] using Element_induction.
  intros d new h. destruct d as [|i d']; [now apply find_path_not_root in h|].
  cbn [find_path set_at] in *. intros pn.
  pose proof (first_in_set_at cs IH 0 i d' new h pn) as key.
  now rewrite Nat.sub_0_r in key.
Qed.

Lemma find_set_at (e : Element) (d : path) (new : Element) :
  find_path p e = Some d -> p new = true ->
  find p (set_at d new e) = Some new.
Proof.
  intros h pn. unfold find. rewrite (find_path_set_at e d new h pn).
  destruct (find_path_valid _ _ _ h) as (x & hx & _).
  eapply get_at_set_at; eauto.
Qed.

End FindAfterUpdate.

End ETFacts.
(* ====================================================================== *)
(** * The Classifier *)
(* ====================================================================== *)

Lemma opt_eqb_eq (a : option string) (s : string) :
  opt_eqb a (Some s) = true <-> a = Some s.
Proof.
  destruct a as [x|]; simpl.
  - rewrite String.eqb_eq. split; [now intros -> | now intros [= ->]].
  - split; discriminate.
Qed.

Lemma is_mods_datastream_label (x y : Element) :
  same_label x y -> is_mods_datastream x = is_mods_datastream y.
Proof. intros [ht ha]. unfold is_mods_datastream, get. now rewrite ht, ha. Qed.

(** C5.  Without a MODS datastream among the descendants of the root the
    Classifier answers false; otherwise its answer is true exactly when
    the first MODS datastream has CONTROL_GROUP equal to "M". *)
Theorem classifier_reads_control_group (root : Element) :
  (Forall (fun d => is_mods_datastream d = false) (descendants root) ->
   is_foxml_managed root = false)
  /\ (forall ds, first_match is_mods_datastream root ds ->
        (is_foxml_managed root = true <-> get ds "CONTROL_GROUP" = Some "M")).
Proof.
  split.
  - intros h. apply ETFacts.find_absent in h.
    unfold is_foxml_managed. now rewrite h.
  - intros ds h. apply ETFacts.find_first_match in h.
    unfold is_foxml_managed. rewrite h. apply opt_eqb_eq.
Qed.

Lemma managed_datastream_first :
  first_match is_mods_datastream managed_root managed_datastream.
Proof.
  exists [], [managed_version; content_location].
  repeat split; constructor.
Qed.

Lemma classifier_reads_control_group_witness :
  is_foxml_managed dc_root = false
  /\ (is_foxml_managed managed_root = true
      <-> get managed_datastream "CONTROL_GROUP" = Some "M").
Proof.
  split.
  - apply (proj1 (classifier_reads_control_group dc_root)).
    repeat constructor.
  - exact (proj2 (classifier_reads_control_group managed_root)
             managed_datastream managed_datastream_first).
Defined.

(** C8.  A MODS datastream that has no CONTROL_GROUP attribute is not
    managed. *)
Theorem classifier_without_control_group (root ds : Element) :
  first_match is_mods_datastream root ds ->
  get ds "CONTROL_GROUP" = None ->
  is_foxml_managed root = false.
Proof.
  intros h hcg. apply ETFacts.find_first_match in h.
  unfold is_foxml_managed. now rewrite h, hcg.
Qed.

Lemma bare_datastream_first :
  first_match is_mods_datastream bare_root bare_datastream.
Proof. exists [], []. repeat split; constructor. Qed.

Lemma classifier_without_control_group_witness :
  first_match is_mods_datastream bare_root bare_datastream
  /\ get bare_datastream "CONTROL_GROUP" = None
  /\ is_foxml_managed bare_root = false.
Proof.
  split; [exact bare_datastream_first|]. split; [reflexivity|].
  exact (classifier_without_control_group bare_root bare_datastream
           bare_datastream_first eq_refl).
Defined.

(* ====================================================================== *)
(** * The Transformer *)
(* ====================================================================== *)

Section TransformerFacts.

Variable fromstring : string -> result Element.

Lemma remove_child_label (k : nat) (e : Element) :
  same_label (remove_child k e) e.
Proof. destruct e. split; reflexivity. Qed.

Lemma append_label (e c : Element) : same_label (append e c) e.
Proof. destruct e. split; reflexivity. Qed.

(** A turn of the loop leaves the tag and the attributes of the version
    element alone. *)
Lemma inline_version_label (bag_archive : archive) (dv : Element) :
  same_label (after (inline_version fromstring bag_archive dv)) dv.
Proof.
  unfold inline_version. cbv zeta.
  destruct (truthy dv); [|apply ETFacts.same_label_refl].
  match goal with
  | |- context [match ?r with Ok _ => _ | Raise _ => _ end] => set (removal := r)
  end.
  assert (hrem : forall dv1 gone, removal = Ok (dv1, gone) -> same_label dv1 dv).
  { subst removal. intros dv1 gone.
    destruct (find_path is_content_location dv) as [q|];
      [|intros [= <- _]; apply ETFacts.same_label_refl].
    destruct (get_at q dv) as [cl|];
      [|intros [= <- _]; apply ETFacts.same_label_refl].
    destruct (truthy cl); [|intros [= <- _]; apply ETFacts.same_label_refl].
    destruct q as [|k [|? ?]]; try discriminate.
    intros [= <- _]. apply remove_child_label. }
  destruct removal as [[dv1 gone]|e]; [|apply ETFacts.same_label_refl].
  specialize (hrem _ _ eq_refl).
  destruct (get_XML_tree_zip_file fromstring (get dv1 "ID") bag_archive)
    as [[mods_root|]|e]; cbn [after]; try exact hrem.
  eapply ETFacts.same_label_trans; [apply append_label | exact hrem].
Qed.

(** The loop over the versions leaves the tag and the attributes of the
    datastream alone. *)
Lemma inline_versions_label (bag_archive : archive) (refs : list path) :
  forall (datastream : Element) (now_at : path -> ref),
    same_label (fst (inline_versions fromstring bag_archive datastream now_at refs))
               datastream.
Proof.
  induction refs as [|p rest IH]; intros ds now_at; cbn [inline_versions].
  - apply ETFacts.same_label_refl.
  - destruct (now_at p) as [q|dv].
    + destruct (get_at q ds) as [dv|] eqn:G; [|apply IH].
      assert (lab : same_label
                      (set_at q (after (inline_version fromstring bag_archive dv)) ds) ds)
        by (eapply ETFacts.set_at_same_label; [exact G | apply inline_version_label]).
      cbv zeta.
      destruct (outcome (inline_version fromstring bag_archive dv)).
      * eapply ETFacts.same_label_trans; [apply IH | exact lab].
      * exact lab.
    + destruct (outcome (inline_version fromstring bag_archive dv)); [apply IH|].
      apply ETFacts.same_label_refl.
Qed.

(** Whatever the outcome of [managed_to_inline], the tree it leaves has
    the datastream where it was, with the same tag and with the
    attributes that [set("CONTROL_GROUP", "X")] gave it. *)
Lemma managed_to_inline_tree (root : Element) (bag_archive : archive)
  (d : path) (ds : Element) :
  find_path is_mods_datastream root = Some d ->
  get_at d root = Some ds ->
  exists ds',
    fst (managed_to_inline fromstring root bag_archive) = set_at d ds' root
    /\ same_label ds' (set ds "CONTROL_GROUP" "X").
Proof.
  intros hd hds. unfold managed_to_inline. rewrite hd, hds. cbv zeta.
  pose proof (inline_versions_label bag_archive
                (findall_paths is_datastream_version (set ds "CONTROL_GROUP" "X"))
                (set ds "CONTROL_GROUP" "X") Attached) as lab.
  destruct (inline_versions fromstring bag_archive (set ds "CONTROL_GROUP" "X")
              Attached _) as [ds' out].
  exists ds'. split; [reflexivity | exact lab].
Qed.

Lemma marked_is_mods_datastream (ds : Element) :
  is_mods_datastream ds = true ->
  is_mods_datastream (set ds "CONTROL_GROUP" "X") = true.
Proof.
  destruct ds as [t a x y cs]. unfold is_mods_datastream, get, set.
  cbn [tag attrib]. now rewrite ETFacts.dict_get_set_other.
Qed.

(** After [managed_to_inline] the first MODS datastream of the tree is
    the one of before, with CONTROL_GROUP set to "X". *)
Lemma transformed_datastream (root ds : Element) (bag_archive : archive) :
  first_match is_mods_datastream root ds ->
  exists ds',
    first_match is_mods_datastream
      (fst (managed_to_inline fromstring root bag_archive)) ds'
    /\ tag ds' = tag ds
    /\ attrib ds' = dict_set (attrib ds) "CONTROL_GROUP" "X".
Proof.
  intros h. destruct h as (before & rest & hdesc & hbefore & hp).
  assert (hfind : find is_mods_datastream root = Some ds)
    by (apply ETFacts.find_first_match; exists before, rest; auto).
  unfold find in hfind.
  destruct (find_path is_mods_datastream root) as [d|] eqn:hd; [|discriminate].
  destruct (managed_to_inline_tree root bag_archive d ds hd hfind)
    as (ds' & htree & lab).
  exists ds'. rewrite htree. split.
  - apply ETFacts.find_first_match.
    apply (ETFacts.find_set_at _ is_mods_datastream_label); [exact hd|].
    rewrite (is_mods_datastream_label _ _ lab). now apply marked_is_mods_datastream.
  - destruct lab as [lt la]. destruct ds. split; [exact lt | exact la].
Qed.

End TransformerFacts.

(** C6.  On the tree that [managed_to_inline] leaves, whether it returned
    or raised, the Classifier answers false. *)
Theorem classifier_after_transformer (fromstring : string -> result Element)
  (foxml_root : Element) (bag_archive : archive) :
  is_foxml_managed (fst (managed_to_inline fromstring foxml_root bag_archive))
  = false.
Proof.
  destruct (find is_mods_datastream foxml_root) as [ds|] eqn:hfind.
  - apply ETFacts.find_first_match in hfind.
    destruct (transformed_datastream fromstring foxml_root ds bag_archive hfind)
      as (ds' & hfirst & _ & hattrib).
    apply ETFacts.find_first_match in hfirst.
    unfold is_foxml_managed. rewrite hfirst. unfold get.
    now rewrite hattrib, ETFacts.dict_get_set_same.
  - unfold managed_to_inline. unfold find in hfind.
    destruct (find_path is_mods_datastream foxml_root) as [d|] eqn:hd.
    + rewrite hfind. cbn [fst]. unfold is_foxml_managed, find. now rewrite hd, hfind.
    + cbn [fst]. unfold is_foxml_managed, find. now rewrite hd.
Qed.

(* ====================================================================== *)
(** * The Locator *)
(* ====================================================================== *)

Section LocatorFacts.

Variable fromstring : string -> result Element.

Local Open Scope list_scope.

(** Induction over archives within archives. *)
Lemma payload_induction (P : payload -> Prop) :
  (forall bytes, P (Data bytes)) ->
  (forall entries, Forall (fun entry => P (snd entry)) entries -> P (Zip entries)) ->
  forall content, P content.
Proof.
  intros hdata hzip. fix IH 1. intros [bytes|entries]; [apply hdata|].
  apply hzip. induction entries as [|[n c] entries IHe]; constructor;
    [apply IH | exact IHe].
Qed.

Lemma read_In {A : Type} (zip_ref : list (string * A)) (name : string) (x : A) :
  read zip_ref name = Some x -> In (name, x) zip_ref.
Proof.
  induction zip_ref as [|[n y] l IH]; cbn [read]; [discriminate|].
  destruct (read l name) as [z|].
  - intros [= ->]. right. now apply IH.
  - destruct (String.eqb n name) eqn:E; [|discriminate].
    apply String.eqb_eq in E. subst n. intros [= ->]. now left.
Qed.

Lemma read_listed {A : Type} (zip_ref : list (string * A)) (name : string) :
  In name (namelist zip_ref) -> read zip_ref name <> None.
Proof.
  unfold namelist. induction zip_ref as [|[n y] l IH]; cbn [read map fst In];
    [intros []|].
  intros [->|h].
  - destruct (read l name); [discriminate|]. now rewrite String.eqb_refl.
  - specialize (IH h). destruct (read l name); [discriminate | now elim IH].
Qed.

(** When nothing matches, the Locator returns None and raises nothing. *)
Lemma open_and_search_no_match (target : string) (content : payload) :
  no_match target content = true ->
  open_and_search fromstring (Some target) content = Ok None.
Proof.
  induction content as [bytes|entries IH] using payload_induction;
    cbn [no_match open_and_search]; [discriminate|].
  intros hno. rewrite forallb_forall in hno. rewrite Forall_forall in IH.
  set (opened := map _ entries).
  assert (hopened : forall name c r, In (name, (c, r)) opened ->
            exists entry, In entry entries /\ fst entry = name /\ snd entry = c
                          /\ r = open_and_search fromstring (Some target) c).
  { subst opened. intros name c r h. apply in_map_iff in h as (entry & [= <- <- <-] & hin).
    exists entry. auto. }
  assert (hnames : namelist opened = namelist entries).
  { subst opened. unfold namelist. rewrite map_map. reflexivity. }
  assert (gen : forall names, incl names (namelist entries) ->
            scan fromstring (Some target) opened names = Ok None).
  { induction names as [|name rest IHn]; intros hincl; cbn [scan]; [reflexivity|].
    assert (hin : In name (namelist opened))
      by (rewrite hnames; apply hincl; now left).
    assert (hrest : incl rest (namelist entries))
      by (intros x hx; apply hincl; now right).
    pose proof (read_listed opened name hin) as hread.
    destruct (read opened name) as [[c r]|] eqn:R; [|now elim hread].
    apply read_In in R. destruct (hopened _ _ _ R) as (entry & he & <- & <- & ->).
    specialize (hno _ he). specialize (IH _ he).
    destruct (is_zip_name (fst entry)).
    - rewrite (IH hno). cbn [truthy_opt]. now apply IHn.
    - apply negb_true_iff in hno. cbv zeta. rewrite hno. now apply IHn. }
  apply gen. apply incl_refl.
Qed.

Lemma locator_no_match (target : string) (zip_ref : archive) :
  no_match target (Zip zip_ref) = true ->
  get_XML_tree_zip_file fromstring (Some target) zip_ref = Ok None.
Proof. apply open_and_search_no_match. Qed.

(** The search of an archive whose only member is a nested archive. *)
Lemma open_and_search_level (target : option string) (inner : archive) :
  open_and_search fromstring target (Zip [("level.zip", Zip inner)])
  = match open_and_search fromstring target (Zip inner) with
    | Raise e => Raise e
    | Ok nested_result =>
        if truthy_opt nested_result then Ok nested_result else Ok None
    end.
Proof.
  cbn [open_and_search map namelist fst snd scan].
  change (is_zip_name "level.zip") with true. cbn [read].
  change (String.eqb "level.zip" "level.zip") with true. reflexivity.
Qed.

(** A single matching member under [n] levels of nesting is found when
    it lies at the top level or its root element has children; a root
    without children that comes back from a nested archive is dropped. *)
Lemma locator_at_depth (target name data : string) (e : Element) (n : nat) :
  is_zip_name name = false ->
  PyStr.contains target (PyStr.basename name) = true ->
  utf8_valid data = true ->
  fromstring data = Ok e ->
  get_XML_tree_zip_file fromstring (Some target) (nested n [(name, Data data)])
  = if Nat.eqb n 0 || truthy e then Ok (Some e) else Ok None.
Proof.
  intros hname hmatch hvalid hparse. unfold get_XML_tree_zip_file.
  induction n as [|k IH].
  - cbn [nested open_and_search map namelist fst snd scan].
    rewrite hname. cbv zeta. rewrite hmatch. cbn [read].
    rewrite String.eqb_refl. unfold parse_member. now rewrite hvalid, hparse.
  - cbn [nested]. rewrite open_and_search_level, IH.
    destruct (truthy e) eqn:T; destruct k as [|k]; cbn [Nat.eqb orb];
      unfold truthy_opt; rewrite ?T; reflexivity.
Qed.

End LocatorFacts.

(* ====================================================================== *)
(** * References into the datastream *)
(* ====================================================================== *)

Module RefFacts.

Local Open Scope nat_scope.
Local Open Scope list_scope.

Lemma path_below_app (q s : path) : path_below q (q ++ s) = Some s.
Proof.
  induction q as [|i q IH]; [reflexivity|].
  cbn [path_below app]. now rewrite Nat.eqb_refl.
Qed.

Lemma path_below_eq (q p s : path) : path_below q p = Some s -> p = q ++ s.
Proof.
  revert p. induction q as [|i q IH]; intros p; cbn [path_below].
  - now intros [= ->].
  - destruct p as [|j p]; [discriminate|].
    destruct (Nat.eqb i j) eqn:E; [|discriminate].
    apply Nat.eqb_eq in E. subst j. intros h. cbn. now rewrite (IH _ h).
Qed.

Lemma get_at_app (q s : path) (e x : Element) :
  get_at q e = Some x -> get_at (q ++ s) e = get_at s x.
Proof.
  revert e. induction q as [|i q IH]; intros e; cbn [get_at app].
  - now intros [= ->].
  - destruct (nth_error (children e) i) as [c|]; [apply IH | discriminate].
Qed.

Lemma nth_error_update_nth_other {A : Type} (f : A -> A) (l : list A) (i j : nat) :
  i <> j -> nth_error (update_nth i f l) j = nth_error l j.
Proof.
  revert i j. induction l as [|a l IH]; intros [|i] [|j] ne; cbn; auto.
  - now elim ne.
Qed.

(** What a reference below [q] resolves to after the element at [q] has
    been replaced. *)
Lemma get_at_set_at_below (q s : path) (e x new : Element) :
  get_at q e = Some x -> get_at (q ++ s) (set_at q new e) = get_at s new.
Proof.
  revert e. induction q as [|i q IH]; intros e; cbn [get_at set_at app].
  - reflexivity.
  - destruct e as [t a y z cs]. cbn [children].
    rewrite ETFacts.nth_error_update_nth.
    destruct (nth_error cs i) as [c|]; [|discriminate].
    cbn [option_map]. apply IH.
Qed.

(** A reference that does not point below [q] still resolves after the
    element at [q] has been replaced. *)
Lemma get_at_set_at_other (q p : path) (e x new : Element) :
  get_at q e = Some x -> path_below q p = None ->
  get_at p e <> None -> get_at p (set_at q new e) <> None.
Proof.
  revert p e. induction q as [|i q IH]; intros p e; cbn [path_below].
  - discriminate.
  - destruct p as [|j p]; [intros _ _ _; discriminate|].
    destruct e as [t a y z cs]. cbn [get_at set_at children].
    destruct (Nat.eqb i j) eqn:E.
    + apply Nat.eqb_eq in E. subst j. rewrite ETFacts.nth_error_update_nth.
      destruct (nth_error cs i) as [c|]; [|discriminate].
      cbn [option_map]. apply IH.
    + apply Nat.eqb_neq in E. intros _ _.
      now rewrite nth_error_update_nth_other.
Qed.

Lemma nth_error_drop_nth_before {A : Type} (l : list A) (k j : nat) :
  j < k -> nth_error (drop_nth k l) j = nth_error l j.
Proof.
  revert k j. induction l as [|a l IH]; intros k j lt.
  - destruct k; destruct j; reflexivity.
  - destruct k as [|k]; [lia|]. destruct j as [|j]; [reflexivity|].
    cbn. apply IH. lia.
Qed.

Lemma nth_error_drop_nth_after {A : Type} (l : list A) (k j : nat) :
  k < j -> nth_error (drop_nth k l) (j - 1) = nth_error l j.
Proof.
  revert k j. induction l as [|a l IH]; intros k j lt.
  - destruct k; destruct (j - 1); destruct j; reflexivity.
  - destruct j as [|j]; [lia|].
    replace (S j - 1) with j by lia.
    destruct k as [|k]; [reflexivity|].
    destruct j as [|j]; [lia|]. cbn.
    specialize (IH k (S j)). replace (S j - 1) with j in IH by lia.
    apply IH. lia.
Qed.

Lemma nth_error_app_some {A : Type} (l extra : list A) (j : nat) (x : A) :
  nth_error l j = Some x -> nth_error (l ++ extra) j = Some x.
Proof.
  intros h. rewrite nth_error_app1; [exact h|].
  apply nth_error_Some. congruence.
Qed.

Section Turn.

Variable fromstring : string -> result Element.
Variable bag_archive : archive.

(** The children of a version element after its turn: the children of
    before, without the one that was removed, and with what was appended. *)
Lemma inline_version_children (dv : Element) :
  exists extra,
    match removed (inline_version fromstring bag_archive dv) with
    | None =>
        children (after (inline_version fromstring bag_archive dv))
        = children dv ++ extra
    | Some (k, gone) =>
        nth_error (children dv) k = Some gone
        /\ children (after (inline_version fromstring bag_archive dv))
           = drop_nth k (children dv) ++ extra
    end.
Proof.
  unfold inline_version. cbv zeta.
  destruct (truthy dv); [|exists []; cbn; now rewrite app_nil_r].
  match goal with
  | |- context [match ?r with Ok _ => _ | Raise _ => _ end] => set (removal := r)
  end.
  assert (hrem : forall dv1 gone, removal = Ok (dv1, gone) ->
            match gone with
            | None => dv1 = dv
            | Some (k, cl) =>
                nth_error (children dv) k = Some cl /\ dv1 = remove_child k dv
            end).
  { subst removal. intros dv1 gone.
    destruct (find_path is_content_location dv) as [q|];
      [|now intros [= <- <-]].
    destruct (get_at q dv) as [cl|] eqn:G; [|now intros [= <- <-]].
    destruct (truthy cl); [|now intros [= <- <-]].
    destruct q as [|k [|? ?]]; try discriminate.
    intros [= <- <-]. split; [|reflexivity].
    cbn [get_at] in G. destruct (nth_error (children dv) k); congruence. }
  destruct removal as [[dv1 gone]|e]; [|exists []; cbn; now rewrite app_nil_r].
  specialize (hrem _ _ eq_refl).
  assert (base : match gone with
                 | None => children dv1 = children dv
                 | Some (k, cl) =>
                     nth_error (children dv) k = Some cl
                     /\ children dv1 = drop_nth k (children dv)
                 end).
  { destruct gone as [[k cl]|]; [|now subst].
    destruct hrem as [h ->]. split; [exact h | now destruct dv]. }
  destruct (get_XML_tree_zip_file fromstring (get dv1 "ID") bag_archive)
    as [[mods_root|]|e]; cbn [after removed].
  - exists [xml_content_element mods_root].
    destruct gone as [[k cl]|]; [destruct base as [h1 h2]; split; [exact h1|]|];
      destruct dv1; cbn [append children] in *; congruence.
  - exists []. destruct gone as [[k cl]|]; rewrite app_nil_r; exact base.
  - exists []. destruct gone as [[k cl]|]; rewrite app_nil_r; exact base.
Qed.

(** A reference that resolved before a turn resolves after it, at the
    place where [relocate] says it is. *)
Lemma turn_keeps_references (ds dv : Element) (q p : path) :
  get_at q ds = Some dv ->
  get_at p ds <> None ->
  match
    match removed (inline_version fromstring bag_archive dv) with
    | Some (k, gone) => relocate q k gone (Attached p)
    | None => Attached p
    end
  with
  | Attached p' =>
      get_at p' (set_at q (after (inline_version fromstring bag_archive dv)) ds)
      <> None
  | Detached _ => True
  end.
Proof.
  intros hq hp.
  destruct (inline_version_children dv) as (extra & hch).
  set (t := inline_version fromstring bag_archive dv) in *.
  destruct (path_below q p) as [s|] eqn:B.
  - (* the reference points at the version element or below it *)
    pose proof (path_below_eq _ _ _ B) as ->.
    rewrite (get_at_app _ s _ _ hq) in hp.
    assert (unmoved : get_at s (after t) <> None ->
                      get_at (q ++ s) (set_at q (after t) ds) <> None)
      by (now rewrite (get_at_set_at_below _ s _ _ _ hq)).
    destruct s as [|j r].
    + destruct (removed t) as [[k gone]|]; cbn [relocate]; rewrite ?B;
        apply unmoved; discriminate.
    + cbn [get_at] in hp.
      destruct (nth_error (children dv) j) as [c|] eqn:N; [|now elim hp].
      destruct (removed t) as [[k gone]|]; cbn [relocate]; rewrite ?B.
      * destruct hch as [hk hch].
        destruct (Nat.ltb j k) eqn:L; [|destruct (Nat.eqb j k) eqn:E].
        -- apply Nat.ltb_lt in L. apply unmoved. cbn [get_at]. rewrite hch.
           rewrite (nth_error_app_some _ _ _ c); [exact hp|].
           now rewrite nth_error_drop_nth_before.
        -- apply Nat.eqb_eq in E. subst k. rewrite hk in N. injection N as ->.
           destruct (get_at r c); [exact I | now elim hp].
        -- apply Nat.ltb_ge in L. apply Nat.eqb_neq in E.
           rewrite (get_at_set_at_below _ ((j - 1) :: r) _ _ _ hq).
           cbn [get_at]. rewrite hch.
           rewrite (nth_error_app_some _ _ _ c); [exact hp|].
           rewrite nth_error_drop_nth_after; [exact N | lia].
      * apply unmoved. cbn [get_at]. rewrite hch.
        now rewrite (nth_error_app_some _ _ _ c).
  - (* the reference points elsewhere *)
    assert (get_at p (set_at q (after t) ds) <> None)
      by (eapply get_at_set_at_other; eauto).
    destruct (removed t) as [[k gone]|]; cbn [relocate]; rewrite ?B; assumption.
Qed.

(** The loop meets no unresolved reference when the references it
    starts from resolve. *)
Lemma loop_refs_resolve (refs : list path) :
  forall (ds : Element) (now_at : path -> ref),
    (forall p, In p refs ->
       match now_at p with
       | Attached q => get_at q ds <> None
       | Detached _ => True
       end) ->
    refs_resolve fromstring bag_archive ds now_at refs.
Proof.
  induction refs as [|p0 rest IH]; intros ds now_at inv; cbn [refs_resolve];
    [exact I|].
  pose proof (inv p0 (or_introl eq_refl)) as h0.
  destruct (now_at p0) as [q|dv0] eqn:A.
  - destruct (get_at q ds) as [dv|] eqn:G; [|now elim h0].
    cbv zeta.
    destruct (outcome (inline_version fromstring bag_archive dv)); [|exact I].
    apply IH. intros p hin.
    pose proof (inv p (or_intror hin)) as hp.
    destruct (now_at p) as [q'|e'] eqn:A'.
    + pose proof (turn_keeps_references ds dv q q' G hp) as keep.
      destruct (removed (inline_version fromstring bag_archive dv)) as [[k gone]|];
        [|rewrite A'; exact keep].
      rewrite A'. exact keep.
    + destruct (removed (inline_version fromstring bag_archive dv)) as [[k gone]|];
        [|now rewrite A'].
      rewrite A'. exact I.
  - destruct (outcome (inline_version fromstring bag_archive dv0)); [|exact I].
    apply IH. intros p hin. exact (inv p (or_intror hin)).
Qed.

End Turn.

(** The paths that [findall_paths] returns resolve. *)
Lemma findall_paths_resolve (p : Element -> bool) (e : Element) :
  forall q, In q (findall_paths p e) -> get_at q e <> None.
Proof.
  induction e as [t a x y cs IH] using ETFacts.Element_induction.
  cbn [findall_paths].
  assert (gen : forall pre k, k = length pre ->
            forall q, In q (all_in (findall_paths p) p k cs) ->
                      get_at q (Elem t a x y (pre ++ cs)) <> None).
  { clear - IH. induction cs as [|c cs IHcs]; intros pre k hk q; cbn [all_in];
      [intros []|].
    inversion IH as [|? ? hc hcs]; subst.
    rewrite !in_app_iff. intros [h|[h|h]].
    - destruct (p c); [|destruct h]. destruct h as [<-|[]].
      cbn [get_at children]. rewrite ETFacts.nth_error_middle. discriminate.
    - apply in_map_iff in h as (q' & <- & hq').
      cbn [get_at children]. rewrite ETFacts.nth_error_middle. now apply hc.
    - replace (pre ++ c :: cs) with ((pre ++ [c]) ++ cs)
        by (rewrite <- app_assoc; reflexivity).
      apply (IHcs hcs _ (S (length pre))); [|exact h].
      rewrite length_app. cbn. lia. }
  apply (gen [] 0 eq_refl).
Qed.

(** In [managed_to_inline] every reference of
    [datastream_version_elements] resolves when its turn comes. *)
Lemma managed_to_inline_refs_resolve (fromstring : string -> result Element)
  (bag_archive : archive) (datastream : Element) :
  refs_resolve fromstring bag_archive datastream Attached
    (findall_paths is_datastream_version datastream).
Proof.
  apply loop_refs_resolve. intros p hin.
  now apply findall_paths_resolve in hin.
Qed.

End RefFacts.

(** C9.  When [managed_to_inline] raises on a record with a MODS
    datastream, the tree it leaves already has CONTROL_GROUP set on that
    datastream, and this is the tree that [process_container_zip] goes on
    with after it has printed the error. *)
Theorem transformer_not_atomic (w : World) (foxml_root ds root' : Element)
  (bag_archive : archive) (e : exn) (bag_name : string) (m : Machine) :
  first_match is_mods_datastream foxml_root ds ->
  managed_to_inline (fromstring w) foxml_root bag_archive = (root', Raise e) ->
  (exists ds',
      first_match is_mods_datastream root' ds'
      /\ get ds' "CONTROL_GROUP" = Some "X")
  /\ (is_foxml_managed foxml_root = true ->
      classify_and_transform w bag_archive bag_name foxml_root m
      = (root', print (ConversionError bag_name e)
                  (print (ManagedNotice bag_name) m))).
Proof.
  intros hds hrun. split.
  - destruct (transformed_datastream (fromstring w) foxml_root ds bag_archive hds)
      as (ds' & hfirst & _ & hattrib).
    rewrite hrun in hfirst. exists ds'. split; [exact hfirst|].
    unfold get. now rewrite hattrib, ETFacts.dict_get_set_same.
  - intros hm. unfold classify_and_transform. now rewrite hm, hrun.
Qed.

Lemma transformer_not_atomic_witness :
  is_foxml_managed managed_root = true
  /\ managed_to_inline Expat.fromstring managed_root bag_without_mods
     = (marked_root, Raise AttributeError)
  /\ findall_paths is_xml_content marked_root = []
  /\ (exists ds',
         first_match is_mods_datastream marked_root ds'
         /\ get ds' "CONTROL_GROUP" = Some "X")
  /\ (is_foxml_managed managed_root = true ->
      classify_and_transform (sample_world formatter_ok bag_without_mods)
        bag_without_mods "COLL_obj1" managed_root empty_machine
      = (marked_root, print (ConversionError "COLL_obj1" AttributeError)
                        (print (ManagedNotice "COLL_obj1") empty_machine))).
Proof.
  split; [reflexivity|]. split; [vm_compute; reflexivity|].
  split; [reflexivity|].
  apply (transformer_not_atomic (sample_world formatter_ok bag_without_mods)
           managed_root managed_datastream marked_root bag_without_mods
           AttributeError "COLL_obj1" empty_machine managed_datastream_first).
  vm_compute. reflexivity.
Defined.

(** C1, at a record whose contentLocation element has no children, as
    such elements have: [managed_to_inline] returns, CONTROL_GROUP is "X",
    and the contentLocation element is still in the version element.  A
    turn of the loop removes nothing from a version element whose first
    contentLocation element has no children. *)
Theorem transformer_keeps_content_location :
  (forall (fromstring : string -> result Element) (bag_archive : archive)
          (dv : Element) (q : path) (pointer : Element),
      find_path is_content_location dv = Some q ->
      get_at q dv = Some pointer ->
      truthy pointer = false ->
      removed (inline_version fromstring bag_archive dv) = None
      /\ exists extra,
           children (after (inline_version fromstring bag_archive dv))
           = (children dv ++ extra)%list)
  /\ managed_to_inline Expat.fromstring managed_root bag_with_mods
     = (inlined_root, Ok tt)
  /\ truthy content_location = false
  /\ exists ds,
       first_match is_mods_datastream inlined_root ds
       /\ get ds "CONTROL_GROUP" = Some "X"
       /\ children ds = [inlined_version]
       /\ findall_paths is_content_location inlined_version = [[0%nat]].
Proof.
  split.
  { intros fromstring bag_archive dv q pointer hfind hget hfalse.
    assert (hnone : removed (inline_version fromstring bag_archive dv) = None).
    { unfold inline_version. cbv zeta. rewrite hfind, hget, hfalse.
      destruct (truthy dv); [|reflexivity].
      destruct (get_XML_tree_zip_file fromstring (get dv "ID") bag_archive)
        as [[mods_root|]|e]; reflexivity. }
    split; [exact hnone|].
    destruct (RefFacts.inline_version_children fromstring bag_archive dv)
      as (extra & hch).
    rewrite hnone in hch. now exists extra. }
  split; [vm_compute; reflexivity|]. split; [reflexivity|].
  exists (Elem (qname "foxml" "datastream")
            [("ID", "MODS"); ("CONTROL_GROUP", "X"); ("STATE", "A")] None None
            [inlined_version]).
  split.
  - exists [], [inlined_version; content_location;
               Elem xmlContent_tag [] None None
                 [ Elem "mods" mods_attrib None None
                     [ Elem "titleInfo" [] None None
                         [ Elem "title" [] (Some "A title") None [] ] ] ];
               Elem "mods" mods_attrib None None
                     [ Elem "titleInfo" [] None None
                         [ Elem "title" [] (Some "A title") None [] ] ];
               Elem "titleInfo" [] None None
                         [ Elem "title" [] (Some "A title") None [] ];
               Elem "title" [] (Some "A title") None [] ].
    repeat split; constructor.
  - repeat split; reflexivity.
Qed.

(** C4, at an archive whose match lies in a nested archive and parses to
    an element without children: the nested result is tested with
    [if nested_result:], which such an element fails, so the search goes
    on and ends with None, or with a later match.  This holds at every
    depth of nesting and with every parser; the same member at the top
    level is returned. *)
Theorem locator_drops_childless_nested_match :
  (forall (fromstring : string -> result Element) (target name data : string)
          (e : Element) (n : nat),
      is_zip_name name = false ->
      PyStr.contains target (PyStr.basename name) = true ->
      utf8_valid data = true -> fromstring data = Ok e -> truthy e = false ->
      get_XML_tree_zip_file fromstring (Some target)
        (nested (S n) [(name, Data data)]) = Ok None
      /\ get_XML_tree_zip_file fromstring (Some target) [(name, Data data)]
         = Ok (Some e))
  /\ get_XML_tree_zip_file Expat.fromstring (Some "foxml.xml") nested_childless
     = Ok None
  /\ get_XML_tree_zip_file Expat.fromstring (Some "foxml.xml")
       nested_childless_then_other
     = Ok (Some (Elem "b" [] None None [Elem "c" [] None None []]))
  /\ get_XML_tree_zip_file Expat.fromstring (Some "foxml.xml")
       [("foxml.xml", Data "<a/>")]
     = Ok (Some (Elem "a" [] None None [])).
Proof.
  split; [|repeat split; vm_compute; reflexivity].
  intros fromstring target name data e n hname hmatch hvalid hparse hfalse.
  pose proof (locator_at_depth fromstring target name data e (S n)
                hname hmatch hvalid hparse) as deep.
  pose proof (locator_at_depth fromstring target name data e 0
                hname hmatch hvalid hparse) as top.
  rewrite hfalse in deep. split; [exact deep | exact top].
Qed.

(* ====================================================================== *)
(** * The repair of concatenated documents *)
(* ====================================================================== *)

Section Repair.

Import PyStrFacts.

Lemma substring_after (a b : string) :
  String.substring (String.length a) (String.length (a ++ b) - String.length a) (a ++ b)
  = b.
Proof.
  rewrite length_app.
  replace (String.length a + String.length b - String.length a)%nat
    with (String.length b) by lia.
  apply substring_tail.
Qed.

Lemma substring_one_after (a : string) (c : ascii) (b : string) :
  String.substring (String.length a) 1 (a ++ String c b) = String c "".
Proof.
  induction a as [|x a IH]; simpl; [destruct b; reflexivity | exact IH].
Qed.

Lemma index_of_first (c : ascii) (a b : string) :
  PyStr.has_char c a = false ->
  index_of c (a ++ String c b) = Some (String.length a).
Proof.
  induction a as [|x a IH]; simpl.
  - intros _. now rewrite Ascii.eqb_refl.
  - intros h. apply orb_false_elim in h as [hx ha].
    now rewrite hx, (IH ha).
Qed.

Lemma has_char_app (c : ascii) (a b : string) :
  PyStr.has_char c (a ++ b) = PyStr.has_char c a || PyStr.has_char c b.
Proof.
  induction a as [|x a IH]; simpl; [reflexivity|].
  now rewrite IH, orb_assoc.
Qed.

(** The pattern matches a declaration at the head of the text. *)
Lemma decl_match_head (x rest : string) :
  String.eqb x "" = false ->
  PyStr.has_char ">" x = false ->
  decl_match ("<?xml" ++ x ++ "?>" ++ rest)
  = Some (String.length ("<?xml" ++ x ++ "?>")).
Proof.
  intros hne hx.
  assert (hrest : String.substring 5
                    (String.length ("<?xml" ++ x ++ "?>" ++ rest) - 5)
                    ("<?xml" ++ x ++ "?>" ++ rest)
                  = x ++ String "?" (String ">" rest))
    by (apply (substring_after "<?xml")).
  unfold decl_match. rewrite prefix_refl_app. cbv zeta. rewrite hrest.
  replace (x ++ String "?" (String ">" rest)) with ((x ++ "?") ++ String ">" rest)
    by (rewrite app_assoc; reflexivity).
  rewrite index_of_first
    by (rewrite has_char_app, hx; reflexivity).
  rewrite length_app. cbn [String.length].
  replace (String.length x + 1 - 1)%nat with (String.length x) by lia.
  replace ((x ++ "?") ++ String ">" rest) with (x ++ String "?" (String ">" rest))
    by (rewrite app_assoc; reflexivity).
  rewrite substring_one_after.
  destruct x as [|c x]; [discriminate|].
  cbn [String.length]. rewrite !length_app. cbn [String.length].
  replace (2 <=? S (String.length x) + 1)%nat with true
    by (symmetry; apply Nat.leb_le; lia).
  cbn [andb String.eqb Ascii.eqb Bool.eqb]. f_equal. lia.
Qed.

(** The characters of a match are copied, and [<root>] follows them. *)
Lemma sub_go_copy (a : string) (c : ascii) (b : string) :
  sub_go (S (String.length a)) (String c a ++ b)
  = String c a ++ "<root>" ++ sub_go 0 b.
Proof.
  revert c. induction a as [|d a IH]; intros c.
  - reflexivity.
  - change (sub_go (S (String.length (String d a))) (String c (String d a) ++ b))
      with (String c (sub_go (S (String.length a)) (String d a ++ b))).
    now rewrite IH.
Qed.

(** Text without [<?xml] is left as it is. *)
Lemma sub_go_no_declaration (s : string) :
  PyStr.contains "<?xml" s = false -> sub_go 0 s = s.
Proof.
  induction s as [|c s IH]; [reflexivity|].
  intros h. cbn [PyStr.contains] in h. apply orb_false_elim in h as [hp hs].
  cbn [sub_go]. unfold decl_match. rewrite hp. now rewrite (IH hs).
Qed.

(** With one declaration, at the head of the text, the substitution puts
    [<root>] after the declaration and changes nothing else. *)
Lemma sub_xml_decl_single (x body : string) :
  String.eqb x "" = false ->
  PyStr.has_char ">" x = false ->
  PyStr.contains "<?xml" body = false ->
  sub_xml_decl ("<?xml" ++ x ++ "?>" ++ body)
  = "<?xml" ++ x ++ "?>" ++ "<root>" ++ body.
Proof.
  intros hne hx hbody. unfold sub_xml_decl.
  pose proof (decl_match_head x body hne hx) as hm.
  set (a := "xml" ++ x ++ "?>").
  assert (e1 : "<?xml" ++ x ++ "?>" ++ body = String "<" (String "?" a ++ body))
    by (subst a; cbn [String.append]; now rewrite !app_assoc).
  assert (e2 : "<?xml" ++ x ++ "?>" ++ "<root>" ++ body
               = String "<" (String "?" a ++ "<root>" ++ body))
    by (subst a; cbn [String.append]; now rewrite !app_assoc).
  assert (e3 : String.length ("<?xml" ++ x ++ "?>") = S (S (String.length a)))
    by reflexivity.
  rewrite e1 in hm. rewrite e1, e2, e3 in *.
  cbn [sub_go]. rewrite hm.
  change (S (S (String.length a)) - 1)%nat with (S (String.length a) - 0)%nat.
  rewrite Nat.sub_0_r, sub_go_copy, (sub_go_no_declaration _ hbody).
  reflexivity.
Qed.

End Repair.

(** C3, as amended.  When the text is one XML declaration followed by a
    body without further declarations, and the first parse fails with
    "junk after document element", the Locator parses the declaration
    followed by the body wrapped in [<root>] and [</root>]; a parse error
    of another kind propagates. *)
Theorem repair_wraps_after_single_declaration
  (fromstring : string -> result Element) (x body msg : string) :
  String.eqb x "" = false ->
  PyStr.has_char ">" x = false ->
  PyStr.contains "<?xml" body = false ->
  utf8_valid ("<?xml" ++ x ++ "?>" ++ body) = true ->
  fromstring ("<?xml" ++ x ++ "?>" ++ body) = Raise (ParseError msg) ->
  parse_member fromstring (Data ("<?xml" ++ x ++ "?>" ++ body))
  = if PyStr.contains "junk after document element" msg
    then fromstring ("<?xml" ++ x ++ "?>" ++ "<root>" ++ body ++ "</root>")
    else Raise (ParseError msg).
Proof.
  intros hne hx hbody hvalid hparse.
  unfold parse_member. rewrite hvalid, hparse.
  destruct (PyStr.contains "junk after document element" msg); [|reflexivity].
  rewrite (sub_xml_decl_single x body hne hx hbody).
  now rewrite !PyStrFacts.app_assoc.
Qed.

Lemma repair_wraps_after_single_declaration_witness :
  Expat.fromstring one_declaration = Raise (ParseError "junk after document element")
  /\ parse_member Expat.fromstring (Data one_declaration)
     = Expat.fromstring (xml_declaration ++ "<root>" ++ "<a/><b/>" ++ "</root>")
  /\ Expat.fromstring (xml_declaration ++ "<root>" ++ "<a/><b/>" ++ "</root>")
     = Ok (Elem "root" [] None None
             [Elem "a" [] None None []; Elem "b" [] None None []]).
Proof.
  split; [vm_compute; reflexivity|].
  split; [|vm_compute; reflexivity].
  exact (repair_wraps_after_single_declaration Expat.fromstring
           version_attribute "<a/><b/>" "junk after document element"
           eq_refl eq_refl eq_refl eq_refl eq_refl).
Defined.

(** C3 as stated fails at its own example: [<root>] is put after each of
    the two declarations, the second parse fails as well, and the Locator
    raises. *)
Lemma repair_counterexample :
  sub_xml_decl two_declarations ++ "</root>"
  = xml_declaration ++ "<root>" ++ "<a/>" ++ xml_declaration ++ "<root>" ++ "<b/>"
      ++ "</root>"
  /\ Expat.fromstring two_declarations
     = Raise (ParseError "junk after document element")
  /\ get_XML_tree_zip_file Expat.fromstring (Some "mods.xml")
       [("mods.xml", Data two_declarations)]
     = Raise (ParseError "XML or text declaration not at start of entity").
Proof. repeat split; vm_compute; reflexivity. Qed.

(* ====================================================================== *)
(** * The Batch Orchestrator *)
(* ====================================================================== *)

Section OrchestratorFacts.

Variable w : World.

Local Open Scope list_scope.

Lemma grows_refl (m : Machine) : grows m m.
Proof. split; [exists []; now rewrite app_nil_r | reflexivity]. Qed.








(** The tree that goes to the serializer does not depend on the state
    of the machine. *)
Lemma classify_and_transform_tree (zip_archive : archive) (bag_name : string)
  (foxml_root : Element) (m m0 : Machine) :
  fst (classify_and_transform w zip_archive bag_name foxml_root m)
  = fst (classify_and_transform w zip_archive bag_name foxml_root m0).
Proof.
  unfold classify_and_transform. destruct (is_foxml_managed foxml_root); [|reflexivity].
  now destruct (managed_to_inline _ _ _) as [r [[]|e]].
Qed.

(** The Classifier and the Transformer make no directory and write no
    file. *)
Lemma classify_and_transform_disk (zip_archive : archive) (bag_name : string)
  (foxml_root : Element) (m : Machine) :
  dirs (snd (classify_and_transform w zip_archive bag_name foxml_root m)) = dirs m
  /\ files (snd (classify_and_transform w zip_archive bag_name foxml_root m))
     = files m.
Proof.
  unfold classify_and_transform. destruct (is_foxml_managed foxml_root).
  - destruct (managed_to_inline _ _ _) as [r [[]|e]]; split; reflexivity.
  - split; reflexivity.
Qed.






(** What the lookup of the record does to the locals and to the
    machine. *)
Lemma locate_record_effect (input_zip : string) (zip_archive : archive)
  (name : string) (l l1 : Locals) (m m1 : Machine)
  (r : result (option (option Element))) :
  locate_record w input_zip zip_archive name l m = (r, l1, m1) ->
  formatted_xml_string l1 = formatted_xml_string l
  /\ converted_foxml_path l1 = converted_foxml_path l
  /\ (found_first_atomzip l = true -> found_first_atomzip l1 = true)
  /\ (m1 = m \/ (m1 = print (DrushFailed name) m /\ r = Ok None)).
Proof.
  unfold locate_record.
  repeat match goal with
         | |- context [match ?x with _ => _ end] => destruct x
         | |- context [if ?x then _ else _] => destruct x
         end;
    intros [= <- <- <-]; cbn; repeat split; auto.
Qed.

End OrchestratorFacts.




(** A companion archive whose name is the suffix alone has the empty bag
    name: the directory of the item is the directory of the container
    under another spelling, it cannot be made, and for the first item of
    the container the task ends at line 280. *)
Lemma directory_under_another_spelling :
  path_join "out/c" (get_bag_name_from_atomzip "Bag/data/_foxml_atomzip.zip")
  = "out/c/"
  /\ mkdir_error (sample_world formatter_ok bag_with_mods) "out/c/"
       (dirs sample_machine) (files sample_machine)
     = Some FileExistsError
  /\ snd (process_member (sample_world formatter_ok bag_with_mods) "c.zip"
            bag_with_mods "out/c" "Bag/data/_foxml_atomzip.zip" sample_locals
            sample_machine)
     = Uncaught (UnboundLocalError "converted_foxml_path")
  /\ In (OtherError FileExistsError)
        (console (snd (fst (process_member
                              (sample_world formatter_ok bag_with_mods) "c.zip"
                              bag_with_mods "out/c" "Bag/data/_foxml_atomzip.zip"
                              sample_locals sample_machine)))).
Proof.
  split; [reflexivity|]. split; [reflexivity|].
  split; [vm_compute; reflexivity | vm_compute; tauto].
Qed.
(* ====================================================================== *)
(** * More about logical names *)
(* ====================================================================== *)

Section MoreLogicalNames.

Import PyStr PyStrFacts.

(** The last occurrence of a character that occurs. *)
Lemma last_occurrence (c : ascii) (s : string) :
  has_char c s = true ->
  exists a b, s = a ++ String c b /\ has_char c b = false.
Proof.
  induction s as [|x s IH]; cbn [has_char]; [discriminate|].
  destruct (has_char c s) eqn:H.
  - intros _. destruct (IH eq_refl) as (a & b & -> & hb).
    exists (String x a), b. split; [reflexivity | exact hb].
  - rewrite orb_false_r. intros hx. apply Ascii.eqb_eq in hx. subst x.
    exists "", s. split; [reflexivity | exact H].
Qed.

Lemma basename_go_no_slash (p u : string) :
  has_char "/" u = false -> has_char "/" (basename_go (u ++ p) p) = false.
Proof.
  revert u. induction p as [|c r IH]; intros u hu; cbn [basename_go].
  - now rewrite app_empty_r.
  - destruct (Ascii.eqb c "/") eqn:E.
    + apply (IH "" eq_refl).
    + replace (u ++ String c r) with ((u ++ String c "") ++ r)
        by (rewrite app_assoc; reflexivity).
      apply IH. rewrite has_char_app. cbn [has_char]. now rewrite hu, E.
Qed.

Lemma basename_no_slash (p : string) : has_char "/" (basename p) = false.
Proof. apply (basename_go_no_slash p "" eq_refl). Qed.

(** Deleting text does not bring in a character that was not there. *)
Lemma replace_go_delete_absent (c : ascii) (old s : string) (k : nat) :
  has_char c s = false -> has_char c (replace_go old "" k s) = false.
Proof.
  revert k. induction s as [|x s IH]; intros k; cbn [has_char replace_go];
    [reflexivity|].
  intros h. apply orb_false_elim in h as [hx hs].
  destruct k as [|k]; [|now apply IH].
  destruct (String.prefix old (String x s)); cbn [String.append has_char].
  - now apply IH.
  - rewrite hx. now apply IH.
Qed.

Lemma substring_absent (c : ascii) (s : string) (n m : nat) :
  has_char c s = false -> has_char c (String.substring n m s) = false.
Proof.
  revert n m. induction s as [|x s IH]; intros n m; cbn [has_char].
  - intros _. destruct n, m; reflexivity.
  - intros h. apply orb_false_elim in h as [hx hs].
    destruct n as [|n]; cbn [String.substring].
    + destruct m as [|m]; [reflexivity|]. cbn [has_char]. rewrite hx. now apply IH.
    + now apply IH.
Qed.

End MoreLogicalNames.

Section PrefixFacts.

Import PyStrFacts.

(** Whether [m] begins a text is decided by the first [length m]
    characters of the text. *)
Lemma prefix_app_long (m s t : string) :
  (String.length m <= String.length s)%nat ->
  String.prefix m (s ++ t) = String.prefix m s.
Proof.
  revert s. induction m as [|c m IH]; intros s hl.
  - destruct s; destruct t; reflexivity.
  - destruct s as [|d s]; [cbn in hl; lia|].
    cbn [String.append String.prefix].
    destruct (Ascii.ascii_dec c d); [|reflexivity].
    apply IH. cbn in hl. lia.
Qed.

Lemma prefix_split (m s : string) :
  String.prefix m s = true -> exists rest, s = m ++ rest.
Proof.
  revert s. induction m as [|c m IH]; intros s.
  - intros _. now exists s.
  - destruct s as [|d s]; [discriminate|]. cbn [String.prefix].
    destruct (Ascii.ascii_dec c d) as [<-|]; [|discriminate].
    intros h. destruct (IH _ h) as (rest & ->). now exists rest.
Qed.

End PrefixFacts.

(** X1.  When the bag name has an underscore, the collection and the PID
    are its two sides at the last underscore: joined by an underscore
    they give the bag name back. *)
Theorem collection_and_pid_rejoin (zip_path : string) :
  PyStr.has_char "_" (get_bag_name_from_atomzip zip_path) = true ->
  fst (collection_and_pid zip_path) ++ "_" ++ snd (collection_and_pid zip_path)
  = get_bag_name_from_atomzip zip_path.
Proof.
  unfold collection_and_pid, get_bag_name_from_atomzip.
  set (b := PyStr.replace atomzip_suffix "" (PyStr.basename zip_path)).
  intros h. destruct (last_occurrence _ _ h) as (a & p & hb & hp).
  destruct (split_at_last_separator a p hp) as (hr & hto & hfrom).
  change (a ++ "_" ++ p) with (a ++ String "_" p) in *.
  rewrite hb. cbn [fst snd]. now rewrite hr, hto, hfrom.
Qed.

Lemma collection_and_pid_rejoin_witness :
  fst (collection_and_pid "bag/data/ACME_COLL_obj123_foxml_atomzip.zip") ++ "_"
    ++ snd (collection_and_pid "bag/data/ACME_COLL_obj123_foxml_atomzip.zip")
  = get_bag_name_from_atomzip "bag/data/ACME_COLL_obj123_foxml_atomzip.zip".
Proof.
  exact (collection_and_pid_rejoin "bag/data/ACME_COLL_obj123_foxml_atomzip.zip"
           eq_refl).
Defined.

(** X2.  The PID never contains an underscore. *)
Theorem pid_has_no_underscore (zip_path : string) :
  PyStr.has_char "_" (snd (collection_and_pid zip_path)) = false.
Proof.
  unfold collection_and_pid.
  set (b := PyStr.replace atomzip_suffix "" (PyStr.basename zip_path)).
  cbn [snd]. destruct (PyStr.has_char "_" b) eqn:h.
  - destruct (last_occurrence _ _ h) as (a & p & hb & hp).
    destruct (split_at_last_separator a p hp) as (hr & _ & hfrom).
    change (a ++ "_" ++ p) with (a ++ String "_" p) in *.
    rewrite hb. now rewrite hr, hfrom.
  - rewrite (PyStrFacts.rfind_absent _ _ h). change (-1 + 1) with 0.
    now rewrite PyStrFacts.slice_from_zero.
Qed.

(** X3.  The bag name, the collection and the PID never contain a
    slash, whatever directories the path of the companion archive has. *)
Theorem bag_name_has_no_slash (zip_path : string) :
  PyStr.has_char "/" (get_bag_name_from_atomzip zip_path) = false
  /\ PyStr.has_char "/" (fst (collection_and_pid zip_path)) = false
  /\ PyStr.has_char "/" (snd (collection_and_pid zip_path)) = false.
Proof.
  assert (h : PyStr.has_char "/" (get_bag_name_from_atomzip zip_path) = false).
  { unfold get_bag_name_from_atomzip, PyStr.replace.
    apply replace_go_delete_absent, basename_no_slash. }
  split; [exact h|].
  unfold collection_and_pid, PyStr.slice_to, PyStr.slice_from. cbn [fst snd].
  split; apply substring_absent; exact h.
Qed.

(* ====================================================================== *)
(** * The output of the bag-creation tool *)
(* ====================================================================== *)

Section BagPath.

Import PyStrFacts.

Lemma take_app (a b : string) : Expat.take (String.length a) (a ++ b) = a.
Proof. apply substring_head. Qed.

Lemma drop_app (a b : string) : Expat.drop (String.length a) (a ++ b) = b.
Proof. unfold Expat.drop. apply substring_after. Qed.

(** What the lazy class takes: at least one character, no newline, and
    [.zip] follows. *)
Lemma lazy_to_zip_some (s : string) (n : nat) :
  lazy_to_zip s = Some n ->
  exists a rest,
    s = a ++ ".zip" ++ rest /\ String.length a = n /\ String.eqb a "" = false
    /\ PyStr.has_char (Ascii.ascii_of_nat 10) a = false.
Proof.
  revert n. induction s as [|c s IH]; intros n; cbn [lazy_to_zip]; [discriminate|].
  destruct (Ascii.eqb c (Ascii.ascii_of_nat 10)) eqn:E; [discriminate|].
  destruct (String.prefix ".zip" s) eqn:P.
  - intros [= <-]. destruct (prefix_split _ _ P) as (rest & ->).
    exists (String c ""), rest.
    repeat split. cbn [PyStr.has_char]. now rewrite E.
  - destruct (lazy_to_zip s) as [m|]; [|discriminate].
    intros [= <-]. destruct (IH m eq_refl) as (a & rest & -> & hl & hne & hnl).
    exists (String c a), rest. repeat split.
    + cbn. now rewrite hl.
    + cbn [PyStr.has_char]. now rewrite E, hnl.
Qed.

(** The lazy class stops at the first [.zip] that at least one
    character precedes. *)
Lemma lazy_to_zip_first (a rest : string) :
  String.eqb a "" = false ->
  PyStr.has_char (Ascii.ascii_of_nat 10) a = false ->
  PyStr.contains ".zip" (a ++ ".zi") = false ->
  lazy_to_zip (a ++ ".zip" ++ rest) = Some (String.length a).
Proof.
  induction a as [|c a IH]; [discriminate|]. intros _ hnl hzip.
  cbn [PyStr.has_char] in hnl. apply orb_false_elim in hnl as [hc hnl].
  change (String c a ++ ".zip" ++ rest) with (String c (a ++ ".zip" ++ rest)).
  cbn [lazy_to_zip]. rewrite hc.
  change (String c a ++ ".zi") with (String c (a ++ ".zi")) in hzip.
  cbn [PyStr.contains] in hzip. apply orb_false_elim in hzip as [_ hzip].
  destruct a as [|d a].
  - change ("" ++ ".zip" ++ rest) with (".zip" ++ rest).
    now rewrite prefix_refl_app.
  - assert (hp : String.prefix ".zip" (String d a ++ ".zip" ++ rest) = false).
    { assert (hp0 : String.prefix ".zip" (String d a ++ ".zi") = false).
      { destruct (String.prefix ".zip" (String d a ++ ".zi")) eqn:P0;
          [|reflexivity].
        change (String d a ++ ".zi") with (String d (a ++ ".zi")) in hzip.
        cbn [PyStr.contains] in hzip.
        change (String d (a ++ ".zi")) with (String d a ++ ".zi") in hzip.
        rewrite P0 in hzip. discriminate. }
      replace (String d a ++ ".zip" ++ rest)
        with ((String d a ++ ".zi") ++ "p" ++ rest)
        by (rewrite !app_assoc; reflexivity).
      rewrite prefix_app_long; [exact hp0|].
      rewrite length_app. cbn. lia. }
    rewrite hp, (IH eq_refl hnl hzip). reflexivity.
Qed.

End BagPath.

Section BagPathMore.

Import PyStrFacts.

Lemma first_bag_path_unfold (s : string) :
  first_bag_path s
  = match
      (if String.prefix bag_created s then
         match lazy_to_zip (Expat.drop (String.length bag_created) s) with
         | Some n =>
             Some (Expat.take (n + 4) (Expat.drop (String.length bag_created) s))
         | None => None
         end
       else None)
    with
    | Some p => Some p
    | None =>
        match s with
        | EmptyString => None
        | String _ s' => first_bag_path s'
        end
    end.
Proof. destruct s; reflexivity. Qed.

(** A path found in the output is a non-empty text without newline,
    followed by [.zip]. *)
Lemma first_bag_path_shape (s p : string) :
  first_bag_path s = Some p ->
  exists a, p = a ++ ".zip" /\ String.eqb a "" = false
            /\ PyStr.has_char (Ascii.ascii_of_nat 10) a = false.
Proof.
  revert p. induction s as [|c s IH]; intros p; rewrite first_bag_path_unfold.
  - destruct (String.prefix bag_created ""); [|discriminate].
    destruct (lazy_to_zip _) eqn:L; [|discriminate].
    cbn in L. discriminate.
  - destruct (String.prefix bag_created (String c s)); [|apply IH].
    set (rest0 := Expat.drop (String.length bag_created) (String c s)).
    destruct (lazy_to_zip rest0) as [n|] eqn:L; [|apply IH].
    intros [= <-].
    destruct (lazy_to_zip_some _ _ L) as (a & rest & hrest & <- & hne & hnl).
    exists a. split; [|split; assumption].
    rewrite hrest.
    replace (a ++ ".zip" ++ rest) with ((a ++ ".zip") ++ rest)
      by (now rewrite app_assoc).
    replace (String.length a + 4)%nat with (String.length (a ++ ".zip"))
      by (rewrite length_app; reflexivity).
    apply take_app.
Qed.

Lemma first_bag_path_absent (s : string) :
  PyStr.contains bag_created s = false -> first_bag_path s = None.
Proof.
  induction s as [|c s IH]; rewrite first_bag_path_unfold; cbn [PyStr.contains];
    intros h; apply orb_false_elim in h as [hp hs]; rewrite hp; auto.
Qed.

Lemma bag_created_last : bag_created = PyStr.drop_last bag_created ++ " ".
Proof. reflexivity. Qed.

(** The first line of the tool that names a path is the one that is
    read. *)
Lemma first_bag_path_found (pre path post : string) :
  PyStr.contains bag_created (pre ++ PyStr.drop_last bag_created) = false ->
  String.eqb path "" = false ->
  PyStr.has_char (Ascii.ascii_of_nat 10) path = false ->
  PyStr.contains ".zip" (path ++ ".zi") = false ->
  first_bag_path (pre ++ bag_created ++ path ++ ".zip" ++ post)
  = Some (path ++ ".zip").
Proof.
  intros hpre hne hnl hzip. induction pre as [|c pre IH];
    rewrite first_bag_path_unfold.
  - change ("" ++ bag_created ++ path ++ ".zip" ++ post)
      with (bag_created ++ path ++ ".zip" ++ post).
    rewrite prefix_refl_app, drop_app, (lazy_to_zip_first _ _ hne hnl hzip).
    replace (path ++ ".zip" ++ post) with ((path ++ ".zip") ++ post)
      by (now rewrite app_assoc).
    replace (String.length path + 4)%nat with (String.length (path ++ ".zip"))
      by (rewrite length_app; reflexivity).
    now rewrite take_app.
  - change (String c pre ++ PyStr.drop_last bag_created)
      with (String c (pre ++ PyStr.drop_last bag_created)) in hpre.
    cbn [PyStr.contains] in hpre. apply orb_false_elim in hpre as [hp hrest].
    assert (hhere : String.prefix bag_created
                      (String c pre ++ bag_created ++ path ++ ".zip" ++ post)
                    = false).
    { replace (String c pre ++ bag_created ++ path ++ ".zip" ++ post)
        with ((String c pre ++ PyStr.drop_last bag_created)
                ++ " " ++ path ++ ".zip" ++ post)
        by (rewrite bag_created_last at 2; now rewrite !app_assoc).
      rewrite prefix_app_long; [exact hp|].
      rewrite length_app.
      change (String.length (PyStr.drop_last bag_created)) with 24%nat.
      change (String.length bag_created) with 25%nat.
      cbn [String.length]. lia. }
    rewrite hhere. apply (IH hrest).
Qed.

(** The bytes of a white space character of several bytes are not
    ASCII. *)
Lemma is_py_space2_high (a b : ascii) :
  is_py_space2 a b = true ->
  (128 <= Ascii.nat_of_ascii a /\ 128 <= Ascii.nat_of_ascii b)%nat.
Proof.
  unfold is_py_space2. cbv zeta. intros h.
  repeat match goal with
         | h : (_ || _)%bool = true |- _ => apply orb_prop in h as [h|h]
         | h : (_ && _)%bool = true |- _ =>
             let h1 := fresh "h" in apply andb_prop in h as [h1 h]
         | h : Nat.eqb _ _ = true |- _ => apply Nat.eqb_eq in h
         | h : Nat.leb _ _ = true |- _ => apply Nat.leb_le in h
         end; lia.
Qed.

Lemma is_py_space3_high (a b c : ascii) :
  is_py_space3 a b c = true ->
  (128 <= Ascii.nat_of_ascii a /\ 128 <= Ascii.nat_of_ascii b
   /\ 128 <= Ascii.nat_of_ascii c)%nat.
Proof.
  unfold is_py_space3. cbv zeta. intros h.
  repeat match goal with
         | h : (_ || _)%bool = true |- _ => apply orb_prop in h as [h|h]
         | h : (_ && _)%bool = true |- _ =>
             let h1 := fresh "h" in apply andb_prop in h as [h1 h]
         | h : Nat.eqb _ _ = true |- _ => apply Nat.eqb_eq in h
         | h : Nat.leb _ _ = true |- _ => apply Nat.leb_le in h
         end; lia.
Qed.

Lemma is_py_space2_ascii (a b : ascii) :
  (Ascii.nat_of_ascii b < 128)%nat -> is_py_space2 a b = false.
Proof.
  intros h. destruct (is_py_space2 a b) eqn:E; [|reflexivity].
  apply is_py_space2_high in E. lia.
Qed.

Lemma is_py_space3_ascii (a b c : ascii) :
  (Ascii.nat_of_ascii b < 128 \/ Ascii.nat_of_ascii c < 128)%nat ->
  is_py_space3 a b c = false.
Proof.
  intros h. destruct (is_py_space3 a b c) eqn:E; [|reflexivity].
  apply is_py_space3_high in E. lia.
Qed.

Lemma eqb_by_code (a c : ascii) :
  Ascii.nat_of_ascii a <> Ascii.nat_of_ascii c -> Ascii.eqb a c = false.
Proof.
  intros h. apply Ascii.eqb_neq. intros ->. now apply h.
Qed.

(** A string that is white space throughout has no ASCII character that
    is no white space. *)
Lemma all_space_ascii (c : ascii) :
  (Ascii.nat_of_ascii c < 128)%nat -> is_py_space c = false ->
  forall s, all_space s = true -> PyStr.has_char c s = false.
Proof.
  intros hc hs s.
  assert (gen : forall n s, (String.length s <= n)%nat ->
                            all_space s = true -> PyStr.has_char c s = false).
  { clear s. induction n as [|n IH]; intros s hlen h.
    - destruct s; [reflexivity | cbn in hlen; lia].
    - destruct s as [|a s1]; [reflexivity|]. cbn [String.length] in hlen.
      cbn [all_space] in h. cbn [PyStr.has_char].
      destruct (is_py_space a) eqn:A.
      + rewrite (IH s1) by (auto; lia).
        replace (Ascii.eqb a c) with false; [reflexivity|].
        symmetry. apply Ascii.eqb_neq. intros ->. congruence.
      + destruct s1 as [|b s2]; [discriminate|]. cbn [String.length] in hlen.
        cbn [PyStr.has_char].
        destruct (is_py_space2 a b) eqn:B.
        * apply is_py_space2_high in B.
          rewrite (IH s2) by (auto; lia).
          rewrite !eqb_by_code by lia. reflexivity.
        * destruct s2 as [|d s3]; [discriminate|]. cbn [String.length] in hlen.
          cbn [PyStr.has_char].
          destruct (is_py_space3 a b d) eqn:D; [|discriminate].
          apply is_py_space3_high in D.
          rewrite (IH s3) by (auto; lia).
          rewrite !eqb_by_code by lia. reflexivity. }
  exact (gen (String.length s) s (le_n _)).
Qed.

Lemma rstrip_zip (a : string) : rstrip (a ++ ".zip") = a ++ ".zip".
Proof.
  assert (hns : forall x, all_space (x ++ ".zip") = false).
  { intros x. destruct (all_space (x ++ ".zip")) eqn:E; [|reflexivity].
    apply (all_space_ascii "p") in E; [|cbn; lia | reflexivity].
    rewrite has_char_app in E. apply orb_false_elim in E as [_ E].
    discriminate E. }
  induction a as [|c a IH].
  - reflexivity.
  - change (String c a ++ ".zip") with (String c (a ++ ".zip")).
    cbn [rstrip].
    change (String c (a ++ ".zip")) with (String c a ++ ".zip").
    rewrite hns.
    change (String c a ++ ".zip") with (String c (a ++ ".zip")).
    now rewrite IH.
Qed.

(** What [lstrip] removes before [.zip] is a head of the text before
    it. *)
Lemma lstrip_zip (c : ascii) (a : string) :
  PyStr.has_char c a = false ->
  exists a', lstrip (a ++ ".zip") = a' ++ ".zip" /\ PyStr.has_char c a' = false.
Proof.
  assert (gen : forall n a, (String.length a <= n)%nat ->
                  PyStr.has_char c a = false ->
                  exists a', lstrip (a ++ ".zip") = a' ++ ".zip"
                             /\ PyStr.has_char c a' = false).
  { clear a. induction n as [|n IH]; intros a hlen h.
    - destruct a; [|cbn in hlen; lia]. exists "". split; reflexivity.
    - destruct a as [|x a1]; [exists ""; split; reflexivity|].
      cbn [String.length] in hlen.
      pose proof h as h0.
      cbn [PyStr.has_char] in h. apply orb_false_elim in h as [hx h1].
      change (String x a1 ++ ".zip") with (String x (a1 ++ ".zip")).
      cbn [lstrip]. destruct (is_py_space x).
      { apply IH; [lia | exact h1]. }
      destruct a1 as [|y a2].
      { change ("" ++ ".zip") with ".zip". cbv iota.
        rewrite is_py_space2_ascii by (cbn; lia).
        rewrite is_py_space3_ascii by (cbn; lia).
        exists (String x ""). split; [reflexivity | exact h0]. }
      cbn [String.length] in hlen.
      cbn [PyStr.has_char] in h1. apply orb_false_elim in h1 as [hy h2].
      change (String y a2 ++ ".zip") with (String y (a2 ++ ".zip")). cbv iota.
      destruct (is_py_space2 x y).
      { apply IH; [lia | exact h2]. }
      destruct a2 as [|z a3].
      { change ("" ++ ".zip") with ".zip". cbv iota.
        rewrite is_py_space3_ascii by (cbn; lia).
        exists (String x (String y "")). split; [reflexivity | exact h0]. }
      cbn [String.length] in hlen.
      cbn [PyStr.has_char] in h2. apply orb_false_elim in h2 as [hz h3].
      change (String z a3 ++ ".zip") with (String z (a3 ++ ".zip")). cbv iota.
      destruct (is_py_space3 x y z).
      { apply IH; [lia | exact h3]. }
      exists (String x (String y (String z a3))). split; [reflexivity | exact h0]. }
  exact (gen (String.length a) a (le_n _)).
Qed.

(** Nothing is removed before a character that is no white space. *)
Lemma lstrip_no_space (path : string) :
  String.eqb path "" = false ->
  space_width path = 0%nat ->
  lstrip (path ++ ".zip") = path ++ ".zip".
Proof.
  intros hne hw. destruct path as [|a [|b [|c rest]]]; [discriminate|..];
    cbn [space_width] in hw; cbn [String.append lstrip];
    destruct (is_py_space a); try discriminate.
  - rewrite is_py_space2_ascii by (cbn; lia).
    now rewrite is_py_space3_ascii by (cbn; lia).
  - destruct (is_py_space2 a b); [discriminate|].
    now rewrite is_py_space3_ascii by (cbn; lia).
  - destruct (is_py_space2 a b); [discriminate|].
    destruct (is_py_space3 a b c); [discriminate | reflexivity].
Qed.

End BagPathMore.

(** X4.  When the output of the tool does not contain
    "Bag created and saved at ", no path is extracted. *)
Theorem no_bag_line_no_path (stdout_bytes : string) :
  utf8_valid stdout_bytes = true ->
  PyStr.contains bag_created stdout_bytes = false ->
  extract_bag_path_from_drush_command_stdout stdout_bytes = Ok None.
Proof.
  intros hv h. unfold extract_bag_path_from_drush_command_stdout.
  now rewrite hv, (first_bag_path_absent _ h).
Qed.

Lemma no_bag_line_no_path_witness :
  extract_bag_path_from_drush_command_stdout "Object not found" = Ok None.
Proof. exact (no_bag_line_no_path "Object not found" eq_refl eq_refl). Defined.

(** X5.  A path that is extracted is not empty, ends with ".zip" and
    has no newline, so the test [if not bag_path] of the caller fails for
    None only. *)
Theorem extracted_bag_path_shape (stdout_bytes bag_path : string) :
  extract_bag_path_from_drush_command_stdout stdout_bytes = Ok (Some bag_path) ->
  PyStr.endswith ".zip" bag_path = true
  /\ String.eqb bag_path "" = false
  /\ PyStr.has_char (Ascii.ascii_of_nat 10) bag_path = false.
Proof.
  unfold extract_bag_path_from_drush_command_stdout.
  destruct (utf8_valid stdout_bytes); [|discriminate].
  destruct (first_bag_path stdout_bytes) as [p|] eqn:F; [|discriminate].
  intros [= <-].
  destruct (first_bag_path_shape _ _ F) as (a & -> & _ & hnl).
  destruct (lstrip_zip _ a hnl) as (a' & hl & hnl').
  unfold strip. rewrite hl, rstrip_zip. split; [apply endswith_app|].
  split; [destruct a'; reflexivity|].
  rewrite has_char_app, hnl'. reflexivity.
Qed.

Lemma extracted_bag_path_shape_witness :
  PyStr.endswith ".zip" "/tmp/bags/Bag-obj2.zip" = true
  /\ String.eqb "/tmp/bags/Bag-obj2.zip" "" = false
  /\ PyStr.has_char (Ascii.ascii_of_nat 10) "/tmp/bags/Bag-obj2.zip" = false.
Proof.
  exact (extracted_bag_path_shape
           ("Bag created and saved at /tmp/bags/Bag-obj2.zip" ++ newline)
           "/tmp/bags/Bag-obj2.zip" eq_refl).
Defined.

(** X6.  From an output whose first "Bag created and saved at " is
    followed by a path that begins with a character that is no white
    space, has no newline and ends with its first ".zip", the path is
    extracted as it stands, whatever stands before the line and after the
    path. *)
Theorem bag_path_is_extracted (pre path post : string) :
  utf8_valid (pre ++ bag_created ++ path ++ ".zip" ++ post) = true ->
  PyStr.contains bag_created (pre ++ PyStr.drop_last bag_created) = false ->
  String.eqb path "" = false ->
  space_width path = 0%nat ->
  PyStr.has_char (Ascii.ascii_of_nat 10) path = false ->
  PyStr.contains ".zip" (path ++ ".zi") = false ->
  extract_bag_path_from_drush_command_stdout
    (pre ++ bag_created ++ path ++ ".zip" ++ post)
  = Ok (Some (path ++ ".zip")).
Proof.
  intros hv hpre hne hhead hnl hzip.
  unfold extract_bag_path_from_drush_command_stdout. rewrite hv.
  rewrite (first_bag_path_found pre path post hpre hne hnl hzip).
  unfold strip. now rewrite (lstrip_no_space _ hne hhead), rstrip_zip.
Qed.

Lemma bag_path_is_extracted_witness :
  extract_bag_path_from_drush_command_stdout
    (("Creating bag" ++ newline) ++ bag_created ++ "/tmp/bags/Bag-obj2" ++ ".zip"
       ++ newline)
  = Ok (Some ("/tmp/bags/Bag-obj2" ++ ".zip")).
Proof.
  exact (bag_path_is_extracted ("Creating bag" ++ newline) "/tmp/bags/Bag-obj2"
           newline eq_refl eq_refl eq_refl eq_refl eq_refl eq_refl).
Defined.

(** White space of more than one byte before the path is removed, and a
    letter of two bytes at its head is kept. *)
Lemma wide_space_before_path :
  extract_bag_path_from_drush_command_stdout
    (bag_created ++ no_break_space ++ "/tmp/x.zip")
  = Ok (Some "/tmp/x.zip")
  /\ extract_bag_path_from_drush_command_stdout
       (bag_created ++ e_acute ++ "/x.zip")
     = Ok (Some (e_acute ++ "/x.zip")).
Proof. split; reflexivity. Qed.

(* ====================================================================== *)
(** * The command line *)
(* ====================================================================== *)

(** X7.  [parse_arguments] returns the second argument exactly when
    there are two arguments and neither is a help flag; a help flag
    anywhere, the program name included, ends the process with status 0
    even when the number of arguments is wrong. *)
Theorem parse_arguments_outcomes (arguments : list string) :
  (forall input_dir,
      parse_arguments arguments = Returned input_dir <->
      exists program,
        arguments = [program; input_dir]
        /\ list_has "--help" arguments = false
        /\ list_has "-h" arguments = false)
  /\ (parse_arguments arguments = SystemExit 0 <->
      list_has "--help" arguments = true \/ list_has "-h" arguments = true)
  /\ (parse_arguments arguments = SystemExit 127 <->
      list_has "--help" arguments = false /\ list_has "-h" arguments = false
      /\ List.length arguments <> 2%nat).
Proof.
  unfold parse_arguments.
  destruct (list_has "--help" arguments) eqn:H1;
    [|destruct (list_has "-h" arguments) eqn:H2]; cbn [orb].
  1-2: (split; [intros p; split; [discriminate | intros (? & _ & h1 & h2); discriminate]|];
        split; [split; auto|]; split; [discriminate | intros (h1 & h2 & _); discriminate]).
  destruct arguments as [|a0 [|a1 [|a2 rest]]]; cbn [List.length Nat.eqb negb nth_error].
  - split; [intros p; split; [discriminate | intros (? & [=] & _)]|].
    split; [split; [discriminate | intros [|]; discriminate]|].
    split; [intros _; repeat split; discriminate | reflexivity].
  - split; [intros p; split; [discriminate | intros (? & [=] & _)]|].
    split; [split; [discriminate | intros [|]; discriminate]|].
    split; [intros _; repeat split; discriminate | reflexivity].
  - split.
    + intros p. split.
      * intros [= <-]. exists a0. auto.
      * intros (? & [= <- <-] & _). reflexivity.
    + split; [split; [discriminate | intros [|]; discriminate]|].
      split; [discriminate | intros (_ & _ & h); now elim h].
  - split; [intros p; split; [discriminate | intros (? & [=] & _)]|].
    split; [split; [discriminate | intros [|]; discriminate]|].
    split; [intros _; repeat split; cbn; lia | reflexivity].
Qed.

(* ====================================================================== *)
(** * More about the Locator *)
(* ====================================================================== *)

Section MoreLocatorFacts.

Variable fromstring : string -> result Element.

Local Open Scope list_scope.

(** Reading from an archive whose entries carry the outcome of their
    search. *)
Lemma read_opened {A : Type} (f : payload -> A) (zip_ref : archive) (name : string) :
  read (map (fun entry => (fst entry, (snd entry, f (snd entry)))) zip_ref) name
  = option_map (fun content => (content, f content)) (read zip_ref name).
Proof.
  induction zip_ref as [|[n c] l IH]; cbn [map read fst snd]; [reflexivity|].
  rewrite IH. destruct (read l name); cbn [option_map]; [reflexivity|].
  destruct (String.eqb n name); reflexivity.
Qed.

(** The loop goes on after the members that the search passes over. *)
Lemma scan_passes_over (target : string) (zip_ref : archive) (pre rest : list string) :
  forallb (passed_over target zip_ref) pre = true ->
  scan fromstring (Some target)
    (map (fun entry =>
            (fst entry,
             (snd entry, open_and_search fromstring (Some target) (snd entry))))
         zip_ref)
    (pre ++ rest)
  = scan fromstring (Some target)
      (map (fun entry =>
              (fst entry,
               (snd entry, open_and_search fromstring (Some target) (snd entry))))
           zip_ref)
      rest.
Proof.
  induction pre as [|n pre IH]; [reflexivity|].
  cbn [forallb]. intros h. apply andb_prop in h as [hn hpre].
  cbn [app scan]. unfold passed_over in hn.
  destruct (is_zip_name n).
  - rewrite read_opened. destruct (read zip_ref n) as [c|]; [|discriminate].
    cbn [option_map]. rewrite (open_and_search_no_match fromstring _ _ hn).
    cbn [truthy_opt]. now apply IH.
  - apply negb_true_iff in hn. cbv zeta. rewrite hn. now apply IH.
Qed.

(** Without a target the search never ends with a tree. *)
Lemma open_and_search_without_target (content : payload) (e : Element) :
  open_and_search fromstring None content <> Ok (Some e).
Proof.
  revert e. induction content as [bytes|entries IH] using payload_induction;
    intros e; cbn [open_and_search]; [discriminate|].
  rewrite Forall_forall in IH.
  generalize (namelist entries). intros names.
  induction names as [|n names IHn]; cbn [scan]; [discriminate|].
  destruct (is_zip_name n); [|discriminate].
  rewrite read_opened.
  destruct (read entries n) as [c|] eqn:R; cbn [option_map]; [|discriminate].
  apply read_In in R. specialize (IH _ R). cbn [snd] in IH.
  destruct (open_and_search fromstring None c) as [[x|]|ex]; cbn [truthy_opt].
  - now elim (IH x).
  - exact IHn.
  - discriminate.
Qed.

End MoreLocatorFacts.

(** X8.  When no member matches at any depth, and every member named as
    a container is an archive, the Locator returns None and raises
    nothing. *)
Theorem locator_returns_none_without_match
  (fromstring : string -> result Element) (target : string) (zip_ref : archive) :
  no_match target (Zip zip_ref) = true ->
  get_XML_tree_zip_file fromstring (Some target) zip_ref = Ok None.
Proof. apply open_and_search_no_match. Qed.

Lemma locator_returns_none_without_match_witness :
  get_XML_tree_zip_file Expat.fromstring (Some "MODS.0") bag_without_mods = Ok None.
Proof.
  exact (locator_returns_none_without_match Expat.fromstring "MODS.0"
           bag_without_mods eq_refl).
Defined.

(** X9.  A matching member whose root element has children is found
    under any number of nested archives. *)
Theorem locator_finds_nested_member (fromstring : string -> result Element)
  (target name data : string) (e : Element) (n : nat) :
  is_zip_name name = false ->
  PyStr.contains target (PyStr.basename name) = true ->
  utf8_valid data = true ->
  fromstring data = Ok e ->
  truthy e = true ->
  get_XML_tree_zip_file fromstring (Some target) (nested n [(name, Data data)])
  = Ok (Some e).
Proof.
  intros hname hmatch hvalid hparse htrue.
  rewrite (locator_at_depth fromstring target name data e n hname hmatch hvalid hparse).
  now rewrite htrue, orb_true_r.
Qed.

Lemma locator_finds_nested_member_witness :
  get_XML_tree_zip_file Expat.fromstring (Some "foxml.xml")
    (nested 3 [("data/foxml.xml", Data managed_foxml)])
  = Ok (Some managed_root).
Proof.
  exact (locator_finds_nested_member Expat.fromstring "foxml.xml" "data/foxml.xml"
           managed_foxml managed_root 3 eq_refl eq_refl eq_refl
           ltac:(vm_compute; reflexivity) eq_refl).
Defined.

(** X10.  Without a target (a version element that has no ID attribute)
    the Locator never returns a tree: it returns None or raises. *)
Theorem locator_without_target (fromstring : string -> result Element)
  (zip_ref : archive) :
  get_XML_tree_zip_file fromstring None zip_ref = Ok None
  \/ exists e, get_XML_tree_zip_file fromstring None zip_ref = Raise e.
Proof.
  pose proof (open_and_search_without_target fromstring (Zip zip_ref)) as h.
  unfold get_XML_tree_zip_file.
  destruct (open_and_search fromstring None (Zip zip_ref)) as [[x|]|e].
  - now elim (h x).
  - now left.
  - right. now exists e.
Qed.

(** X11.  The first member that the search does not pass over decides:
    when it is not named as a container, its base name contains the
    target and its bytes are no archive, its parse is the result; a
    parse error is raised, and the members after it are not looked at. *)
Theorem locator_first_match_decides (fromstring : string -> result Element)
  (target : string) (zip_ref : archive) (pre post : list string)
  (name xml_content : string) :
  namelist zip_ref = (pre ++ name :: post)%list ->
  forallb (passed_over target zip_ref) pre = true ->
  is_zip_name name = false ->
  PyStr.contains target (PyStr.basename name) = true ->
  read zip_ref name = Some (Data xml_content) ->
  get_XML_tree_zip_file fromstring (Some target) zip_ref
  = match parse_member fromstring (Data xml_content) with
    | Ok tree => Ok (Some tree)
    | Raise e => Raise e
    end.
Proof.
  intros hnames hpre hname hmatch hread.
  unfold get_XML_tree_zip_file. cbn [open_and_search].
  rewrite hnames, (scan_passes_over fromstring target zip_ref pre _ hpre).
  cbn [scan]. rewrite hname. cbv zeta. rewrite hmatch, read_opened, hread.
  reflexivity.
Qed.

Lemma locator_first_match_decides_witness :
  get_XML_tree_zip_file Expat.fromstring (Some "foxml.xml") archive_with_early_match
  = match parse_member Expat.fromstring (Data "<a/>") with
    | Ok tree => Ok (Some tree)
    | Raise e => Raise e
    end.
Proof.
  exact (locator_first_match_decides Expat.fromstring "foxml.xml"
           archive_with_early_match ["notes.txt"] ["broken.zip"] "data/foxml.xml"
           "<a/>" eq_refl eq_refl eq_refl eq_refl eq_refl).
Defined.

(** X12.  When the first member that the search does not pass over is
    named as a container and its bytes are no archive, the Locator raises
    BadZipFile, whatever the target. *)
Theorem locator_broken_container (fromstring : string -> result Element)
  (target : string) (zip_ref : archive) (pre post : list string)
  (name bytes : string) :
  namelist zip_ref = (pre ++ name :: post)%list ->
  forallb (passed_over target zip_ref) pre = true ->
  is_zip_name name = true ->
  read zip_ref name = Some (Data bytes) ->
  get_XML_tree_zip_file fromstring (Some target) zip_ref = Raise BadZipFile.
Proof.
  intros hnames hpre hname hread.
  unfold get_XML_tree_zip_file. cbn [open_and_search].
  rewrite hnames, (scan_passes_over fromstring target zip_ref pre _ hpre).
  cbn [scan]. rewrite hname, read_opened, hread. reflexivity.
Qed.

Lemma locator_broken_container_witness :
  get_XML_tree_zip_file Expat.fromstring (Some "foxml.xml")
    archive_with_broken_container
  = Raise BadZipFile.
Proof.
  exact (locator_broken_container Expat.fromstring "foxml.xml"
           archive_with_broken_container ["notes.txt"] [] "broken.zip"
           "no archive" eq_refl eq_refl eq_refl eq_refl).
Defined.

(* ====================================================================== *)
(** * More about the Classifier *)
(* ====================================================================== *)

(** X13.  The Classifier looks below the root only: two records with
    the same children get the same answer, whatever their root elements
    are. *)
Theorem classifier_ignores_root (root1 root2 : Element) :
  children root1 = children root2 ->
  is_foxml_managed root1 = is_foxml_managed root2.
Proof.
  intros h. unfold is_foxml_managed. rewrite !ETFacts.find_is_list_find.
  destruct root1, root2. cbn [children] in h. subst. reflexivity.
Qed.

Lemma classifier_ignores_root_witness :
  is_foxml_managed
    (Elem (qname "foxml" "datastream") [("ID", "MODS"); ("CONTROL_GROUP", "M")]
          None None [])
  = is_foxml_managed (Elem "other" [] None None []).
Proof.
  exact (classifier_ignores_root
           (Elem (qname "foxml" "datastream")
                 [("ID", "MODS"); ("CONTROL_GROUP", "M")] None None [])
           (Elem "other" [] None None []) eq_refl).
Defined.

(* ====================================================================== *)
(** * More about the Transformer *)
(* ====================================================================== *)

Section MoreTreeFacts.

Import ETFacts RefFacts.

Local Open Scope list_scope.

Lemma update_nth_id {A : Type} (f : A -> A) (l : list A) (i : nat) (a : A) :
  nth_error l i = Some a -> f a = a -> update_nth i f l = l.
Proof.
  revert i. induction l as [|b l IH]; intros [|i] h e; cbn in *;
    try discriminate.
  - injection h as ->. now rewrite e.
  - now rewrite (IH _ h e).
Qed.

(** Putting back what is there changes nothing. *)
Lemma set_at_get_at (q : path) :
  forall (e x : Element), get_at q e = Some x -> set_at q x e = e.
Proof.
  induction q as [|i q IH]; intros e x h; cbn in *.
  - now injection h as ->.
  - destruct e as [t a y z cs]. cbn [children] in h.
    destruct (nth_error cs i) as [c|] eqn:N; [|discriminate].
    f_equal. apply (update_nth_id _ _ _ c N). now apply IH.
Qed.

(** A replacement does not show at a place that is neither inside nor
    above the replaced element. *)
Lemma get_at_set_at_apart (q : path) :
  forall (p : path) (e new : Element),
    apart q p -> get_at p (set_at q new e) = get_at p e.
Proof.
  induction q as [|i q IH]; intros p e new [h1 h2].
  - discriminate h1.
  - destruct p as [|j p]; [discriminate h2|].
    destruct e as [t a y z cs]. cbn [set_at get_at children].
    cbn [path_below] in h1, h2.
    destruct (Nat.eqb i j) eqn:E.
    + apply Nat.eqb_eq in E. subst j. rewrite Nat.eqb_refl in h2.
      rewrite nth_error_update_nth.
      destruct (nth_error cs i) as [c|]; cbn [option_map]; [|reflexivity].
      apply IH. now split.
    + apply Nat.eqb_neq in E. now rewrite nth_error_update_nth_other.
Qed.

Lemma all_in_not_root (rec : Element -> list path) (p : Element -> bool)
  (cs : list Element) :
  forall i, ~ In [] (all_in rec p i cs).
Proof.
  induction cs as [|c cs IH]; intros i h; cbn [all_in] in h; [exact h|].
  rewrite !in_app_iff in h. destruct h as [h|[h|h]].
  - destruct (p c); cbn in h; [destruct h as [h|h]; [discriminate h | exact h] | exact h].
  - apply in_map_iff in h as (x & hx & _). discriminate hx.
  - exact (IH _ h).
Qed.

Lemma findall_paths_not_root (p : Element -> bool) (e : Element) :
  ~ In [] (findall_paths p e).
Proof. destruct e. apply all_in_not_root. Qed.

(** What [findall] returns are descendants that satisfy the test. *)
Lemma findall_paths_sound (p : Element -> bool) (e : Element) :
  forall q, In q (findall_paths p e) ->
    exists x, get_at q e = Some x /\ p x = true /\ In x (descendants e).
Proof.
  induction e as [t a y z cs IH] using Element_induction.
  cbn [findall_paths descendants]. intros q.
  assert (gen : forall i,
    In q (all_in (findall_paths p) p i cs) ->
    exists j s x, q = (i + j)%nat :: s
      /\ match nth_error cs j with Some c => get_at s c | None => None end = Some x
      /\ p x = true
      /\ In x (flat_map (fun c => c :: descendants c) cs)).
  { induction cs as [|c cs IHcs]; intros i h; cbn [all_in] in h; [destruct h|].
    inversion IH as [|? ? hc hcs]; subst.
    rewrite !in_app_iff in h. destruct h as [h|[h|h]].
    - destruct (p c) eqn:P; [|destruct h]. destruct h as [<-|[]].
      exists 0%nat, [], c. rewrite Nat.add_0_r. cbn. auto.
    - apply in_map_iff in h as (s & <- & hs).
      destruct (hc _ hs) as (x & gx & px & ix).
      exists 0%nat, s, x. rewrite Nat.add_0_r. cbn [nth_error flat_map].
      repeat split; auto. right. apply in_or_app. now left.
    - destruct (IHcs hcs _ h) as (j & s & x & -> & gx & px & ix).
      exists (S j), s, x. cbn [nth_error flat_map].
      repeat split; auto; [f_equal; lia|]. right. apply in_or_app. now right. }
  intros h. destruct (gen _ h) as (j & s & x & -> & gx & px & ix).
  exists x. cbn [get_at children Nat.add]. auto.
Qed.

Lemma get_at_set_below (i : nat) (q : path) (e : Element) (k v : string) :
  get_at (i :: q) (set e k v) = get_at (i :: q) e.
Proof. destruct e. reflexivity. Qed.

Lemma descendants_map_tree
  (f : string -> list (string * string) -> string * list (string * string))
  (e : Element) :
  descendants (map_tree f e) = map (map_tree f) (descendants e).
Proof.
  induction e as [t a y z cs IH] using Element_induction.
  cbn [map_tree]. destruct (f t a) as [t' a']. cbn [descendants].
  induction cs as [|c cs IHcs]; [reflexivity|].
  inversion IH as [|? ? hc hcs]; subst.
  cbn [map flat_map]. rewrite map_app, hc, (IHcs hcs). reflexivity.
Qed.

Lemma iter_map_tree
  (f : string -> list (string * string) -> string * list (string * string))
  (e : Element) :
  iter (map_tree f e) = map (map_tree f) (iter e).
Proof. unfold iter. cbn [map]. now rewrite descendants_map_tree. Qed.

(** The tree after [map_tree] has at every place what [map_tree] makes
    of the element that was there. *)
Lemma get_at_map_tree
  (f : string -> list (string * string) -> string * list (string * string))
  (q : path) :
  forall e, get_at q (map_tree f e) = option_map (map_tree f) (get_at q e).
Proof.
  induction q as [|i q IH]; intros e; [reflexivity|].
  destruct e as [t a x y cs]. cbn [map_tree]. destruct (f t a) as [t' a'].
  cbn [get_at children]. rewrite nth_error_map.
  destruct (nth_error cs i) as [c|]; cbn [option_map]; [apply IH | reflexivity].
Qed.

Lemma after_first_app (c : ascii) (a b : string) :
  PyStr.has_char c a = false ->
  PyStr.after_first c (a ++ String c b) = b.
Proof.
  induction a as [|x a IH]; cbn; intros h.
  - now rewrite Ascii.eqb_refl.
  - apply orb_false_iff in h as [h1 h2]. rewrite h1. now apply IH.
Qed.

End MoreTreeFacts.

Section MoreTransformerFacts.

Import ETFacts RefFacts.

Variable fromstring : string -> result Element.

Local Open Scope list_scope.

(** The loop over version elements that are all empty does nothing. *)
Lemma inline_versions_all_empty (bag_archive : archive) (refs : list path) :
  forall datastream : Element,
    (forall q, In q refs ->
       exists dv, get_at q datastream = Some dv /\ truthy dv = false) ->
    inline_versions fromstring bag_archive datastream Attached refs
    = (datastream, Ok tt).
Proof.
  induction refs as [|q refs IH]; intros ds h; cbn [inline_versions]; [reflexivity|].
  destruct (h q (or_introl eq_refl)) as (dv & g & e).
  rewrite g. unfold inline_version. rewrite e. cbn [after outcome removed].
  rewrite (set_at_get_at _ _ _ g). apply IH.
  intros q' hq'. apply h. now right.
Qed.

End MoreTransformerFacts.

(** X14.  On a record without a MODS datastream the Transformer raises
    AttributeError and leaves the tree as it was. *)
Theorem transformer_without_mods_datastream
  (fromstring : string -> result Element) (root : Element) (bag_archive : archive) :
  Forall (fun x => is_mods_datastream x = false) (descendants root) ->
  managed_to_inline fromstring root bag_archive = (root, Raise AttributeError).
Proof.
  intros h. apply ETFacts.find_absent in h. unfold find in h.
  unfold managed_to_inline.
  destruct (find_path is_mods_datastream root) as [d|]; [|reflexivity].
  now rewrite h.
Qed.

Lemma transformer_without_mods_datastream_witness :
  managed_to_inline Expat.fromstring dc_root bag_with_mods
  = (dc_root, Raise AttributeError).
Proof.
  apply (transformer_without_mods_datastream Expat.fromstring dc_root bag_with_mods).
  repeat constructor.
Defined.

(** X15.  The Transformer changes the record inside its first MODS
    datastream only: an element that is neither inside that datastream nor
    above it is after the call what it was before, whether the call
    raises or not. *)
Theorem transformer_changes_mods_datastream_only
  (fromstring : string -> result Element) (root : Element) (bag_archive : archive)
  (p : path) :
  (forall d, find_path is_mods_datastream root = Some d -> apart d p) ->
  get_at p (fst (managed_to_inline fromstring root bag_archive)) = get_at p root.
Proof.
  intros h.
  destruct (find_path is_mods_datastream root) as [d|] eqn:F.
  - destruct (ETFacts.find_path_valid _ _ _ F) as (ds & g & _).
    destruct (managed_to_inline_tree fromstring root bag_archive d ds F g)
      as (ds' & -> & _).
    apply get_at_set_at_apart. now apply h.
  - unfold managed_to_inline. now rewrite F.
Qed.

Lemma transformer_changes_mods_datastream_only_witness :
  get_at [0%nat] (fst (managed_to_inline Expat.fromstring two_stream_root bag_with_mods))
  = get_at [0%nat] two_stream_root.
Proof.
  apply (transformer_changes_mods_datastream_only Expat.fromstring two_stream_root
           bag_with_mods [0%nat]).
  intros d h. vm_compute in h. injection h as <-. split; reflexivity.
Defined.

(** X16.  When every version element of the first MODS datastream is
    empty, the Transformer sets CONTROL_GROUP to X, changes nothing else,
    reads nothing from the archive and raises nothing. *)
Theorem transformer_skips_empty_versions
  (fromstring : string -> result Element) (root ds : Element)
  (bag_archive : archive) :
  first_match is_mods_datastream root ds ->
  Forall (fun x => is_datastream_version x = true -> truthy x = false)
         (descendants ds) ->
  exists d,
    get_at d root = Some ds
    /\ managed_to_inline fromstring root bag_archive
       = (set_at d (set ds "CONTROL_GROUP" "X") root, Ok tt).
Proof.
  intros hfirst hempty. apply ETFacts.find_first_match in hfirst.
  unfold find in hfirst.
  destruct (find_path is_mods_datastream root) as [d|] eqn:F; [|discriminate].
  exists d. split; [exact hfirst|].
  unfold managed_to_inline. rewrite F, hfirst. cbv zeta.
  rewrite inline_versions_all_empty; [reflexivity|].
  intros q hq.
  assert (hq0 : In q (findall_paths is_datastream_version ds))
    by (destruct ds; exact hq).
  destruct (findall_paths_sound _ _ _ hq0) as (x & gx & px & ix).
  exists x. split.
  - destruct q as [|i q]; [now elim (findall_paths_not_root _ _ hq0)|].
    now rewrite get_at_set_below.
  - rewrite Forall_forall in hempty. now apply hempty.
Qed.

Lemma transformer_skips_empty_versions_witness :
  exists d,
    get_at d empty_version_root = Some empty_version_datastream
    /\ managed_to_inline Expat.fromstring empty_version_root []
       = (set_at d (set empty_version_datastream "CONTROL_GROUP" "X")
                 empty_version_root, Ok tt).
Proof.
  apply (transformer_skips_empty_versions Expat.fromstring empty_version_root
           empty_version_datastream []).
  - exists [], (descendants empty_version_datastream). repeat split. constructor.
  - repeat constructor.
Defined.

(** X17.  The loop over [mods_root.iter()] keeps the shape of the tree:
    at every place where the tree had an element it has one afterwards,
    with the same text, tail and attribute keys and as many children, and
    with the tag and the attribute values without what stands up to their
    first closing brace; where the tree had no element it has none
    afterwards. *)
Theorem strip_prefixes_keeps_structure (mods_root : Element) (q : path) :
  match get_at q mods_root with
  | Some x =>
      exists y, get_at q (strip_prefixes mods_root) = Some y /\ stripped x y
  | None => get_at q (strip_prefixes mods_root) = None
  end.
Proof.
  unfold strip_prefixes. rewrite get_at_map_tree.
  destruct (get_at q mods_root) as [[t a x y cs]|]; cbn [option_map];
    [|reflexivity].
  eexists. split; [reflexivity|]. cbn.
  repeat split; rewrite ?map_map, ?length_map; reflexivity.
Qed.

(** X18.  A tag in the parser's notation [{uri}local] becomes [local];
    a name without a closing brace stays as it is. *)
Theorem strip_prefix_of_qualified_name (uri local plain : string) :
  PyStr.has_char "}" uri = false ->
  PyStr.has_char "}" plain = false ->
  strip_prefix ("{" ++ uri ++ "}" ++ local) = local
  /\ strip_prefix plain = plain.
Proof.
  intros huri hplain. unfold strip_prefix. rewrite hplain. split; [|reflexivity].
  change ("{" ++ uri ++ "}" ++ local) with (String "{" (uri ++ String "}" local)).
  cbn [PyStr.has_char PyStr.after_first].
  change (Ascii.eqb "{" "}") with false. cbn [orb].
  rewrite has_char_app, huri. cbn [orb PyStr.has_char].
  rewrite Ascii.eqb_refl. cbn [orb].
  now apply after_first_app.
Qed.

Lemma strip_prefix_of_qualified_name_witness :
  strip_prefix ("{" ++ "http://www.loc.gov/mods/v3" ++ "}" ++ "title") = "title"
  /\ strip_prefix "title" = "title".
Proof.
  exact (strip_prefix_of_qualified_name "http://www.loc.gov/mods/v3" "title" "title"
           eq_refl eq_refl).
Defined.

(** X19.  The Transformer keeps the tag of the MODS datastream and every
    attribute of it other than CONTROL_GROUP, whether it raises or not. *)
Theorem transformer_keeps_other_attributes
  (fromstring : string -> result Element) (root ds : Element)
  (bag_archive : archive) :
  first_match is_mods_datastream root ds ->
  exists ds',
    first_match is_mods_datastream
      (fst (managed_to_inline fromstring root bag_archive)) ds'
    /\ tag ds' = tag ds
    /\ map fst (attrib ds') = map fst (dict_set (attrib ds) "CONTROL_GROUP" "X")
    /\ forall key, key <> "CONTROL_GROUP" -> get ds' key = get ds key.
Proof.
  intros h.
  destruct (transformed_datastream fromstring root ds bag_archive h)
    as (ds' & hfirst & htag & hattrib).
  exists ds'. repeat split; auto.
  - now rewrite hattrib.
  - intros key hkey. unfold get. rewrite hattrib.
    apply ETFacts.dict_get_set_other. apply String.eqb_neq. congruence.
Qed.

Lemma transformer_keeps_other_attributes_witness :
  exists ds',
    first_match is_mods_datastream
      (fst (managed_to_inline Expat.fromstring managed_root bag_with_mods)) ds'
    /\ tag ds' = tag managed_datastream
    /\ map fst (attrib ds')
       = map fst (dict_set (attrib managed_datastream) "CONTROL_GROUP" "X")
    /\ forall key, key <> "CONTROL_GROUP" -> get ds' key = get managed_datastream key.
Proof.
  apply (transformer_keeps_other_attributes Expat.fromstring managed_root
           managed_datastream bag_with_mods).
  exists [], (descendants managed_datastream). repeat split. constructor.
Defined.

(* ====================================================================== *)
(** * More about the Batch Orchestrator *)
(* ====================================================================== *)

Section MoreOrchestratorFacts.

Variable w : World.

Local Open Scope list_scope.

Lemma extends_refl (m : Machine) : extends m m [].
Proof.
  repeat split; try (exists []); now rewrite app_nil_r.
Qed.

Lemma extends_trans (m1 m2 m3 : Machine) (a b : list (string * string)) :
  extends m1 m2 a -> extends m2 m3 b -> extends m1 m3 (a ++ b).
Proof.
  intros ([e1 h1] & [d1 g1] & i1) ([e2 h2] & [d2 g2] & i2). repeat split.
  - exists (e1 ++ e2). now rewrite h2, h1, app_assoc.
  - exists (d1 ++ d2). now rewrite g2, g1, app_assoc.
  - now rewrite i2, i1, app_assoc.
Qed.

Lemma extends_step (m1 m2 m3 : Machine) (b : list (string * string)) :
  extends m1 m2 [] -> extends m2 m3 b -> extends m1 m3 b.
Proof. intros h1 h2. exact (extends_trans _ _ _ [] b h1 h2). Qed.

Lemma extends_print (ev : event) (m : Machine) : extends m (print ev m) [].
Proof.
  repeat split; cbn; [now exists [ev] | exists [] |]; now rewrite app_nil_r.
Qed.

Lemma extends_write_file (p content : string) (m : Machine) :
  extends m (write_file p content m) [].
Proof.
  repeat split; cbn; try (exists []); now rewrite app_nil_r.
Qed.

Lemma extends_makedirs (d : string) (m m' : Machine) :
  makedirs w d m = Ok m' -> extends m m' [].
Proof.
  unfold makedirs. destruct (mkdir_error w d (dirs m) (files m)); [discriminate|].
  intros [= <-]. repeat split; cbn; [exists [] | now exists [d] |];
    now rewrite app_nil_r.
Qed.

Lemma extends_record_item (bag_name p : string) (m : Machine) :
  extends m (record_item bag_name p m) [(bag_name, p)].
Proof.
  repeat split; cbn; exists []; now rewrite app_nil_r.
Qed.

Lemma classify_and_transform_extends (zip_archive : archive) (bag_name : string)
  (foxml_root : Element) (m : Machine) :
  extends m (snd (classify_and_transform w zip_archive bag_name foxml_root m)) [].
Proof.
  unfold classify_and_transform. destruct (is_foxml_managed foxml_root).
  - destruct (managed_to_inline _ _ _) as [r [[]|e]]; cbn [snd].
    + apply extends_print.
    + eapply extends_step; apply extends_print.
  - apply extends_print.
Qed.

Lemma format_and_write_extends (output_directory bag_name xml_string : string)
  (l : Locals) (m : Machine) :
  extends m (snd (format_and_write w output_directory bag_name xml_string l m)) [].
Proof.
  unfold format_and_write.
  destruct (xmllint w xml_string) as [rc out err| |e]; cbn [snd];
    try apply extends_print.
  destruct (negb (rc =? 0)).
  - destruct (makedirs w _ (print (FormatError err) m)) as [m1|e] eqn:M; cbn [snd].
    + apply extends_makedirs in M.
      destruct (formatted_xml_string l); cbn [snd].
      * eapply extends_step; [apply extends_print|].
        eapply extends_step; [exact M | apply extends_write_file].
      * eapply extends_step; [apply extends_print|].
        eapply extends_step; [exact M|].
        eapply extends_step; [apply extends_write_file | apply extends_print].
    + eapply extends_step; apply extends_print.
  - destruct (makedirs w _ m) as [m1|e] eqn:M; cbn [snd].
    + apply extends_makedirs in M.
      eapply extends_step; [exact M | apply extends_write_file].
    + apply extends_print.
Qed.

Lemma format_and_write_flag (output_directory bag_name xml_string : string)
  (l : Locals) (m : Machine) :
  found_first_atomzip
    (fst (format_and_write w output_directory bag_name xml_string l m))
  = found_first_atomzip l.
Proof.
  unfold format_and_write.
  destruct (xmllint w xml_string) as [rc out err| |e]; cbn [fst]; try reflexivity.
  destruct (negb (rc =? 0)).
  - destruct (makedirs w _ _); [destruct (formatted_xml_string l)|]; reflexivity.
  - destruct (makedirs w _ _); reflexivity.
Qed.

(** When the formatter does not exit, the try statement prints a line and
    does nothing else. *)
Lemma format_and_write_not_exited (output_directory bag_name xml_string : string)
  (l : Locals) (m : Machine) :
  (forall rc out err, xmllint w xml_string <> Exited rc out err) ->
  fst (format_and_write w output_directory bag_name xml_string l m) = l
  /\ exists ev,
       snd (format_and_write w output_directory bag_name xml_string l m)
       = print ev m.
Proof.
  intros h. unfold format_and_write.
  destruct (xmllint w xml_string) as [rc out err| |e].
  - now elim (h rc out err).
  - split; [reflexivity | now exists FormatTimeout].
  - split; [reflexivity | now exists (OtherError e)].
Qed.

Lemma read_file_last (p content : string) (fs : list (string * string)) :
  read_file p (fs ++ [(p, content)]) = Some content.
Proof.
  induction fs as [|[q c] fs IH]; cbn.
  - now rewrite String.eqb_refl.
  - now rewrite IH.
Qed.

Lemma read_file_write_file (p content : string) (m : Machine) :
  read_file p (files (write_file p content m)) = Some content.
Proof. cbn. apply read_file_last. Qed.

(** One turn of the loop adds at most the entry of its item. *)
Lemma process_member_extends (input_zip : string) (zip_archive : archive)
  (output_directory name : string) (l l' : Locals) (m m' : Machine)
  (ending : turn_end) :
  process_member w input_zip zip_archive output_directory name l m
  = (l', m', ending) ->
  exists added,
    extends m m' added
    /\ (added = []
        \/ (is_companion_member name = true
            /\ exists p, added = [(get_bag_name_from_atomzip name, p)])).
Proof.
  unfold process_member. fold (is_companion_member name).
  destruct (is_companion_member name) eqn:C.
  2:{ intros [= <- <- <-]. exists []. split; [apply extends_refl | now left]. }
  destruct (locate_record w input_zip zip_archive name l m) as [[r l1] m1] eqn:L.
  destruct (locate_record_effect w _ _ _ _ _ _ _ _ L) as (_ & _ & _ & hm).
  assert (h1 : extends m m1 []).
  { destruct hm as [->|[-> _]]; [apply extends_refl | apply extends_print]. }
  destruct r as [[[foxml_root|]|]|e].
  - destruct (classify_and_transform w zip_archive _ foxml_root m1)
      as [root2 m2] eqn:K.
    assert (h2 : extends m1 m2 []).
    { replace m2 with (snd (classify_and_transform w zip_archive
                              (get_bag_name_from_atomzip name) foxml_root m1))
        by now rewrite K.
      apply classify_and_transform_extends. }
    destruct (format_and_write w output_directory _ (tostring w root2) l1 m2)
      as [l3 m3] eqn:F.
    assert (h3 : extends m2 m3 []).
    { replace m3 with (snd (format_and_write w output_directory
                              (get_bag_name_from_atomzip name)
                              (tostring w root2) l1 m2))
        by now rewrite F.
      apply format_and_write_extends. }
    unfold record. destruct (converted_foxml_path l3) as [p|].
    + intros [= <- <- <-]. exists [(get_bag_name_from_atomzip name, p)].
      split; [|right; split; [reflexivity | now exists p]].
      eapply extends_step; [exact h1|]. eapply extends_step; [exact h2|].
      eapply extends_step; [exact h3|]. apply extends_record_item.
    + intros [= <- <- <-]. exists []. split; [|now left].
      eapply extends_step; [exact h1|]. eapply extends_step; [exact h2|].
      exact h3.
  - intros [= <- <- <-]. exists []. split; [exact h1 | now left].
  - intros [= <- <- <-]. exists []. split; [exact h1 | now left].
  - intros [= <- <- <-]. exists []. split; [exact h1 | now left].
Qed.

(** The loop adds at most one entry for each companion archive, under
    the logical name of that archive. *)
Lemma process_members_extends (input_zip : string) (zip_archive : archive)
  (output_directory : string) (names : list string) :
  forall (l : Locals) (m : Machine),
  exists added,
    extends m
      (fst (process_members w input_zip zip_archive output_directory names l m))
      added
    /\ (List.length added
        <= List.length (filter is_companion_member names))%nat
    /\ Forall (fun entry =>
                 In (fst entry)
                    (map get_bag_name_from_atomzip
                         (filter is_companion_member names)))
              added.
Proof.
  induction names as [|name rest IH]; intros l m; cbn [process_members].
  - exists []. split; [apply extends_refl | split; [cbn; lia | constructor]].
  - destruct (process_member w input_zip zip_archive output_directory name l m)
      as [[l1 m1] ending] eqn:P.
    destruct (process_member_extends _ _ _ _ _ _ _ _ _ P) as (a & ha & shape).
    assert (more : exists b,
      extends m1
        (fst (match ending with
              | Next =>
                  process_members w input_zip zip_archive output_directory rest l1 m1
              | Uncaught e => (m1, Uncaught e)
              end)) b
      /\ (List.length b <= List.length (filter is_companion_member rest))%nat
      /\ Forall (fun entry =>
                   In (fst entry)
                      (map get_bag_name_from_atomzip
                           (filter is_companion_member rest))) b).
    { destruct ending; [apply IH|].
      exists []. split; [apply extends_refl | split; [cbn; lia | constructor]]. }
    destruct more as (b & hb & hlen & hall).
    exists (a ++ b). cbn [filter].
    split; [|split].
    + destruct ending; exact (extends_trans _ _ _ _ _ ha hb).
    + rewrite length_app.
      destruct shape as [->|[C [p ->]]]; [|rewrite C]; cbn [List.length];
        [destruct (is_companion_member name); cbn [List.length]|]; lia.
    + apply Forall_app. split.
      * destruct shape as [->|[C [p ->]]]; [constructor|].
        rewrite C. constructor; [now left | constructor].
      * eapply Forall_impl; [|exact hall]. cbn beta. intros entry hin.
        destruct (is_companion_member name); [now right | exact hin].
Qed.

End MoreOrchestratorFacts.

(** X20.  Members that are not in a data directory, or that do not end
    with the companion suffix, have no effect: nothing is printed,
    made, written or recorded for them. *)
Theorem other_members_are_ignored (w : World) (input_zip : string)
  (zip_archive : archive) (output_directory : string) (names : list string)
  (l : Locals) (m : Machine) :
  forallb (fun name => negb (is_companion_member name)) names = true ->
  process_members w input_zip zip_archive output_directory names l m = (m, Next).
Proof.
  induction names as [|name rest IH]; cbn [forallb process_members];
    [reflexivity|].
  intros h. apply andb_prop in h as [hname hrest].
  unfold process_member. fold (is_companion_member name).
  apply negb_true_iff in hname. rewrite hname. now apply IH.
Qed.

Lemma other_members_are_ignored_witness :
  process_members (sample_world formatter_ok bag_with_mods) "c.zip" bag_with_mods
    "out/c" ["Bag-obj1/bagit.txt"; "Bag-obj1/data/MODS.0.xml"; "x_foxml_atomzip.zip"]
    sample_locals sample_machine
  = (sample_machine, Next).
Proof.
  exact (other_members_are_ignored (sample_world formatter_ok bag_with_mods) "c.zip"
           bag_with_mods "out/c"
           ["Bag-obj1/bagit.txt"; "Bag-obj1/data/MODS.0.xml"; "x_foxml_atomzip.zip"]
           sample_locals sample_machine eq_refl).
Defined.

(** X21.  A container task only adds: what was printed, the directories
    and the Result Index it found are still there afterwards, in their
    order.  It adds to the Result Index at most one entry for each
    companion archive of the container, each under the logical name of a
    companion archive, and nothing when the container cannot be opened. *)
Theorem container_task_only_adds (w : World)
  (input_dir return_directory input_zip : string) (m : Machine) :
  exists added,
    extends m
      (fst (process_container_zip w input_dir return_directory input_zip m))
      added
    /\ match zip_on_disk w (input_dir ++ "/" ++ input_zip) with
       | Some zip_archive =>
           (List.length added
            <= List.length (filter is_companion_member (namelist zip_archive)))%nat
           /\ Forall (fun entry =>
                        In (fst entry)
                           (map get_bag_name_from_atomzip
                                (filter is_companion_member (namelist zip_archive))))
                     added
       | None => added = []
       end.
Proof.
  unfold process_container_zip.
  destruct (negb (PyStr.endswith ".zip" (PyStr.basename input_zip))).
  { exists []. split; [apply extends_refl|].
    destruct (zip_on_disk _ _); [|reflexivity].
    split; [cbn; lia | constructor]. }
  destruct (makedirs w _ m) as [m1|e] eqn:M.
  2:{ exists []. split; [apply extends_refl|].
      destruct (zip_on_disk _ _); [|reflexivity].
      split; [cbn; lia | constructor]. }
  apply extends_makedirs in M.
  destruct (zip_on_disk w (input_dir ++ "/" ++ input_zip)) as [zip_archive|].
  - destruct (process_members_extends w input_zip zip_archive
                (return_directory ++ "/"
                   ++ PyStr.replace ".zip" "" (PyStr.basename input_zip))
                (namelist zip_archive)
                {| found_first_atomzip := false;
                   formatted_xml_string := None;
                   converted_foxml_path := None |} m1)
      as (added & hext & hrest).
    exists added. split; [|exact hrest].
    exact (extends_step _ _ _ _ M hext).
  - exists []. split; [exact M | reflexivity].
Qed.

(** X22.  For an item after the first, when the output of the drush
    command names no bag, the line about the failed command is printed
    and the loop goes on: no directory, no file and no entry of the
    Result Index is made for the item. *)
Theorem drush_failure_skips_item (w : World) (input_zip : string)
  (zip_archive : archive) (output_directory name : string)
  (l : Locals) (m : Machine) :
  is_companion_member name = true ->
  found_first_atomzip l = true ->
  utf8_valid (drush w (format_drush_command_from_atomzip name)) = true ->
  PyStr.contains bag_created (drush w (format_drush_command_from_atomzip name))
  = false ->
  process_member w input_zip zip_archive output_directory name l m
  = (l, print (DrushFailed name) m, Next).
Proof.
  intros hname hflag hvalid hline.
  unfold process_member. fold (is_companion_member name). rewrite hname.
  unfold locate_record. rewrite hflag. cbn [negb andb].
  unfold extract_bag_path_from_drush_command_stdout.
  now rewrite hvalid, (first_bag_path_absent _ hline).
Qed.

Lemma drush_failure_skips_item_witness :
  process_member (sample_world formatter_ok bag_with_mods) "c.zip" bag_with_mods
    "out/c" atomzip_name later_locals sample_machine
  = (later_locals, print (DrushFailed atomzip_name) sample_machine, Next).
Proof.
  exact (drush_failure_skips_item (sample_world formatter_ok bag_with_mods) "c.zip"
           bag_with_mods "out/c" atomzip_name later_locals sample_machine
           eq_refl eq_refl eq_refl eq_refl).
Defined.

(** X23.  When the formatter does not exit (it runs out of time, or
    cannot be started), no directory and no file is made for the item.
    The item is still recorded, under the path of the item before it; for
    the first item of the container that path is unbound, and the task
    ends with UnboundLocalError. *)
Theorem formatter_not_exiting (w : World) (input_zip : string)
  (zip_archive : archive) (output_directory name : string)
  (l l1 l' : Locals) (m m1 m' : Machine) (foxml_root : Element)
  (ending : turn_end) :
  is_companion_member name = true ->
  locate_record w input_zip zip_archive name l m
  = (Ok (Some (Some foxml_root)), l1, m1) ->
  (forall rc out err,
      xmllint w (tostring w (fst (classify_and_transform w zip_archive
                                    (get_bag_name_from_atomzip name) foxml_root m)))
      <> Exited rc out err) ->
  process_member w input_zip zip_archive output_directory name l m
  = (l', m', ending) ->
  dirs m' = dirs m
  /\ files m' = files m
  /\ match converted_foxml_path l with
     | Some p =>
         ending = Next
         /\ bag_name_and_new_foxml m'
            = (bag_name_and_new_foxml m ++ [(get_bag_name_from_atomzip name, p)])%list
     | None =>
         ending = Uncaught (UnboundLocalError "converted_foxml_path")
         /\ bag_name_and_new_foxml m' = bag_name_and_new_foxml m
     end.
Proof.
  intros hname hlocate hrun.
  destruct (locate_record_effect _ _ _ _ _ _ _ _ _ hlocate) as (_ & hpath & _ & hm).
  assert (m1 = m) as -> by (destruct hm as [->|[_ [=]]]; reflexivity).
  unfold process_member. fold (is_companion_member name).
  rewrite hname, hlocate.
  destruct (classify_and_transform_disk w zip_archive
              (get_bag_name_from_atomzip name) foxml_root m) as (hd & hf).
  pose proof (classify_and_transform_extends w zip_archive
                (get_bag_name_from_atomzip name) foxml_root m) as (_ & _ & hi).
  rewrite app_nil_r in hi.
  destruct (classify_and_transform w zip_archive _ foxml_root m)
    as [root2 m2]. cbn [fst snd] in *.
  destruct (format_and_write_not_exited w output_directory
              (get_bag_name_from_atomzip name) (tostring w root2) l1 m2 hrun)
    as (hl & ev & hm3).
  destruct (format_and_write w output_directory _ (tostring w root2) l1 m2)
    as [l3 m3]. cbn [fst snd] in *. subst l3 m3.
  unfold record. rewrite hpath.
  destruct (converted_foxml_path l) as [p|]; intros [= <- <- <-]; cbn;
    rewrite ?hd, ?hf, ?hi; auto.
Qed.

Lemma formatter_not_exiting_witness :
  process_member (sample_world formatter_timeout bag_with_mods) "c.zip"
    bag_with_mods "out/c" atomzip_name sample_locals sample_machine
  = ({| found_first_atomzip := true;
        formatted_xml_string := None;
        converted_foxml_path := None |},
     print FormatTimeout (print (ManagedNotice "COLL_obj1") sample_machine),
     Uncaught (UnboundLocalError "converted_foxml_path"))
  /\ dirs (print FormatTimeout (print (ManagedNotice "COLL_obj1") sample_machine))
     = dirs sample_machine.
Proof.
  assert (hturn : process_member (sample_world formatter_timeout bag_with_mods)
                    "c.zip" bag_with_mods "out/c" atomzip_name sample_locals
                    sample_machine
                  = ({| found_first_atomzip := true;
                        formatted_xml_string := None;
                        converted_foxml_path := None |},
                     print FormatTimeout
                       (print (ManagedNotice "COLL_obj1") sample_machine),
                     Uncaught (UnboundLocalError "converted_foxml_path")))
    by (vm_compute; reflexivity).
  split; [exact hturn|].
  exact (proj1 (formatter_not_exiting
                  (sample_world formatter_timeout bag_with_mods) "c.zip"
                  bag_with_mods "out/c" atomzip_name sample_locals
                  {| found_first_atomzip := true;
                     formatted_xml_string := None;
                     converted_foxml_path := None |}
                  _ sample_machine sample_machine _ managed_root _
                  eq_refl ltac:(vm_compute; reflexivity)
                  ltac:(intros rc out err; discriminate) hturn)).
Defined.

Section FormatterFacts.

Variable w : World.

Local Open Scope list_scope.

(** The try statement when the formatter exits and the directory of the
    item is made. *)
Lemma format_and_write_exited (output_directory bag_name xml_string : string)
  (l : Locals) (m : Machine) (rc : Z) (out err : string) :
  xmllint w xml_string = Exited rc out err ->
  mkdir_error w (path_join output_directory bag_name) (dirs m) (files m) = None ->
  let p := (path_join output_directory bag_name ++ "/foxml.xml")%string in
  let l' := fst (format_and_write w output_directory bag_name xml_string l m) in
  let m' := snd (format_and_write w output_directory bag_name xml_string l m) in
  converted_foxml_path l' = Some p
  /\ In (path_join output_directory bag_name) (dirs m')
  /\ (rc = 0 ->
      formatted_xml_string l' = Some out /\ read_file p (files m') = Some out)
  /\ (rc <> 0 ->
      formatted_xml_string l' = formatted_xml_string l
      /\ match formatted_xml_string l with
         | Some old => read_file p (files m') = Some old
         | None =>
             read_file p (files m') = Some ""%string
             /\ In (OtherError (UnboundLocalError "formatted_xml_string"))
                   (console m')
         end).
Proof.
  intros hx hd. cbv zeta. unfold format_and_write. rewrite hx.
  destruct (rc =? 0) eqn:R; cbn [negb].
  - apply Z.eqb_eq in R. unfold makedirs. rewrite hd. cbn [fst snd].
    repeat split; try (intros; congruence).
    + cbn. apply in_or_app. right. now left.
    + apply read_file_last.
  - apply Z.eqb_neq in R. unfold makedirs. cbn [print dirs files]. rewrite hd.
    destruct (formatted_xml_string l) as [old|]; cbn [fst snd];
      repeat split; try (intros; congruence);
      try (cbn; apply in_or_app; right; now left);
      try apply read_file_last.
Qed.

End FormatterFacts.

(** X24.  When the formatter exits with status 0 and the directory of
    the item is made, the file of the item holds the output of the
    formatter. *)
Theorem formatted_text_is_written (w : World) (input_zip : string)
  (zip_archive : archive) (output_directory name : string)
  (l l1 l' : Locals) (m m1 m' : Machine) (foxml_root : Element)
  (ending : turn_end) (out err : string) :
  is_companion_member name = true ->
  locate_record w input_zip zip_archive name l m
  = (Ok (Some (Some foxml_root)), l1, m1) ->
  xmllint w (tostring w (fst (classify_and_transform w zip_archive
                                (get_bag_name_from_atomzip name) foxml_root m)))
  = Exited 0 out err ->
  mkdir_error w (path_join output_directory (get_bag_name_from_atomzip name))
    (dirs m) (files m)
  = None ->
  process_member w input_zip zip_archive output_directory name l m
  = (l', m', ending) ->
  read_file (path_join output_directory (get_bag_name_from_atomzip name)
               ++ "/foxml.xml") (files m')
  = Some out
  /\ formatted_xml_string l' = Some out
  /\ In (path_join output_directory (get_bag_name_from_atomzip name)) (dirs m').
Proof.
  intros hname hlocate hrun hfresh.
  destruct (locate_record_effect _ _ _ _ _ _ _ _ _ hlocate) as (_ & _ & _ & hm).
  assert (m1 = m) as -> by (destruct hm as [->|[_ [=]]]; reflexivity).
  unfold process_member. fold (is_companion_member name).
  rewrite hname, hlocate.
  destruct (classify_and_transform_disk w zip_archive
              (get_bag_name_from_atomzip name) foxml_root m) as (hd & hf).
  destruct (classify_and_transform w zip_archive _ foxml_root m)
    as [root2 m2]. cbn [fst snd] in *.
  rewrite <- hd, <- hf in hfresh.
  destruct (format_and_write_exited w output_directory
              (get_bag_name_from_atomzip name) (tostring w root2) l1 m2 0 out err
              hrun hfresh) as (hp & hdir & hzero & _).
  destruct (hzero eq_refl) as (htext & hfile).
  destruct (format_and_write w output_directory _ (tostring w root2) l1 m2)
    as [l3 m3]. cbn [fst snd] in *.
  unfold record. rewrite hp. intros [= <- <- <-]. cbn. auto.
Qed.

Lemma formatted_text_is_written_witness :
  read_file (path_join "out/c" (get_bag_name_from_atomzip atomzip_name)
               ++ "/foxml.xml")
    (files (snd (fst (process_member (sample_world formatter_ok bag_with_mods)
                        "c.zip" bag_with_mods "out/c" atomzip_name sample_locals
                        sample_machine))))
  = Some (Serialize.tostring inlined_root).
Proof.
  destruct (process_member (sample_world formatter_ok bag_with_mods) "c.zip"
              bag_with_mods "out/c" atomzip_name sample_locals sample_machine)
    as [[l' m'] ending] eqn:P.
  exact (proj1 (formatted_text_is_written
                  (sample_world formatter_ok bag_with_mods) "c.zip"
                  bag_with_mods "out/c" atomzip_name sample_locals
                  {| found_first_atomzip := true;
                     formatted_xml_string := None;
                     converted_foxml_path := None |}
                  l' sample_machine sample_machine m' managed_root ending
                  (Serialize.tostring inlined_root) ""
                  eq_refl ltac:(vm_compute; reflexivity)
                  ltac:(vm_compute; reflexivity) eq_refl P)).
Defined.

(** X25.  When the formatter exits with another status and the
    directory of the item is made, the file of the item is written all
    the same: it holds the formatted text of the item before, and for the
    first item of the container it is empty and the unbound variable is
    reported. *)
Theorem failed_format_writes_earlier_text (w : World) (input_zip : string)
  (zip_archive : archive) (output_directory name : string)
  (l l1 l' : Locals) (m m1 m' : Machine) (foxml_root : Element)
  (ending : turn_end) (rc : Z) (out err : string) :
  is_companion_member name = true ->
  locate_record w input_zip zip_archive name l m
  = (Ok (Some (Some foxml_root)), l1, m1) ->
  xmllint w (tostring w (fst (classify_and_transform w zip_archive
                                (get_bag_name_from_atomzip name) foxml_root m)))
  = Exited rc out err ->
  rc <> 0 ->
  mkdir_error w (path_join output_directory (get_bag_name_from_atomzip name))
    (dirs m) (files m)
  = None ->
  process_member w input_zip zip_archive output_directory name l m
  = (l', m', ending) ->
  match formatted_xml_string l with
  | Some old =>
      read_file (path_join output_directory (get_bag_name_from_atomzip name)
                   ++ "/foxml.xml") (files m')
      = Some old
  | None =>
      read_file (path_join output_directory (get_bag_name_from_atomzip name)
                   ++ "/foxml.xml") (files m')
      = Some ""
      /\ In (OtherError (UnboundLocalError "formatted_xml_string")) (console m')
  end.
Proof.
  intros hname hlocate hrun hrc hfresh.
  destruct (locate_record_effect _ _ _ _ _ _ _ _ _ hlocate) as (htext & _ & _ & hm).
  assert (m1 = m) as -> by (destruct hm as [->|[_ [=]]]; reflexivity).
  unfold process_member. fold (is_companion_member name).
  rewrite hname, hlocate.
  destruct (classify_and_transform_disk w zip_archive
              (get_bag_name_from_atomzip name) foxml_root m) as (hd & hf).
  destruct (classify_and_transform w zip_archive _ foxml_root m)
    as [root2 m2]. cbn [fst snd] in *.
  rewrite <- hd, <- hf in hfresh.
  destruct (format_and_write_exited w output_directory
              (get_bag_name_from_atomzip name) (tostring w root2) l1 m2 rc out err
              hrun hfresh) as (hp & _ & _ & hother).
  destruct (hother hrc) as (_ & hfile). rewrite htext in hfile.
  destruct (format_and_write w output_directory _ (tostring w root2) l1 m2)
    as [l3 m3]. cbn [fst snd] in *.
  unfold record. rewrite hp. intros [= <- <- <-]. cbn.
  destruct (formatted_xml_string l); exact hfile.
Qed.

Lemma failed_format_writes_earlier_text_witness :
  read_file (path_join "out/c" (get_bag_name_from_atomzip atomzip_name)
               ++ "/foxml.xml")
    (files (snd (fst (process_member
                        (sample_world formatter_failing bag_with_mods)
                        "c.zip" bag_with_mods "out/c" atomzip_name
                        {| found_first_atomzip := false;
                           formatted_xml_string := Some "<old/>";
                           converted_foxml_path := None |}
                        sample_machine))))
  = Some "<old/>".
Proof.
  destruct (process_member (sample_world formatter_failing bag_with_mods) "c.zip"
              bag_with_mods "out/c" atomzip_name
              {| found_first_atomzip := false;
                 formatted_xml_string := Some "<old/>";
                 converted_foxml_path := None |}
              sample_machine)
    as [[l' m'] ending] eqn:P.
  exact (failed_format_writes_earlier_text
           (sample_world formatter_failing bag_with_mods) "c.zip"
           bag_with_mods "out/c" atomzip_name
           {| found_first_atomzip := false;
              formatted_xml_string := Some "<old/>";
              converted_foxml_path := None |}
           {| found_first_atomzip := true;
              formatted_xml_string := Some "<old/>";
              converted_foxml_path := None |}
           l' sample_machine sample_machine m' managed_root ending
           1 "" "-:1: parser error"
           eq_refl ltac:(vm_compute; reflexivity)
           ltac:(vm_compute; reflexivity) ltac:(discriminate) eq_refl P).
Defined.

(** X26.  When the first companion archive of a container is met and
    nothing in the container matches "foxml.xml", the task ends with
    AttributeError at that member: nothing is printed or recorded, and
    the members after it are not looked at. *)
Theorem missing_record_ends_task (w : World) (input_zip : string)
  (zip_archive : archive) (output_directory name : string) (rest : list string)
  (l : Locals) (m : Machine) :
  is_companion_member name = true ->
  found_first_atomzip l = false ->
  PyStr.contains name input_zip = false ->
  no_match "foxml.xml" (Zip zip_archive) = true ->
  process_members w input_zip zip_archive output_directory (name :: rest) l m
  = (m, Uncaught AttributeError).
Proof.
  intros hname hflag hsub hnone.
  cbn [process_members]. unfold process_member. fold (is_companion_member name).
  rewrite hname. unfold locate_record. rewrite hflag, hsub. cbn [negb andb].
  unfold get_XML_tree_zip_file.
  now rewrite (open_and_search_no_match (fromstring w) _ _ hnone).
Qed.

Lemma missing_record_ends_task_witness :
  process_members (sample_world formatter_ok bag_without_record) "c.zip"
    bag_without_record "out/c" [atomzip_name; "Bag-obj2/data/COLL_obj2_foxml_atomzip.zip"]
    sample_locals sample_machine
  = (sample_machine, Uncaught AttributeError).
Proof.
  exact (missing_record_ends_task (sample_world formatter_ok bag_without_record)
           "c.zip" bag_without_record "out/c" atomzip_name
           ["Bag-obj2/data/COLL_obj2_foxml_atomzip.zip"] sample_locals sample_machine
           eq_refl eq_refl eq_refl eq_refl).
Defined.

(** X27.  Once the first companion archive has been met, the flag stays
    set, and the record of every later item is looked up without the
    container: it comes from the archive that the drush command made. *)
Theorem later_items_use_drush (w : World) (input_zip : string)
  (zip_archive : archive) (output_directory name : string)
  (l l' : Locals) (m m' : Machine) (ending : turn_end) :
  found_first_atomzip l = true ->
  process_member w input_zip zip_archive output_directory name l m
  = (l', m', ending) ->
  found_first_atomzip l' = true
  /\ forall other_archive,
       locate_record w input_zip other_archive name l m
       = locate_record w input_zip zip_archive name l m.
Proof.
  intros hflag hturn. split.
  - revert hturn. unfold process_member.
    destruct (_ && _); [|now intros [= <- <- <-]].
    destruct (locate_record w input_zip zip_archive name l m) as [[r l1] m1] eqn:L.
    destruct (locate_record_effect _ _ _ _ _ _ _ _ _ L) as (_ & _ & hkeep & _).
    specialize (hkeep hflag).
    destruct r as [[[foxml_root|]|]|e]; try (now intros [= <- <- <-]).
    destruct (classify_and_transform w zip_archive _ foxml_root m1) as [root2 m2].
    pose proof (format_and_write_flag w output_directory
                  (get_bag_name_from_atomzip name) (tostring w root2) l1 m2) as hf.
    destruct (format_and_write w output_directory _ (tostring w root2) l1 m2)
      as [l3 m3]. cbn [fst] in hf.
    unfold record. destruct (converted_foxml_path l3);
      intros [= <- <- <-]; congruence.
  - intros other_archive. unfold locate_record. now rewrite hflag.
Qed.

Lemma later_items_use_drush_witness :
  found_first_atomzip later_locals = true
  /\ forall other_archive,
       locate_record (sample_world formatter_ok bag_with_mods) "c.zip"
         other_archive atomzip_name later_locals sample_machine
       = locate_record (sample_world formatter_ok bag_with_mods) "c.zip"
           bag_with_mods atomzip_name later_locals sample_machine.
Proof.
  exact (later_items_use_drush (sample_world formatter_ok bag_with_mods) "c.zip"
           bag_with_mods "out/c" atomzip_name later_locals later_locals
           sample_machine (print (DrushFailed atomzip_name) sample_machine) Next
           eq_refl ltac:(vm_compute; reflexivity)).
Defined.
